(** * Course progress and quiz grading of the learning platform backend

    A shallow embedding of
    - [src/backend/src/models/course.model.js] (the course schema and
      [calculateStudentProgress]),
    - the quiz schema,
    - [src/backend/src/controllers/course.controller.js]
      ([updateCourseProgress]) and
    - [src/backend/src/controllers/quiz.controller.js],
    followed by the properties of the progress tracker and of the quiz
    grading engine.

    JavaScript numbers are IEEE 754 binary64 values and are modelled by
    Rocq's primitive floats, so every arithmetic operation below rounds the
    way the running program does.  Mongo collections are finite maps from
    the document identifier to the document. *)

From Stdlib Require Import PrimFloat FloatOps SpecFloat FloatAxioms.
From Stdlib Require Import ZArith List Bool.
From stdpp Require Import gmap strings list pretty.
Import ListNotations.

(** * JavaScript values *)

Module Js.

(** A JS [Number]. *)
Abbreviation Number := float.

(** The values a JSON request body or a [Mixed] schema path can hold.
    Arrays and objects are compared by reference by [===]; a value parsed
    from a request and a value loaded from the database are never the same
    reference, so [Obj] carries no payload. *)
Inductive Value :=
| Undefined
| Null
| Bool (b : bool)
| Num (n : Number)
| Str (s : string)
| Obj.

(** [a === b].  On numbers this is IEEE equality: [NaN] differs from
    itself and [+0] equals [-0]. *)
Definition strict_eq (a b : Value) : bool :=
  match a, b with
  | Undefined, Undefined => true
  | Null, Null => true
  | Bool x, Bool y => Bool.eqb x y
  | Num x, Num y => PrimFloat.eqb x y
  | Str x, Str y => String.eqb x y
  | _, _ => false
  end.

(** [Array.prototype.includes] compares with SameValueZero, which differs
    from [===] on [NaN] only. *)
Definition same_value_zero (x y : Number) : bool :=
  PrimFloat.eqb x y || (is_nan x && is_nan y).

(** The Number that holds the integer [z] (correctly rounded when [z]
    needs more than 53 bits). *)
Definition of_Z (z : Z) : Number :=
  SF2Prim (binary_normalize prec emax z 0 false).

Definition of_nat (n : nat) : Number := of_Z (Z.of_nat n).

End Js.

Module Math.

(** [Math.round]: the integer closest to [x], ties towards [+∞]; [NaN],
    the infinities and the zeros are returned as they are, and a negative
    argument that rounds to zero gives [-0].  A finite double is
    [(-1)^s * m * 2^e]; for [e < 0] the result is
    [floor ((±m + 2^(-e-1)) / 2^(-e))], computed exactly on [Z]. *)
Definition round (x : Js.Number) : Js.Number :=
  match Prim2SF x with
  | S754_finite s m e =>
      if (0 <=? e)%Z then x
      else
        let sm := if s then Z.neg m else Z.pos m in
        let n := Z.shiftr (sm + Z.shiftl 1 (- e - 1)) (- e) in
        SF2Prim (binary_normalize prec emax n 0 s)
  | _ => x
  end.

End Math.

Open Scope float_scope.

(** [Array.prototype.findIndex]; [None] stands for [-1]. *)
Fixpoint findIndex {A} (p : A -> bool) (l : list A) : option nat :=
  match l with
  | [] => None
  | x :: l' => if p x then Some 0%nat else S <$> findIndex p l'
  end.

(** [Array.prototype.includes] on an array of strings. *)
Definition includes (l : list string) (x : string) : bool :=
  existsb (String.eqb x) l.

(** An [ObjectId] enters every comparison through [toString()], and a
    [Date] through its time value in milliseconds. *)
Abbreviation ObjectId := string.
Abbreviation Date := Z.

(** * The course schema ([course.model.js]) *)

Inductive EnrollmentStatus := pending | approved | rejected.

Definition EnrollmentStatus_eqb (a b : EnrollmentStatus) : bool :=
  match a, b with
  | pending, pending | approved, approved | rejected, rejected => true
  | _, _ => false
  end.

Module QuizScore.
Record t := {
  quizId : ObjectId;
  score : Js.Number;
  maxScore : Js.Number;
  completedAt : Date
}.
End QuizScore.

Module Progress.
Record t := {
  completedModules : list Js.Number;
  completedLessons : list string;
  quizScores : list QuizScore.t;
  completionPercentage : Js.Number;
  lastAccessedAt : Date
}.

Definition set_completedLessons (l : list string) (p : t) : t :=
  {| completedModules := completedModules p; completedLessons := l;
     quizScores := quizScores p;
     completionPercentage := completionPercentage p;
     lastAccessedAt := lastAccessedAt p |}.

Definition set_completedModules (l : list Js.Number) (p : t) : t :=
  {| completedModules := l; completedLessons := completedLessons p;
     quizScores := quizScores p;
     completionPercentage := completionPercentage p;
     lastAccessedAt := lastAccessedAt p |}.

Definition set_quizScores (l : list QuizScore.t) (p : t) : t :=
  {| completedModules := completedModules p;
     completedLessons := completedLessons p;
     quizScores := l;
     completionPercentage := completionPercentage p;
     lastAccessedAt := lastAccessedAt p |}.

Definition set_completionPercentage (x : Js.Number) (p : t) : t :=
  {| completedModules := completedModules p;
     completedLessons := completedLessons p;
     quizScores := quizScores p;
     completionPercentage := x;
     lastAccessedAt := lastAccessedAt p |}.

Definition set_lastAccessedAt (d : Date) (p : t) : t :=
  {| completedModules := completedModules p;
     completedLessons := completedLessons p;
     quizScores := quizScores p;
     completionPercentage := completionPercentage p;
     lastAccessedAt := d |}.
End Progress.

(** One entry of [course.students]: the enrollment of a student. *)
Module Student.
Record t := {
  student : ObjectId;
  enrollmentStatus : EnrollmentStatus;
  progress : Progress.t
}.

Definition set_progress (p : Progress.t) (s : t) : t :=
  {| student := student s; enrollmentStatus := enrollmentStatus s;
     progress := p |}.
End Student.

Module Material.
Record t := { _id : ObjectId; isRequired : bool }.
End Material.

(** One entry of [course.modules]. *)
Module CourseModule.
Record t := { order : Js.Number; materials : list Material.t }.
End CourseModule.

(** One entry of the embedded [course.quizzes]. *)
Module CourseQuiz.
Record t := { _id : ObjectId; passingScore : Js.Number }.
End CourseQuiz.

Module Course.
Record t := {
  instructor : ObjectId;
  students : list Student.t;
  modules : list CourseModule.t;
  quizzes : list CourseQuiz.t
}.

Definition set_students (l : list Student.t) (c : t) : t :=
  {| instructor := instructor c; students := l; modules := modules c;
     quizzes := quizzes c |}.
End Course.

(** * The quiz schema *)

(** The fields that no handler below reads ([description], [moduleIndex],
    [timeLimit], [options], [explanation], ...) are left out, and so are
    their validators. *)

Module Question.
Record t := {
  questionText : string;
  correctAnswer : Js.Value;
  points : Js.Number
}.
End Question.

(** One graded answer of an attempt. *)
Module Answer.
Record t := {
  questionIndex : nat;
  givenAnswer : Js.Value;
  isCorrect : bool;
  pointsEarned : Js.Number
}.
End Answer.

Module Attempt.
Record t := {
  student : ObjectId;
  score : Js.Number;
  maxScore : Js.Number;
  passed : bool;
  answers : list Answer.t;
  startedAt : Date;
  completedAt : option Date;
  timeSpent : Js.Number
}.
End Attempt.

Module Quiz.
Record t := {
  title : string;
  course : ObjectId;
  passingScore : Js.Number;
  isActive : bool;
  questions : list Question.t;
  attempts : list Attempt.t
}.

Definition set_attempts (l : list Attempt.t) (q : t) : t :=
  {| title := title q; course := course q; passingScore := passingScore q;
     isActive := isActive q; questions := questions q; attempts := l |}.

(** The virtual [totalPoints], also written out in both attempt
    handlers: [questions.reduce((sum, q) => sum + q.points, 0)]. *)
Definition totalPoints (q : t) : Js.Number :=
  fold_left (fun sum qn => sum + Question.points qn) (questions q) 0.
End Quiz.

(** * Requests, responses and the database *)

Module User.
Record t := { id : ObjectId; role : string }.
End User.

(** [req]: the authenticated user, the [:id] (or [:courseId]) route
    parameter and the parsed body. *)
Module Req.
Record t (B : Type) := { user : User.t; params_id : ObjectId; body : B }.
Arguments user {B} _.
Arguments params_id {B} _.
Arguments body {B} _.
End Req.

(** One entry of [completedAttempts] in [getQuizResults]. *)
Module AttemptResult.
Record t := {
  student : ObjectId;
  score : Js.Number;
  maxScore : Js.Number;
  percentage : Js.Number;
  passed : bool;
  answers : list Answer.t;
  startedAt : Date;
  completedAt : option Date;
  timeSpent : Js.Number
}.
End AttemptResult.

Module QuestionStat.
Record t := {
  questionIndex : nat;
  questionText : string;
  totalAttempts : nat;
  correctAnswers : nat;
  correctPercentage : Js.Number
}.
End QuestionStat.

Module Stats.
Record t := {
  totalAttempts : nat;
  passedAttempts : nat;
  passRate : Js.Number;
  averageScore : Js.Number
}.
End Stats.

(** The [data] of the answer of [submitQuizAttempt]. *)
Module Submission.
Record t := {
  attempt : option Attempt.t;
  score : Js.Number;
  maxScore : Js.Number;
  percentage : Js.Number;
  passed : bool
}.
End Submission.

(** The JSON document sent back. [Failure] is [success: false]; every
    other constructor is [success: true] with the [data] it names. *)
Inductive Body :=
| Failure (message : string) (error : option string)
| QuizData (quiz : option Quiz.t)
| NoData
| Continuing (attempt : Attempt.t)
| Started (quizWithoutAnswers : Quiz.t) (attempt : option Attempt.t)
| Submitted (data : Submission.t)
| Results (totalQuestions : nat) (passingScore : Js.Number)
    (stats : Stats.t) (questionStats : list QuestionStat.t)
    (attempts : list AttemptResult.t)
| ProgressData (progress : option Progress.t).

Module Response.
Record t := { status : nat; body : Body }.
End Response.

(** The two collections.  A document is stored under its [_id], so the key
    of an entry is the [_id] of the document. *)
Record DB := {
  Quizzes : gmap ObjectId Quiz.t;
  Courses : gmap ObjectId Course.t
}.

Definition set_Quizzes (m : gmap ObjectId Quiz.t) (db : DB) : DB :=
  {| Quizzes := m; Courses := Courses db |}.

Definition set_Courses (m : gmap ObjectId Course.t) (db : DB) : DB :=
  {| Quizzes := Quizzes db; Courses := m |}.

(** * Handlers: database state, early answers and exceptions *)

Inductive JsError :=
| ReferenceError (message : string)
| TypeError (message : string)
| ValidationError (message : string)
| MongoServerError (message : string).

Definition error_message (e : JsError) : string :=
  match e with
  | ReferenceError m | TypeError m | ValidationError m
  | MongoServerError m => m
  end.

(** What a statement of a handler leaves behind: a value with which the
    handler goes on, an answer that has been sent ([return res...json]),
    or an exception on its way to the [catch] block. *)
Inductive Outcome (A : Type) :=
| Value (a : A)
| Sent (r : Response.t)
| Thrown (e : JsError).
Arguments Value {A} _.
Arguments Sent {A} _.
Arguments Thrown {A} _.

Definition Handler (A : Type) : Type := DB -> Outcome A * DB.

(** The value with which a handler statement goes on, if it does. *)
Definition valueOf {A} (r : Outcome A * DB) : option A :=
  match fst r with
  | Value a => Some a
  | _ => None
  end.

Definition ret {A} (a : A) : Handler A := fun db => (Value a, db).

Definition bind {A B} (m : Handler A) (k : A -> Handler B) : Handler B :=
  fun db =>
    match m db with
    | (Value a, db') => k a db'
    | (Sent r, db') => (Sent r, db')
    | (Thrown e, db') => (Thrown e, db')
    end.

Notation "'let*' x := m 'in' k" := (bind m (fun x => k))
  (at level 10, x pattern, m at level 200, k at level 200).

(** [return res.status(status).json(body)]. *)
Definition reply {A} (status : nat) (b : Body) : Handler A :=
  fun db => (Sent {| Response.status := status; Response.body := b |}, db).

Definition throw {A} (e : JsError) : Handler A :=
  fun db => (Thrown e, db).

(** [try { body } catch (error) { res.status(500).json({success: false,
    message, error: error.message}) }].  What was saved before the
    exception stays saved. *)
Definition try_catch (message : string) (body : Handler Empty_set)
  : DB -> Response.t * DB :=
  fun db =>
    match body db with
    | (Value v, _) => match v with end
    | (Sent r, db') => (r, db')
    | (Thrown e, db') =>
        ({| Response.status := 500;
            Response.body := Failure message (Some (error_message e)) |},
         db')
    end.

Definition Quiz_findById (id : ObjectId) : Handler (option Quiz.t) :=
  fun db => (Value (Quizzes db !! id), db).

Definition Course_findById (id : ObjectId) : Handler (option Course.t) :=
  fun db => (Value (Courses db !! id), db).

(** [quiz.save()] for the document loaded with [_id = id]. *)
Definition Quiz_save (id : ObjectId) (quiz : Quiz.t) : Handler unit :=
  fun db => (Value tt, set_Quizzes (<[id := quiz]> (Quizzes db)) db).

Definition Course_save (id : ObjectId) (course : Course.t) : Handler unit :=
  fun db => (Value tt, set_Courses (<[id := course]> (Courses db)) db).

Definition Quiz_deleteOne (id : ObjectId) : Handler unit :=
  fun db => (Value tt, set_Quizzes (delete id (Quizzes db)) db).

(** * [calculateStudentProgress] ([course.model.js]) *)

(** The body of [module.materials.forEach]; the accumulator holds
    [totalRequiredItems] and [completedItems]. *)
Definition countMaterial (student : Student.t)
    (acc : Js.Number * Js.Number) (material : Material.t)
  : Js.Number * Js.Number :=
  if Material.isRequired material then
    (fst acc + 1,
     if includes (Progress.completedLessons (Student.progress student))
          (Material._id material)
     then snd acc + 1 else snd acc)
  else acc.

Definition countModule (student : Student.t)
    (acc : Js.Number * Js.Number) (module : CourseModule.t)
  : Js.Number * Js.Number :=
  fold_left (countMaterial student) (CourseModule.materials module) acc.

(** The body of [this.quizzes.forEach]: the quiz counts as completed when
    [quizScore && quizScore.score >= quiz.passingScore]. *)
Definition countQuiz (student : Student.t)
    (acc : Js.Number * Js.Number) (quiz : CourseQuiz.t)
  : Js.Number * Js.Number :=
  let quizScore :=
    List.find
      (fun score => String.eqb (QuizScore.quizId score) (CourseQuiz._id quiz))
      (Progress.quizScores (Student.progress student)) in
  (fst acc + 1,
   match quizScore with
   | Some quizScore =>
       if CourseQuiz.passingScore quiz <=? QuizScore.score quizScore
       then snd acc + 1 else snd acc
   | None => snd acc
   end).

(** [(totalRequiredItems, completedItems)] after both loops. *)
Definition countItems (this : Course.t) (student : Student.t)
  : Js.Number * Js.Number :=
  fold_left (countQuiz student) (Course.quizzes this)
    (fold_left (countModule student) (Course.modules this) (0, 0)).

Definition percentageOf (items : Js.Number * Js.Number) : Js.Number :=
  let totalRequiredItems := fst items in
  let completedItems := snd items in
  if 0 <? totalRequiredItems
  then Math.round ((completedItems / totalRequiredItems) * 100)
  else 0.

(** The method called on the course stored under [courseId].  It returns
    the percentage together with the document as the call has left it in
    memory: the caller holds the same object. *)
Definition calculateStudentProgress (courseId : ObjectId) (this : Course.t)
    (studentId : ObjectId) : Handler (Js.Number * Course.t) :=
  match findIndex (fun s => String.eqb (Student.student s) studentId)
          (Course.students this) with
  | None => ret (0, this)
  | Some studentIndex =>
      match Course.students this !! studentIndex with
      | None => throw (TypeError "Cannot read properties of undefined")
      | Some student =>
          let percentage := percentageOf (countItems this student) in
          let this' :=
            Course.set_students
              (<[studentIndex :=
                   Student.set_progress
                     (Progress.set_completionPercentage percentage
                        (Student.progress student)) student]>
                 (Course.students this)) this in
          let* _ := Course_save courseId this' in
          ret (percentage, this')
      end
  end.

(** * [updateCourseProgress] ([course.controller.js]) *)

Module ProgressUpdate.
(** [req.body]: an absent [lessonId] or [moduleIndex] is [None], and
    [completed] is the truth value of what was sent. *)
Record t := {
  lessonId : option string;
  moduleIndex : option Js.Number;
  completed : bool
}.
End ProgressUpdate.

(** [if (lessonId) { ... }]: the empty string is falsy like an absent
    field. *)
Definition updateCompletedLessons (lessonId : option string)
    (completed : bool) (completedLessons : list string) : list string :=
  match lessonId with
  | Some lessonId =>
      if String.eqb lessonId "" then completedLessons
      else if completed && negb (includes completedLessons lessonId)
      then completedLessons ++ [lessonId]
      else if negb completed
      then List.filter (fun id => negb (String.eqb id lessonId))
             completedLessons
      else completedLessons
  | None => completedLessons
  end.

(** [if (moduleIndex !== undefined) { ... }]. *)
Definition updateCompletedModules (moduleIndex : option Js.Number)
    (completed : bool) (completedModules : list Js.Number)
  : list Js.Number :=
  match moduleIndex with
  | Some moduleIndex =>
      if completed
         && negb (existsb (Js.same_value_zero moduleIndex) completedModules)
      then completedModules ++ [moduleIndex]
      else if negb completed
      then List.filter (fun index => negb (index =? moduleIndex))
             completedModules
      else completedModules
  | None => completedModules
  end.

Definition isApprovedStudent (userId : ObjectId) (s : Student.t) : bool :=
  String.eqb (Student.student s) userId
  && EnrollmentStatus_eqb (Student.enrollmentStatus s) approved.

(** [now] is the value of [Date.now()]. *)
Definition updateCourseProgress (req : Req.t ProgressUpdate.t) (now : Date)
  : DB -> Response.t * DB :=
  try_catch "Error updating course progress" (
    let lessonId := ProgressUpdate.lessonId (Req.body req) in
    let moduleIndex := ProgressUpdate.moduleIndex (Req.body req) in
    let completed := ProgressUpdate.completed (Req.body req) in
    let courseId := Req.params_id req in
    let* course := Course_findById courseId in
    match course with
    | None => reply 404 (Failure "Course not found" None)
    | Some course =>
        match findIndex (isApprovedStudent (User.id (Req.user req)))
                (Course.students course) with
        | None =>
            reply 403 (Failure "You are not enrolled in this course" None)
        | Some studentIndex =>
            match Course.students course !! studentIndex with
            | None => throw (TypeError "Cannot read properties of undefined")
            | Some student =>
                let progress := Student.progress student in
                let progress :=
                  Progress.set_completedLessons
                    (updateCompletedLessons lessonId completed
                       (Progress.completedLessons progress)) progress in
                let progress :=
                  Progress.set_completedModules
                    (updateCompletedModules moduleIndex completed
                       (Progress.completedModules progress)) progress in
                let progress := Progress.set_lastAccessedAt now progress in
                let course :=
                  Course.set_students
                    (<[studentIndex := Student.set_progress progress student]>
                       (Course.students course)) course in
                let* r := calculateStudentProgress courseId course
                          (User.id (Req.user req)) in
                let course := snd r in
                let* _ := Course_save courseId course in
                reply 200
                  (ProgressData
                     (Student.progress <$>
                        Course.students course !! studentIndex))
            end
        end
    end).

(** * The quiz controller ([quiz.controller.js]) *)

Module QuizFields.
(** The fields a request body can carry for a quiz; [None] is an absent
    field. *)
Record t := {
  title : option string;
  course : option ObjectId;
  passingScore : option Js.Number;
  isActive : option bool;
  questions : option (list Question.t);
  attempts : option (list Attempt.t)
}.
End QuizFields.

(** The schema validators of [passingScore]: [min: 0] and [max: 100]. *)
Definition validPassingScore (p : Js.Number) : bool :=
  (0 <=? p) && (p <=? 100).

(** [Quiz.create({...req.body, course: courseId})]: the document gets the
    schema defaults for the absent fields and the identifier [newId]. *)
Definition Quiz_create (newId : ObjectId) (fields : QuizFields.t)
    (courseId : ObjectId) : Handler Quiz.t :=
  match QuizFields.title fields with
  | None => throw (ValidationError "Please add a quiz title")
  | Some title =>
      let quiz :=
        {| Quiz.title := title;
           Quiz.course := courseId;
           Quiz.passingScore := default 70 (QuizFields.passingScore fields);
           Quiz.isActive := default true (QuizFields.isActive fields);
           Quiz.questions := default [] (QuizFields.questions fields);
           Quiz.attempts := default [] (QuizFields.attempts fields) |} in
      if negb (validPassingScore (Quiz.passingScore quiz))
      then throw (ValidationError "Quiz validation failed: passingScore")
      else fun db =>
        match Quizzes db !! newId with
        | Some _ => (Thrown (MongoServerError "E11000 duplicate key error"), db)
        | None => (Value quiz, set_Quizzes (<[newId := quiz]> (Quizzes db)) db)
        end
  end.

Definition applyFields (fields : QuizFields.t) (quiz : Quiz.t) : Quiz.t :=
  {| Quiz.title := default (Quiz.title quiz) (QuizFields.title fields);
     Quiz.course := default (Quiz.course quiz) (QuizFields.course fields);
     Quiz.passingScore :=
       default (Quiz.passingScore quiz) (QuizFields.passingScore fields);
     Quiz.isActive :=
       default (Quiz.isActive quiz) (QuizFields.isActive fields);
     Quiz.questions :=
       default (Quiz.questions quiz) (QuizFields.questions fields);
     Quiz.attempts :=
       default (Quiz.attempts quiz) (QuizFields.attempts fields) |}.

(** [Quiz.findByIdAndUpdate(id, req.body, {new: true, runValidators:
    true})]. *)
Definition Quiz_findByIdAndUpdate (id : ObjectId) (fields : QuizFields.t)
  : Handler (option Quiz.t) :=
  if negb (from_option validPassingScore true (QuizFields.passingScore fields))
  then throw (ValidationError "Validation failed: passingScore")
  else fun db =>
    match Quizzes db !! id with
    | None => (Value None, db)
    | Some quiz =>
        let updatedQuiz := applyFields fields quiz in
        (Value (Some updatedQuiz),
         set_Quizzes (<[id := updatedQuiz]> (Quizzes db)) db)
    end.

(** [course.instructor.toString() !== req.user.id && req.user.role !==
    "admin"]. *)
Definition notAuthorized (course : Course.t) (user : User.t) : bool :=
  negb (String.eqb (Course.instructor course) (User.id user))
  && negb (String.eqb (User.role user) "admin").

(** [newId] is the [_id] the driver generates for the new document.  The
    notifications inserted for the approved students go to a collection
    that is not modelled. *)
Definition createQuiz (req : Req.t QuizFields.t) (newId : ObjectId)
  : DB -> Response.t * DB :=
  try_catch "Error creating quiz" (
    let courseId := Req.params_id req in
    let* course := Course_findById courseId in
    match course with
    | None => reply 404 (Failure "Course not found" None)
    | Some course =>
        if notAuthorized course (Req.user req)
        then reply 403
               (Failure "Not authorized to create quizzes for this course"
                  None)
        else
          let* quiz := Quiz_create newId (Req.body req) courseId in
          reply 201 (QuizData (Some quiz))
    end).

Definition updateQuiz (req : Req.t QuizFields.t) : DB -> Response.t * DB :=
  try_catch "Error updating quiz" (
    let* quiz := Quiz_findById (Req.params_id req) in
    match quiz with
    | None => reply 404 (Failure "Quiz not found" None)
    | Some quiz =>
        let* course := Course_findById (Quiz.course quiz) in
        match course with
        | None => throw (TypeError "Cannot read properties of null")
        | Some course =>
            if notAuthorized course (Req.user req)
            then reply 403 (Failure "Not authorized to update this quiz" None)
            else if (0 <? length (Quiz.attempts quiz))%nat
            then reply 400
                   (Failure
                      "Cannot update quiz after students have attempted it"
                      None)
            else
              let* updatedQuiz :=
                Quiz_findByIdAndUpdate (Req.params_id req) (Req.body req) in
              reply 200 (QuizData updatedQuiz)
        end
    end).

Definition deleteQuiz (req : Req.t unit) : DB -> Response.t * DB :=
  try_catch "Error deleting quiz" (
    let* quiz := Quiz_findById (Req.params_id req) in
    match quiz with
    | None => reply 404 (Failure "Quiz not found" None)
    | Some quiz =>
        let* course := Course_findById (Quiz.course quiz) in
        match course with
        | None => throw (TypeError "Cannot read properties of null")
        | Some course =>
            if notAuthorized course (Req.user req)
            then reply 403 (Failure "Not authorized to delete this quiz" None)
            else if (0 <? length (Quiz.attempts quiz))%nat
            then reply 400
                   (Failure
                      "Cannot delete quiz after students have attempted it"
                      None)
            else
              let* _ := Quiz_deleteOne (Req.params_id req) in
              reply 200 NoData
        end
    end).

(** The truth value of an optional field. *)
Definition isSome {A} (o : option A) : bool :=
  match o with Some _ => true | None => false end.

(** [attempt.student.toString() === req.user.id && !attempt.completedAt]:
    a [Date] is an object, hence truthy whenever it is set. *)
Definition isActiveAttemptOf (userId : ObjectId) (attempt : Attempt.t)
  : bool :=
  String.eqb (Attempt.student attempt) userId
  && negb (isSome (Attempt.completedAt attempt)).

Definition hideCorrectAnswer (q : Question.t) : Question.t :=
  {| Question.questionText := Question.questionText q;
     Question.correctAnswer := Js.Undefined;
     Question.points := Question.points q |}.

(** [now] is the value of [new Date()]; the fields that the pushed object
    leaves out take their schema defaults. *)
Definition startQuizAttempt (req : Req.t unit) (now : Date)
  : DB -> Response.t * DB :=
  try_catch "Error starting quiz attempt" (
    let* quiz := Quiz_findById (Req.params_id req) in
    match quiz with
    | None => reply 404 (Failure "Quiz not found" None)
    | Some quiz =>
        let* course := Course_findById (Quiz.course quiz) in
        match course with
        | None => reply 404 (Failure "Associated course not found" None)
        | Some course =>
            let isEnrolled :=
              existsb (isApprovedStudent (User.id (Req.user req)))
                (Course.students course) in
            if negb isEnrolled
            then reply 403
                   (Failure "Not authorized to attempt this quiz" None)
            else if negb (Quiz.isActive quiz)
            then reply 400
                   (Failure "This quiz is not currently active" None)
            else
              let existingAttempt :=
                List.find (isActiveAttemptOf (User.id (Req.user req)))
                  (Quiz.attempts quiz) in
              match existingAttempt with
              | Some existingAttempt => reply 200 (Continuing existingAttempt)
              | None =>
                  let quiz :=
                    Quiz.set_attempts
                      (Quiz.attempts quiz ++
                       [{| Attempt.student := User.id (Req.user req);
                           Attempt.score := 0;
                           Attempt.maxScore := Quiz.totalPoints quiz;
                           Attempt.passed := false;
                           Attempt.answers := [];
                           Attempt.startedAt := now;
                           Attempt.completedAt := None;
                           Attempt.timeSpent := 0 |}]) quiz in
                  let* _ := Quiz_save (Req.params_id req) quiz in
                  let newAttempt :=
                    List.find (isActiveAttemptOf (User.id (Req.user req)))
                      (Quiz.attempts quiz) in
                  let quizWithoutAnswers :=
                    {| Quiz.title := Quiz.title quiz;
                       Quiz.course := Quiz.course quiz;
                       Quiz.passingScore := Quiz.passingScore quiz;
                       Quiz.isActive := Quiz.isActive quiz;
                       Quiz.questions :=
                         map hideCorrectAnswer (Quiz.questions quiz);
                       Quiz.attempts := Quiz.attempts quiz |} in
                  reply 201 (Started quizWithoutAnswers newAttempt)
              end
        end
    end).

(** [answers.forEach((answer, index) => { ... })], from [index] on.  An
    answer beyond the last question reads [correctAnswer] of
    [undefined]. *)
Fixpoint gradeAnswers (questions : list Question.t)
    (answers : list Js.Value) (index : nat)
    (totalScore : Js.Number) (gradedAnswers : list Answer.t)
  : JsError + Js.Number * list Answer.t :=
  match answers with
  | [] => inr (totalScore, gradedAnswers)
  | answer :: rest =>
      match questions !! index with
      | None =>
          inl (TypeError
                 "Cannot read properties of undefined")
      | Some question =>
          let isCorrect :=
            Js.strict_eq answer (Question.correctAnswer question) in
          let pointsEarned :=
            if isCorrect then Question.points question else 0 in
          gradeAnswers questions rest (S index) (totalScore + pointsEarned)
            (gradedAnswers ++
             [{| Answer.questionIndex := index;
                 Answer.givenAnswer := answer;
                 Answer.isCorrect := isCorrect;
                 Answer.pointsEarned := pointsEarned |}])
      end
  end.

(** [(totalScore / maxScore) * 100 >= quiz.passingScore]. *)
Definition passes (totalScore maxScore passingScore : Js.Number) : bool :=
  passingScore <=? (totalScore / maxScore) * 100.

(** [Math.round((totalScore / maxScore) * 100)]. *)
Definition percentage (score maxScore : Js.Number) : Js.Number :=
  Math.round ((score / maxScore) * 100).

(** Evaluation of the identifier [name]: the variables that hold a course
    document (with the [_id] it is stored under) are listed in [scope]. *)
Definition resolve (name : string)
    (scope : list (string * (ObjectId * Course.t)))
  : Handler (ObjectId * Course.t) :=
  match List.find (fun b => String.eqb (fst b) name) scope with
  | Some b => ret (snd b)
  | None => throw (ReferenceError (name ++ " is not defined"))
  end.

(** [submitQuizAttempt] declares [answers], [quiz], [attemptIndex],
    [totalScore], [maxScore], [gradedAnswers] and [studentData]; the module
    imports the models [Quiz], [Course] and [Notification].  No variable in
    scope holds a course document: [course] is declared nowhere. *)
Definition submitQuizAttempt_scope : list (string * (ObjectId * Course.t)) :=
  [].

(** The block guarded by [if (studentData.passed)], in a scope where
    [course] may be bound: the upsert of the quiz score and the
    recomputation of the percentage. *)
Definition updateQuizScore (scope : list (string * (ObjectId * Course.t)))
    (userId quizId : ObjectId) (totalScore maxScore : Js.Number) (now : Date)
  : Handler unit :=
  let* c := resolve "course" scope in
  let courseId := fst c in
  let course := snd c in
  match findIndex (fun s => String.eqb (Student.student s) userId)
          (Course.students course) with
  | None => ret tt
  | Some courseStudentIndex =>
      match Course.students course !! courseStudentIndex with
      | None => throw (TypeError "Cannot read properties of undefined")
      | Some student =>
          let quizScore :=
            {| QuizScore.quizId := quizId;
               QuizScore.score := totalScore;
               QuizScore.maxScore := maxScore;
               QuizScore.completedAt := now |} in
          let quizScores := Progress.quizScores (Student.progress student) in
          let existingScoreIndex :=
            findIndex (fun s => String.eqb (QuizScore.quizId s) quizId)
              quizScores in
          let quizScores :=
            match existingScoreIndex with
            | Some existingScoreIndex =>
                <[existingScoreIndex := quizScore]> quizScores
            | None => quizScores ++ [quizScore]
            end in
          let course :=
            Course.set_students
              (<[courseStudentIndex :=
                   Student.set_progress
                     (Progress.set_quizScores quizScores
                        (Student.progress student)) student]>
                 (Course.students course)) course in
          let* r := calculateStudentProgress courseId course userId in
          Course_save courseId (snd r)
      end
  end.

(** [req.body.answers] is the list of answers; [now k] is the value of the
    [k]-th [new Date()] that the handler evaluates. *)
Definition submitQuizAttempt (req : Req.t (list Js.Value)) (now : nat -> Date)
  : DB -> Response.t * DB :=
  try_catch "Error submitting quiz attempt" (
    let answers := Req.body req in
    let quizId := Req.params_id req in
    let* quiz := Quiz_findById quizId in
    match quiz with
    | None => reply 404 (Failure "Quiz not found" None)
    | Some quiz =>
        match findIndex (isActiveAttemptOf (User.id (Req.user req)))
                (Quiz.attempts quiz) with
        | None => reply 404 (Failure "No active attempt found" None)
        | Some attemptIndex =>
            let maxScore := Quiz.totalPoints quiz in
            match gradeAnswers (Quiz.questions quiz) answers 0 0 [] with
            | inl e => throw e
            | inr (totalScore, gradedAnswers) =>
                match Quiz.attempts quiz !! attemptIndex with
                | None =>
                    throw (TypeError "Cannot set properties of undefined")
                | Some attempt =>
                    let attempt :=
                      {| Attempt.student := Attempt.student attempt;
                         Attempt.score := totalScore;
                         Attempt.maxScore := maxScore;
                         Attempt.passed :=
                           passes totalScore maxScore
                             (Quiz.passingScore quiz);
                         Attempt.answers := gradedAnswers;
                         Attempt.startedAt := Attempt.startedAt attempt;
                         Attempt.completedAt := Some (now 0%nat);
                         Attempt.timeSpent :=
                           Js.of_Z (now 1%nat - Attempt.startedAt attempt)
                           / 1000 |} in
                    let quiz :=
                      Quiz.set_attempts
                        (<[attemptIndex := attempt]> (Quiz.attempts quiz))
                        quiz in
                    let* _ := Quiz_save quizId quiz in
                    let studentData := attempt in
                    let* _ :=
                      if Attempt.passed studentData
                      then updateQuizScore submitQuizAttempt_scope
                             (User.id (Req.user req)) quizId
                             totalScore maxScore (now 2%nat)
                      else ret tt in
                    reply 200
                      (Submitted
                         {| Submission.attempt :=
                              Quiz.attempts quiz !! attemptIndex;
                            Submission.score := totalScore;
                            Submission.maxScore := maxScore;
                            Submission.percentage :=
                              percentage totalScore maxScore;
                            Submission.passed := Attempt.passed attempt |})
                end
            end
        end
    end).

(** [Array.prototype.sort] with the comparator [cmp]: a stable sort, which
    is what the language prescribes when [cmp] is a consistent order. *)
Fixpoint insertSorted {A} (cmp : A -> A -> Js.Number) (x : A) (l : list A)
  : list A :=
  match l with
  | [] => [x]
  | y :: l' =>
      if 0 <? cmp y x then x :: y :: l' else y :: insertSorted cmp x l'
  end.

Definition sort {A} (cmp : A -> A -> Js.Number) (l : list A) : list A :=
  fold_left (fun sorted x => insertSorted cmp x sorted) l [].

Definition toAttemptResult (attempt : Attempt.t) : AttemptResult.t :=
  {| AttemptResult.student := Attempt.student attempt;
     AttemptResult.score := Attempt.score attempt;
     AttemptResult.maxScore := Attempt.maxScore attempt;
     AttemptResult.percentage :=
       percentage (Attempt.score attempt) (Attempt.maxScore attempt);
     AttemptResult.passed := Attempt.passed attempt;
     AttemptResult.answers := Attempt.answers attempt;
     AttemptResult.startedAt := Attempt.startedAt attempt;
     AttemptResult.completedAt := Attempt.completedAt attempt;
     AttemptResult.timeSpent := Attempt.timeSpent attempt |}.

(** [quiz.attempts.filter(..).map(..).sort((a, b) => b.score - a.score)]. *)
Definition completedAttemptsOf (quiz : Quiz.t) : list AttemptResult.t :=
  sort (fun a b => AttemptResult.score b - AttemptResult.score a)
    (map toAttemptResult
       (List.filter (fun attempt => isSome (Attempt.completedAt attempt))
          (Quiz.attempts quiz))).

Definition quizStats (completedAttempts : list AttemptResult.t) : Stats.t :=
  let totalAttempts := length completedAttempts in
  let passedAttempts :=
    length (List.filter AttemptResult.passed completedAttempts) in
  {| Stats.totalAttempts := totalAttempts;
     Stats.passedAttempts := passedAttempts;
     Stats.passRate :=
       if (0 <? totalAttempts)%nat
       then Math.round
              ((Js.of_nat passedAttempts / Js.of_nat totalAttempts) * 100)
       else 0;
     Stats.averageScore :=
       if (0 <? totalAttempts)%nat
       then Math.round
              (fold_left (fun sum a => sum + AttemptResult.percentage a)
                 completedAttempts 0
               / Js.of_nat totalAttempts)
       else 0 |}.

Definition answersQuestion (index : nat) (a : AttemptResult.t) : bool :=
  existsb (fun ans => Nat.eqb (Answer.questionIndex ans) index)
    (AttemptResult.answers a).

(** [a.answers.find((ans) => ans.questionIndex === index)?.isCorrect]. *)
Definition answersCorrectly (index : nat) (a : AttemptResult.t) : bool :=
  match List.find (fun ans => Nat.eqb (Answer.questionIndex ans) index)
          (AttemptResult.answers a) with
  | Some ans => Answer.isCorrect ans
  | None => false
  end.

Definition questionStat (completedAttempts : list AttemptResult.t)
    (index : nat) (question : Question.t) : QuestionStat.t :=
  let attempts := List.filter (answersQuestion index) completedAttempts in
  let correctAnswers :=
    length (List.filter (answersCorrectly index) attempts) in
  {| QuestionStat.questionIndex := index;
     QuestionStat.questionText := Question.questionText question;
     QuestionStat.totalAttempts := length attempts;
     QuestionStat.correctAnswers := correctAnswers;
     QuestionStat.correctPercentage :=
       if (0 <? length attempts)%nat
       then Math.round
              ((Js.of_nat correctAnswers / Js.of_nat (length attempts)) * 100)
       else 0 |}.

Definition getQuizResults (req : Req.t unit) : DB -> Response.t * DB :=
  try_catch "Error retrieving quiz results" (
    let* quiz := Quiz_findById (Req.params_id req) in
    match quiz with
    | None => reply 404 (Failure "Quiz not found" None)
    | Some quiz =>
        let* course := Course_findById (Quiz.course quiz) in
        match course with
        | None => throw (TypeError "Cannot read properties of null")
        | Some course =>
            if notAuthorized course (Req.user req)
            then reply 403
                   (Failure "Not authorized to view results for this quiz"
                      None)
            else
              let completedAttempts := completedAttemptsOf quiz in
              reply 200
                (Results (length (Quiz.questions quiz))
                   (Quiz.passingScore quiz)
                   (quizStats completedAttempts)
                   (imap (questionStat completedAttempts)
                      (Quiz.questions quiz))
                   completedAttempts)
        end
    end).

(** * Sequences of requests *)

(** The handlers that write a quiz document are [createQuiz],
    [updateQuiz], [deleteQuiz], [startQuizAttempt] and
    [submitQuizAttempt]; [getQuiz], [getCourseQuizzes] and
    [getStudentQuizAttempts] change the documents they have loaded in
    memory at most and save nothing. *)

Inductive Call :=
| CreateQuiz (req : Req.t QuizFields.t) (newId : ObjectId)
| UpdateQuiz (req : Req.t QuizFields.t)
| DeleteQuiz (req : Req.t unit)
| StartQuizAttempt (req : Req.t unit) (now : Date)
| SubmitQuizAttempt (req : Req.t (list Js.Value)) (now : nat -> Date)
| GetQuizResults (req : Req.t unit)
| UpdateCourseProgress (req : Req.t ProgressUpdate.t) (now : Date).

Definition serve (c : Call) : DB -> Response.t * DB :=
  match c with
  | CreateQuiz req newId => createQuiz req newId
  | UpdateQuiz req => updateQuiz req
  | DeleteQuiz req => deleteQuiz req
  | StartQuizAttempt req now => startQuizAttempt req now
  | SubmitQuizAttempt req now => submitQuizAttempt req now
  | GetQuizResults req => getQuizResults req
  | UpdateCourseProgress req now => updateCourseProgress req now
  end.

(** The database after the calls of [cs], served one after the other. *)
Definition serveAll (cs : list Call) (db : DB) : DB :=
  fold_left (fun db c => snd (serve c db)) cs db.

(** * Concrete documents used to run the handlers *)

Module Fixture.

Definition newProgress : Progress.t :=
  {| Progress.completedModules := [];
     Progress.completedLessons := [];
     Progress.quizScores := [];
     Progress.completionPercentage := 0;
     Progress.lastAccessedAt := 0 |}.

(** The student ["u1"], enrolled and approved. *)
Definition enrolled (p : Progress.t) : Student.t :=
  {| Student.student := "u1";
     Student.enrollmentStatus := approved;
     Student.progress := p |}.

Definition student1 : User.t := {| User.id := "u1"; User.role := "student" |}.
Definition teacher1 : User.t := {| User.id := "t1"; User.role := "teacher" |}.

Definition course1 : Course.t :=
  {| Course.instructor := "t1";
     Course.students := [enrolled newProgress];
     Course.modules := [];
     Course.quizzes := [] |}.

Definition question (correct points : Js.Number) : Question.t :=
  {| Question.questionText := "?";
     Question.correctAnswer := Js.Num correct;
     Question.points := points |}.

(** An attempt of ["u1"] started at time 1000 and not submitted. *)
Definition started (maxScore : Js.Number) : Attempt.t :=
  {| Attempt.student := "u1";
     Attempt.score := 0;
     Attempt.maxScore := maxScore;
     Attempt.passed := false;
     Attempt.answers := [];
     Attempt.startedAt := 1000;
     Attempt.completedAt := None;
     Attempt.timeSpent := 0 |}.

Definition quizOf (passingScore : Js.Number) (questions : list Question.t)
    (attempts : list Attempt.t) : Quiz.t :=
  {| Quiz.title := "Quiz";
     Quiz.course := "c1";
     Quiz.passingScore := passingScore;
     Quiz.isActive := true;
     Quiz.questions := questions;
     Quiz.attempts := attempts |}.

(** The course ["c1"] and one quiz ["q1"] of that course. *)
Definition dbOf (quiz : Quiz.t) : DB :=
  {| Quizzes := {[ "q1" := quiz ]}; Courses := {[ "c1" := course1 ]} |}.

Definition request {B} (user : User.t) (body : B) : Req.t B :=
  {| Req.user := user; Req.params_id := "q1"; Req.body := body |}.

Definition clock (k : nat) : Date := (61000 + Z.of_nat k)%Z.

(** Two questions of one point each with the correct answers [1] and
    [0], passing score 50, and a started attempt. *)
Definition twoQuestions : Quiz.t :=
  quizOf 50 [question 1 1; question 0 1] [started 2].

(** Two questions worth 29 and 21 points, passing score 58. *)
Definition weighted : Quiz.t :=
  quizOf 58 [question 1 29; question 0 21] [started 50].

(** An attempt of ["u1"] that has been submitted. *)
Definition submitted : Attempt.t :=
  {| Attempt.student := "u1";
     Attempt.score := 1;
     Attempt.maxScore := 2;
     Attempt.passed := true;
     Attempt.answers := [];
     Attempt.startedAt := 1000;
     Attempt.completedAt := Some 2000%Z;
     Attempt.timeSpent := 1 |}.

(** A quiz whose only attempt has been submitted. *)
Definition attempted : Quiz.t :=
  quizOf 50 [question 1 1; question 0 1] [submitted].

(** A course whose only required item is the embedded quiz ["q1"] with
    passing score 50; the student holds the score 1 out of 2 for it. *)
Definition courseWithQuiz : Course.t :=
  {| Course.instructor := "t1";
     Course.students :=
       [enrolled
          {| Progress.completedModules := [];
             Progress.completedLessons := [];
             Progress.quizScores :=
               [{| QuizScore.quizId := "q1";
                   QuizScore.score := 1;
                   QuizScore.maxScore := 2;
                   QuizScore.completedAt := 2000 |}];
             Progress.completionPercentage := 0;
             Progress.lastAccessedAt := 0 |}];
     Course.modules := [];
     Course.quizzes :=
       [{| CourseQuiz._id := "q1"; CourseQuiz.passingScore := 50 |}] |}.

Definition materialId (k : nat) : string := pretty k.

Definition requiredMaterials (n : nat) : list Material.t :=
  map (fun k => {| Material._id := materialId k;
                   Material.isRequired := true |}) (seq 0 n).

(** A course with one module of [total] required materials, of which
    the student has completed the first [completed]. *)
Definition courseWithMaterials (total completed : nat) : Course.t :=
  {| Course.instructor := "t1";
     Course.students :=
       [enrolled
          {| Progress.completedModules := [];
             Progress.completedLessons := map materialId (seq 0 completed);
             Progress.quizScores := [];
             Progress.completionPercentage := 0;
             Progress.lastAccessedAt := 0 |}];
     Course.modules :=
       [{| CourseModule.order := 1;
           CourseModule.materials := requiredMaterials total |}];
     Course.quizzes := [] |}.

Definition emptyDB : DB := {| Quizzes := ∅; Courses := ∅ |}.

(** The database that holds [course] as ["c1"] and no quiz document. *)
Definition dbWith (course : Course.t) : DB :=
  {| Quizzes := ∅; Courses := {[ "c1" := course ]} |}.

(** [PUT /api/courses/c1/progress] by ["u1"]. *)
Definition progressRequest (lessonId : option string) (completed : bool)
  : Req.t ProgressUpdate.t :=
  {| Req.user := student1;
     Req.params_id := "c1";
     Req.body :=
       {| ProgressUpdate.lessonId := lessonId;
          ProgressUpdate.moduleIndex := None;
          ProgressUpdate.completed := completed |} |}.

(** A quiz without questions, passing score 0, and a started attempt. *)
Definition noQuestions : Quiz.t := quizOf 0 [] [started 0].

(** The course [c] with [completedModules] set to [l] for every
    student. *)
Definition withCompletedModules (l : list Js.Number) (c : Course.t)
  : Course.t :=
  Course.set_students
    (map (fun s => Student.set_progress
                     (Progress.set_completedModules l (Student.progress s))
                     s) (Course.students c)) c.

End Fixture.

(** [round(100 * completed / total)] with ties rounded up, as the
    specification words it, on exact integers. *)
Definition spec_roundedPercentage (completed total : Z) : Z :=
  ((2 * (100 * completed) + total) / (2 * total))%Z.

(** The [data] of a successful answer of [submitQuizAttempt]. *)
Definition submissionOf (r : Response.t) : option Submission.t :=
  match Response.body r with
  | Submitted data => Some data
  | _ => None
  end.

(** The [data] of a successful answer of [updateCourseProgress]. *)
Definition progressOf (r : Response.t) : option Progress.t :=
  match Response.body r with
  | ProgressData progress => progress
  | _ => None
  end.

(** The quiz scores that the course ["c1"] holds for its first student. *)
Definition recordedScores (db : DB) : option (list QuizScore.t) :=
  course ← Courses db !! "c1";
  student ← Course.students course !! 0%nat;
  Some (Progress.quizScores (Student.progress student)).

(** What identifies an enrollment: the student and the status. *)
Definition enrollmentKey (s : Student.t) : ObjectId * EnrollmentStatus :=
  (Student.student s, Student.enrollmentStatus s).

Definition lessonsOf (s : Student.t) : list string :=
  Progress.completedLessons (Student.progress s).

(** Two enrollments of the same student whose progress records agree on
    the completed lessons and on the quiz scores. *)
Definition agreeOnLessonsAndScores (s1 s2 : Student.t) : Prop :=
  Student.student s1 = Student.student s2
  /\ lessonsOf s1 = lessonsOf s2
  /\ Progress.quizScores (Student.progress s1)
     = Progress.quizScores (Student.progress s2).

(** The document that [calculateStudentProgress] leaves behind when the
    student is the entry [j] of [this.students]. *)
Definition withPercentage (this : Course.t) (j : nat) (student : Student.t)
  : Course.t :=
  Course.set_students
    (<[j := Student.set_progress
              (Progress.set_completionPercentage
                 (percentageOf (countItems this student))
                 (Student.progress student)) student]>
       (Course.students this)) this.

(** The enrollment on which [updateCourseProgress] acts for [userId]: the
    first approved entry of that student. *)
Definition enrollmentOf (userId : ObjectId) (course : Course.t)
  : option Student.t :=
  i ← findIndex (isApprovedStudent userId) (Course.students course);
  Course.students course !! i.

(** A call of [updateCourseProgress] by [user] on the course [courseId]
    for the lesson [lessonId]; [c] gives the module index, the
    [completed] flag and the time of the call. *)
Definition lessonCall (user : User.t) (courseId : ObjectId)
    (lessonId : string) (c : option Js.Number * bool * Date) : Call :=
  UpdateCourseProgress
    {| Req.user := user;
       Req.params_id := courseId;
       Req.body :=
         {| ProgressUpdate.lessonId := Some lessonId;
            ProgressUpdate.moduleIndex := fst (fst c);
            ProgressUpdate.completed := snd (fst c) |} |}
    (snd c).

(** The part of a quiz against which attempts are graded is that of
    [quiz], and the quiz has been attempted. *)
Definition sameAnswerKey (quiz quiz' : Quiz.t) : Prop :=
  Quiz.questions quiz' = Quiz.questions quiz
  /\ Quiz.passingScore quiz' = Quiz.passingScore quiz
  /\ Quiz.attempts quiz' <> [].

(** The quiz stored under [id] still has the answer key of [quiz]. *)
Definition frozen (id : ObjectId) (quiz : Quiz.t) (db : DB) : Prop :=
  exists quiz', Quizzes db !! id = Some quiz' /\ sameAnswerKey quiz quiz'.

(** The statistics of a question that no completed attempt answered. *)
Definition unansweredStat (index : nat) (question : Question.t)
  : QuestionStat.t :=
  {| QuestionStat.questionIndex := index;
     QuestionStat.questionText := Question.questionText question;
     QuestionStat.totalAttempts := 0;
     QuestionStat.correctAnswers := 0;
     QuestionStat.correctPercentage := 0 |}.

(** * Further handlers of the quiz controller *)

Definition Quiz_set_questions (l : list Question.t) (q : Quiz.t) : Quiz.t :=
  {| Quiz.title := Quiz.title q; Quiz.course := Quiz.course q;
     Quiz.passingScore := Quiz.passingScore q;
     Quiz.isActive := Quiz.isActive q; Quiz.questions := l;
     Quiz.attempts := Quiz.attempts q |}.



(** * Further handlers of the course controller *)

(** [getCourseProgress]: [req.body] stands for [req.query.studentId]
    ([None] when the query has none). *)
Definition getCourseProgress (req : Req.t (option ObjectId))
  : DB -> Response.t * DB :=
  try_catch "Error retrieving course progress" (
    let* course := Course_findById (Req.params_id req) in
    match course with
    | None => reply 404 (Failure "Course not found" None)
    | Some course =>
        let asInstructor :=
          match Req.body req with
          | Some studentId =>
              if negb (String.eqb studentId "")
                 && String.eqb (Course.instructor course)
                      (User.id (Req.user req))
              then Some studentId else None
          | None => None
          end in
        match asInstructor with
        | Some studentId =>
            match List.find (isApprovedStudent studentId)
                    (Course.students course) with
            | None =>
                reply 404 (Failure "Student not found in this course" None)
            | Some studentData =>
                reply 200 (ProgressData (Some (Student.progress studentData)))
            end
        | None =>
            match List.find (isApprovedStudent (User.id (Req.user req)))
                    (Course.students course) with
            | None =>
                reply 403
                  (Failure "You are not enrolled in this course" None)
            | Some studentData =>
                reply 200 (ProgressData (Some (Student.progress studentData)))
            end
        end
    end).

(** The answers of the handlers that send a course or its enrollments. *)
Inductive CourseBody :=
| CourseFailure (message : string)
| CourseData (message : option string) (course : Course.t).

Module CourseResponse.
Record t := { status : nat; body : CourseBody }.
End CourseResponse.

Definition Student_set_enrollmentStatus (e : EnrollmentStatus)
    (s : Student.t) : Student.t :=
  {| Student.student := Student.student s;
     Student.enrollmentStatus := e;
     Student.progress := Student.progress s |}.

Definition Course_set_modules (l : list CourseModule.t) (c : Course.t)
  : Course.t :=
  {| Course.instructor := Course.instructor c;
     Course.students := Course.students c;
     Course.modules := l;
     Course.quizzes := Course.quizzes c |}.

(** The enum value that the schema stores for [status]. *)
Definition decisionOf (status : string) : option EnrollmentStatus :=
  if String.eqb status "approved" then Some approved
  else if String.eqb status "rejected" then Some rejected
  else None.

(** [s.student.toString() === studentId && s.enrollmentStatus ===
    "pending"]. *)
Definition isPendingStudent (studentId : ObjectId) (s : Student.t) : bool :=
  String.eqb (Student.student s) studentId
  && EnrollmentStatus_eqb (Student.enrollmentStatus s) pending.

(** [updateEnrollmentStatus]: [req.body] is [req.body.status] and
    [studentId] is [req.params.studentId].  The pushes to the user
    document and to the notifications go to collections that are not
    modelled, so nothing here reaches the [catch] block. *)
Definition updateEnrollmentStatus (req : Req.t string) (studentId : ObjectId)
    (db : DB) : CourseResponse.t * DB :=
  match decisionOf (Req.body req) with
  | None =>
      ({| CourseResponse.status := 400;
          CourseResponse.body :=
            CourseFailure "Status must be either approved or rejected" |},
       db)
  | Some status =>
      match Courses db !! Req.params_id req with
      | None =>
          ({| CourseResponse.status := 404;
              CourseResponse.body := CourseFailure "Course not found" |}, db)
      | Some course =>
          if notAuthorized course (Req.user req)
          then
            ({| CourseResponse.status := 403;
                CourseResponse.body :=
                  CourseFailure
                    "Not authorized to update enrollment for this course" |},
             db)
          else
            match findIndex (isPendingStudent studentId)
                    (Course.students course) with
            | None =>
                ({| CourseResponse.status := 404;
                    CourseResponse.body :=
                      CourseFailure
                        "No pending enrollment request found for this student"
                 |}, db)
            | Some studentIndex =>
                let course :=
                  Course.set_students
                    (alter (Student_set_enrollmentStatus status) studentIndex
                       (Course.students course)) course in
                ({| CourseResponse.status := 200;
                    CourseResponse.body :=
                      CourseData (Some ("Enrollment " +:+ Req.body req))
                        course |},
                 set_Courses (<[Req.params_id req := course]> (Courses db))
                   db)
            end
      end
  end.

Module MaterialFields.
(** The fields of [req.body] that decide where the material goes and
    whether it is required; [None] is an absent [isRequired]. *)
Record t := { moduleIndex : Js.Number; isRequired : option bool }.
End MaterialFields.

(** [addCourseMaterial]: [newId] is the [_id] that the new material gets.
    [totalDuration] and the descriptive fields are not modelled.  When the
    module pushed for [moduleIndex] is not found again ([NaN] equals no
    order), reading [module.materials] throws and nothing is saved. *)
Definition addCourseMaterial (req : Req.t MaterialFields.t) (newId : ObjectId)
    (db : DB) : CourseResponse.t * DB :=
  let moduleIndex := MaterialFields.moduleIndex (Req.body req) in
  let hasOrder := fun m => CourseModule.order m =? moduleIndex in
  match Courses db !! Req.params_id req with
  | None =>
      ({| CourseResponse.status := 404;
          CourseResponse.body := CourseFailure "Course not found" |}, db)
  | Some course =>
      if notAuthorized course (Req.user req)
      then
        ({| CourseResponse.status := 403;
            CourseResponse.body :=
              CourseFailure "Not authorized to add materials to this course"
         |}, db)
      else
        let modules :=
          match List.find hasOrder (Course.modules course) with
          | Some _ => Course.modules course
          | None =>
              Course.modules course ++
              [{| CourseModule.order := moduleIndex;
                  CourseModule.materials := [] |}]
          end in
        match findIndex hasOrder modules with
        | None =>
            ({| CourseResponse.status := 500;
                CourseResponse.body :=
                  CourseFailure "Error adding course material" |}, db)
        | Some k =>
            let addMaterial := fun module =>
              {| CourseModule.order := CourseModule.order module;
                 CourseModule.materials :=
                   CourseModule.materials module ++
                   [{| Material._id := newId;
                       Material.isRequired :=
                         default true
                           (MaterialFields.isRequired (Req.body req)) |}] |} in
            let course :=
              Course_set_modules (alter addMaterial k modules) course in
            ({| CourseResponse.status := 200;
                CourseResponse.body := CourseData None course |},
             set_Courses (<[Req.params_id req := course]> (Courses db)) db)
        end
  end.

(** * Counting required items *)

(** The required materials of the course, in the order of the loops. *)
Definition requiredMaterialsOf (this : Course.t) : list Material.t :=
  List.filter Material.isRequired
    (concat (map CourseModule.materials (Course.modules this))).

Definition isCompletedMaterial (student : Student.t) (m : Material.t) : bool :=
  includes (Progress.completedLessons (Student.progress student))
    (Material._id m).

(** The quiz is counted as completed for the student. *)
Definition isCountedQuiz (student : Student.t) (quiz : CourseQuiz.t) : bool :=
  match List.find
          (fun score =>
             String.eqb (QuizScore.quizId score) (CourseQuiz._id quiz))
          (Progress.quizScores (Student.progress student)) with
  | Some quizScore => CourseQuiz.passingScore quiz <=? QuizScore.score quizScore
  | None => false
  end.

(** The Number reached from [0] by [n] evaluations of [++]. *)
Definition increments (n : nat) : Js.Number :=
  Nat.iter n (fun x => x + 1) 0.

(** * Attempts of one student *)

(** No two attempts without [completedAt] belong to the same student. *)
Definition oneActivePerStudent (attempts : list Attempt.t) : Prop :=
  forall i j a b,
    attempts !! i = Some a -> attempts !! j = Some b ->
    Attempt.completedAt a = None -> Attempt.completedAt b = None ->
    Attempt.student a = Attempt.student b -> i = j.

(** Every stored quiz satisfies the validators of [passingScore]. *)
Definition validQuizzes (db : DB) : Prop :=
  forall id quiz,
    Quizzes db !! id = Some quiz ->
    validPassingScore (Quiz.passingScore quiz) = true.

(** The graded answer that [submitQuizAttempt] pushes for [answer] at
    [index] when [question] is the question of that index. *)
Definition gradedAnswer (index : nat) (answer : Js.Value)
    (question : Question.t) : Answer.t :=
  {| Answer.questionIndex := index;
     Answer.givenAnswer := answer;
     Answer.isCorrect :=
       Js.strict_eq answer (Question.correctAnswer question);
     Answer.pointsEarned :=
       if Js.strict_eq answer (Question.correctAnswer question)
       then Question.points question else 0 |}.

(** The attempt that [submitQuizAttempt] writes over [attempt]. *)
Definition gradedAttempt (quiz : Quiz.t) (attempt : Attempt.t)
    (totalScore : Js.Number) (gradedAnswers : list Answer.t)
    (now : nat -> Date) : Attempt.t :=
  {| Attempt.student := Attempt.student attempt;
     Attempt.score := totalScore;
     Attempt.maxScore := Quiz.totalPoints quiz;
     Attempt.passed :=
       passes totalScore (Quiz.totalPoints quiz) (Quiz.passingScore quiz);
     Attempt.answers := gradedAnswers;
     Attempt.startedAt := Attempt.startedAt attempt;
     Attempt.completedAt := Some (now 0%nat);
     Attempt.timeSpent :=
       Js.of_Z (now 1%nat - Attempt.startedAt attempt) / 1000 |}.

(** The attempt in the answer of [startQuizAttempt]. *)
Definition attemptOf (r : Response.t) : option Attempt.t :=
  match Response.body r with
  | Continuing attempt => Some attempt
  | Started _ attempt => attempt
  | _ => None
  end.

(** The calls of students on attempts. *)
Definition isAttemptCall (c : Call) : Prop :=
  match c with
  | StartQuizAttempt _ _ | SubmitQuizAttempt _ _ => True
  | _ => False
  end.

(** The attempt that [startQuizAttempt] pushes. *)
Definition newAttempt (userId : ObjectId) (quiz : Quiz.t) (now : Date)
  : Attempt.t :=
  {| Attempt.student := userId;
     Attempt.score := 0;
     Attempt.maxScore := Quiz.totalPoints quiz;
     Attempt.passed := false;
     Attempt.answers := [];
     Attempt.startedAt := now;
     Attempt.completedAt := None;
     Attempt.timeSpent := 0 |}.

(** The progress record after the three updates of
    [updateCourseProgress], before the percentage is recomputed. *)
Definition progressAfter (body : ProgressUpdate.t) (now : Date)
    (progress : Progress.t) : Progress.t :=
  Progress.set_lastAccessedAt now
    (Progress.set_completedModules
       (updateCompletedModules (ProgressUpdate.moduleIndex body)
          (ProgressUpdate.completed body)
          (Progress.completedModules progress))
       (Progress.set_completedLessons
          (updateCompletedLessons (ProgressUpdate.lessonId body)
             (ProgressUpdate.completed body)
             (Progress.completedLessons progress)) progress)).

(** [completedModules.includes(moduleIndex)]. *)
Definition includesModule (modules : list Js.Number) (moduleIndex : Js.Number)
  : bool :=
  existsb (Js.same_value_zero moduleIndex) modules.

(** * Deleting a course *)

Definition Course_deleteOne (id : ObjectId) : Handler unit :=
  fun db => (Value tt, set_Courses (delete id (Courses db)) db).

(** [deleteCourse].  The two updates of the user documents go to a
    collection that is not modelled; no statement touches the quiz
    collection. *)
Definition deleteCourse (req : Req.t unit) : DB -> Response.t * DB :=
  try_catch "Error deleting course" (
    let* course := Course_findById (Req.params_id req) in
    match course with
    | None => reply 404 (Failure "Course not found" None)
    | Some course =>
        if notAuthorized course (Req.user req)
        then reply 403 (Failure "Not authorized to delete this course" None)
        else
          let* _ := Course_deleteOne (Req.params_id req) in
          reply 200 NoData
    end).

(** * Properties *)

(** ** Array searches *)

Section FindIndex.

Context {A : Type} (p : A -> bool).

Lemma findIndex_Some (l : list A) (i : nat) :
  findIndex p l = Some i ->
  exists x, l !! i = Some x /\ p x = true
            /\ forall j y, (j < i)%nat -> l !! j = Some y -> p y = false.
Proof.
  revert i. induction l as [|a l IH]; intros i; simpl; [discriminate|].
  destruct (p a) eqn:Ha.
  - intros [= <-]. exists a. repeat split; trivial. intros j y Hj. lia.
  - destruct (findIndex p l) as [k|]; simpl; [|discriminate].
    intros [= <-]. destruct (IH k eq_refl) as (x & Hx & Hpx & Hbefore).
    exists x. repeat split; trivial.
    intros [|j] y Hj; simpl.
    + intros [= <-]. exact Ha.
    + apply Hbefore. lia.
Qed.

Lemma findIndex_None (l : list A) :
  findIndex p l = None <-> Forall (fun x => p x = false) l.
Proof.
  induction l as [|a l IH]; simpl.
  - split; [constructor | reflexivity].
  - destruct (p a) eqn:Ha.
    + split; [discriminate|]. intros H. inversion H; congruence.
    + destruct (findIndex p l); simpl.
      * split; [discriminate|]. intros H. inversion H; subst.
        apply IH in H3. discriminate.
      * split; [|reflexivity]. intros _. constructor; [exact Ha|].
        apply IH. reflexivity.
Qed.

End FindIndex.

(** A search that looks at a projection of the elements only. *)
Lemma findIndex_fmap {A B} (f : A -> B) (p : B -> bool) (l : list A) :
  findIndex (fun x => p (f x)) l = findIndex p (f <$> l).
Proof.
  induction l as [|a l IH]; simpl; [reflexivity|].
  destruct (p (f a)); [reflexivity|]. rewrite IH. reflexivity.
Qed.

Lemma includes_In (l : list string) (x : string) :
  includes l x = true <-> In x l.
Proof.
  unfold includes. rewrite existsb_exists. split.
  - intros (y & Hy & Heq). apply String.eqb_eq in Heq. subst. exact Hy.
  - intros H. exists x. split; [exact H | apply String.eqb_refl].
Qed.

(** ** Submission of a passing attempt *)

Section Submit.

Variables (req : Req.t (list Js.Value)) (now : nat -> Date) (db : DB).
Variables (quiz : Quiz.t) (attemptIndex : nat) (attempt : Attempt.t).
Variables (totalScore : Js.Number) (gradedAnswers : list Answer.t).

Hypothesis Hquiz : Quizzes db !! Req.params_id req = Some quiz.
Hypothesis Hindex :
  findIndex (isActiveAttemptOf (User.id (Req.user req)))
    (Quiz.attempts quiz) = Some attemptIndex.
Hypothesis Hattempt : Quiz.attempts quiz !! attemptIndex = Some attempt.
Hypothesis Hgraded :
  gradeAnswers (Quiz.questions quiz) (Req.body req) 0 0 []
  = inr (totalScore, gradedAnswers).

(** Whenever the graded attempt passes, the handler reaches the
    undeclared [course]: the attempt has been saved, the answer is the
    500 of the [catch] block and no course document is written. *)
Lemma submitQuizAttempt_passed_throws :
  passes totalScore (Quiz.totalPoints quiz) (Quiz.passingScore quiz) = true ->
  fst (submitQuizAttempt req now db)
  = {| Response.status := 500;
       Response.body :=
         Failure "Error submitting quiz attempt"
           (Some "course is not defined") |}
  /\ Courses (snd (submitQuizAttempt req now db)) = Courses db.
Proof.
  intros Hpass.
  unfold submitQuizAttempt, try_catch, bind, Quiz_findById.
  rewrite Hquiz, Hindex, Hgraded, Hattempt.
  cbn -[passes Quiz.totalPoints]. rewrite Hpass. split; reflexivity.
Qed.

(** A failed attempt never touches [course] and is answered with 200. *)
Lemma submitQuizAttempt_failed_replies :
  passes totalScore (Quiz.totalPoints quiz) (Quiz.passingScore quiz) = false ->
  Response.status (fst (submitQuizAttempt req now db)) = 200%nat
  /\ Courses (snd (submitQuizAttempt req now db)) = Courses db.
Proof.
  intros Hpass.
  unfold submitQuizAttempt, try_catch, bind, Quiz_findById.
  rewrite Hquiz, Hindex, Hgraded, Hattempt.
  cbn -[passes Quiz.totalPoints]. rewrite Hpass. split; reflexivity.
Qed.

End Submit.

(** C1.  The claim: a passing submission upserts the quiz score of the
    student in the course, recomputes the completion percentage and
    returns the graded attempt with the summary.  The code, on the
    scenario of the specification (correct answers 1 and 0, one point
    each, passing score 50, answers 1 and 1): the attempt is saved as
    passed, the handler then throws on the undeclared [course], answers
    500 and records no score. *)
Theorem submitQuizAttempt_passing_attempt_not_recorded :
  let db := Fixture.dbOf Fixture.twoQuestions in
  let r := submitQuizAttempt
             (Fixture.request Fixture.student1 [Js.Num 1; Js.Num 1])
             Fixture.clock db in
  fst r = {| Response.status := 500;
             Response.body :=
               Failure "Error submitting quiz attempt"
                 (Some "course is not defined") |}
  /\ submissionOf (fst r) = None
  /\ recordedScores (snd r) = Some []
  /\ (quiz ← Quizzes (snd r) !! "q1";
      attempt ← Quiz.attempts quiz !! 0%nat;
      Some (Attempt.score attempt, Attempt.maxScore attempt,
            Attempt.passed attempt, isSome (Attempt.completedAt attempt)))
     = Some (1, 2, true, true).
Proof. vm_compute. repeat split; reflexivity. Qed.

(** C3.  The claim: [passed] holds exactly when the percentage reaches
    the passing score, the boundary included.  The code, for 29 points
    out of 50 against a passing score of 58: [(29 / 50) * 100] is
    [57.99999999999999] in double precision, so the attempt is graded as
    failed while the same answer reports the percentage 58; the
    expression of the claim, [100 * 29 / 50], is exactly 58.  (With
    [maxScore = 0] the quotient is [NaN] and the attempt is graded as
    failed, as the claim asks.) *)
Theorem submitQuizAttempt_boundary_not_passed :
  let r := submitQuizAttempt
             (Fixture.request Fixture.student1 [Js.Num 1; Js.Num 1])
             Fixture.clock (Fixture.dbOf Fixture.weighted) in
  let r0 := submitQuizAttempt (Fixture.request Fixture.student1 [])
              Fixture.clock (Fixture.dbOf Fixture.noQuestions) in
  Quiz.passingScore Fixture.weighted = 58
  /\ Response.status (fst r) = 200%nat
  /\ (data ← submissionOf (fst r);
      Some (Submission.score data, Submission.maxScore data,
            Submission.percentage data, Submission.passed data))
     = Some (29, 50, 58, false)
  /\ ((29 / 50) * 100 <? 58) = true
  /\ (58 <=? 100 * 29 / 50) = true
  /\ (data ← submissionOf (fst r0);
      Some (Submission.score data, Submission.maxScore data,
            Submission.passed data))
     = Some (0, 0, false).
Proof. vm_compute. repeat split; reflexivity. Qed.

(** C2.  The claim: once every required material is completed and every
    quiz is passed, the completion percentage is 100.  The code compares
    the recorded points with the passing score, which is a percentage: a
    score of 1 out of 2 passes a quiz whose passing score is 50, and the
    course whose only required item is that quiz stays at 0. *)
Theorem calculateStudentProgress_passed_quiz_not_counted :
  let r := updateCourseProgress (Fixture.progressRequest None true) 3000%Z
             (Fixture.dbWith Fixture.courseWithQuiz) in
  passes 1 2 50 = true
  /\ (student ← Course.students Fixture.courseWithQuiz !! 0%nat;
      Some (countItems Fixture.courseWithQuiz student)) = Some (1, 0)
  /\ fst <$> valueOf (calculateStudentProgress "c1" Fixture.courseWithQuiz
                       "u1" (Fixture.dbWith Fixture.courseWithQuiz))
     = Some 0
  /\ Response.status (fst r) = 200%nat
  /\ Progress.completionPercentage <$> progressOf (fst r) = Some 0.
Proof. vm_compute. repeat split; reflexivity. Qed.

(** C5.  The claim: the percentage is [round(100 * completed / total)]
    with ties rounded up.  The code, for 23 completed items out of 40
    required ones: [(23 / 40) * 100] is [57.49999999999999] in double
    precision and [Math.round] gives 57, where the formula of the claim
    gives 58. *)
Theorem calculateStudentProgress_rounds_below_half :
  let r := updateCourseProgress
             (Fixture.progressRequest (Some (Fixture.materialId 22)) true)
             3000%Z (Fixture.dbWith (Fixture.courseWithMaterials 40 22)) in
  (student ← Course.students (Fixture.courseWithMaterials 40 23) !! 0%nat;
   Some (countItems (Fixture.courseWithMaterials 40 23) student))
  = Some (40, 23)
  /\ fst <$> valueOf (calculateStudentProgress "c1"
                       (Fixture.courseWithMaterials 40 23) "u1"
                       (Fixture.dbWith (Fixture.courseWithMaterials 40 23)))
     = Some 57
  /\ spec_roundedPercentage 23 40 = 58%Z
  /\ Math.round (100 * 23 / 40) = 58
  /\ Response.status (fst r) = 200%nat
  /\ (progress ← progressOf (fst r);
      Some (length (Progress.completedLessons progress),
            Progress.completionPercentage progress)) = Some (23%nat, 57).
Proof. vm_compute. repeat split; reflexivity. Qed.

(** ** Recomputation of the completion percentage *)

Section CalculateStudentProgress.

Variables (courseId : ObjectId) (this : Course.t) (studentId : ObjectId).
Variable db : DB.

(** The method never throws: either the student is not in the course
    and it returns 0 without saving, or it saves the recomputed
    percentage of the first entry of that student. *)
Lemma calculateStudentProgress_run :
  (findIndex (fun s => String.eqb (Student.student s) studentId)
     (Course.students this) = None
   /\ calculateStudentProgress courseId this studentId db
      = (Value (0, this), db))
  \/ (exists j student,
        findIndex (fun s => String.eqb (Student.student s) studentId)
          (Course.students this) = Some j
        /\ Course.students this !! j = Some student
        /\ Student.student student = studentId
        /\ calculateStudentProgress courseId this studentId db
           = (Value (percentageOf (countItems this student),
                     withPercentage this j student),
              set_Courses
                (<[courseId := withPercentage this j student]> (Courses db))
                db)).
Proof.
  unfold calculateStudentProgress.
  destruct (findIndex _ (Course.students this)) as [j|] eqn:Hj.
  - right. destruct (findIndex_Some _ _ _ Hj) as (student & Hs & Hp & _).
    exists j, student. rewrite Hs.
    apply String.eqb_eq in Hp. repeat split; trivial.
  - left. split; reflexivity.
Qed.

End CalculateStudentProgress.

(** The counters read the lessons and the quiz scores of the student and
    nothing else of the progress record. *)
Lemma countItems_agree (this : Course.t) (s1 s2 : Student.t) :
  agreeOnLessonsAndScores s1 s2 -> countItems this s1 = countItems this s2.
Proof.
  intros (_ & Hlessons & Hscores). unfold lessonsOf in Hlessons.
  unfold countItems.
  assert (Hmat : forall acc m, countMaterial s1 acc m = countMaterial s2 acc m).
  { intros acc m. unfold countMaterial. rewrite Hlessons. reflexivity. }
  assert (Hmod : forall acc m, countModule s1 acc m = countModule s2 acc m).
  { intros acc m. unfold countModule. revert acc.
    induction (CourseModule.materials m) as [|x l IH]; intros acc; simpl;
      [reflexivity|]. rewrite Hmat. apply IH. }
  assert (Hquiz : forall acc q, countQuiz s1 acc q = countQuiz s2 acc q).
  { intros acc q. unfold countQuiz. rewrite Hscores. reflexivity. }
  assert (Hmods : forall l acc,
             fold_left (countModule s1) l acc
             = fold_left (countModule s2) l acc).
  { induction l as [|x l IH]; intros acc; simpl; [reflexivity|].
    rewrite Hmod. apply IH. }
  rewrite Hmods.
  generalize (fold_left (countModule s2) (Course.modules this) (0, 0)).
  induction (Course.quizzes this) as [|x l IH]; intros acc; simpl;
    [reflexivity|]. rewrite Hquiz. apply IH.
Qed.

Lemma findIndex_student_agree (studentId : ObjectId) (l1 l2 : list Student.t) :
  Forall2 agreeOnLessonsAndScores l1 l2 ->
  findIndex (fun s => String.eqb (Student.student s) studentId) l1
  = findIndex (fun s => String.eqb (Student.student s) studentId) l2.
Proof.
  induction 1 as [|s1 s2 l1 l2 (Hid & _) _ IH]; simpl; [reflexivity|].
  rewrite Hid, IH. reflexivity.
Qed.

(** C8.  The percentage that [calculateStudentProgress] returns does not
    depend on [completedModules]: on two versions of a course with the
    same modules and quizzes, whose enrollments agree on the completed
    lessons and on the quiz scores (and may differ in the completed
    modules, the stored percentage and the access time), the method
    returns the same percentage for every student. *)
Theorem calculateStudentProgress_ignores_completedModules
    (courseId : ObjectId) (this1 this2 : Course.t) (studentId : ObjectId)
    (db : DB) :
  Course.modules this1 = Course.modules this2 ->
  Course.quizzes this1 = Course.quizzes this2 ->
  Forall2 agreeOnLessonsAndScores (Course.students this1)
    (Course.students this2) ->
  exists percentage,
    fst <$> valueOf (calculateStudentProgress courseId this1 studentId db)
    = Some percentage
    /\ fst <$> valueOf (calculateStudentProgress courseId this2 studentId db)
       = Some percentage.
Proof.
  intros Hmodules Hquizzes Hstudents.
  pose proof (findIndex_student_agree studentId _ _ Hstudents) as Hidx.
  destruct (calculateStudentProgress_run courseId this1 studentId db)
    as [[Hnone1 ->]|(j & s1 & Hj1 & Hs1 & _ & ->)];
    destruct (calculateStudentProgress_run courseId this2 studentId db)
      as [[Hnone2 ->]|(j' & s2 & Hj2 & Hs2 & _ & ->)];
    try congruence.
  - exists 0. split; reflexivity.
  - assert (j' = j) as -> by congruence.
    exists (percentageOf (countItems this1 s1)). split; [reflexivity|].
    unfold valueOf; simpl. do 2 f_equal.
    assert (Hagree : agreeOnLessonsAndScores s1 s2).
    { eapply Forall2_lookup_lr; eauto. }
    rewrite (countItems_agree this1 s1 s2 Hagree).
    unfold countItems. rewrite Hmodules, Hquizzes. reflexivity.
Qed.

Lemma calculateStudentProgress_ignores_completedModules_witness :
  exists percentage,
    fst <$> valueOf (calculateStudentProgress "c1"
                       (Fixture.courseWithMaterials 2 1) "u1" Fixture.emptyDB)
    = Some percentage
    /\ fst <$> valueOf (calculateStudentProgress "c1"
                          (Fixture.withCompletedModules [1; 2]
                             (Fixture.courseWithMaterials 2 1))
                          "u1" Fixture.emptyDB)
       = Some percentage.
Proof.
  apply calculateStudentProgress_ignores_completedModules.
  - reflexivity.
  - reflexivity.
  - repeat constructor.
Defined.

Lemma filter_all {A} (p : A -> bool) (l : list A) :
  Forall (fun x => p x = true) l -> List.filter p l = l.
Proof.
  induction 1 as [|x l Hx _ IH]; simpl; [reflexivity|].
  rewrite Hx, IH. reflexivity.
Qed.

Lemma fmap_insert_same {A B} (f : A -> B) (l : list A) (i : nat) (x y : A) :
  l !! i = Some y -> f x = f y -> f <$> <[i := x]> l = f <$> l.
Proof.
  intros Hy Hf. rewrite list_fmap_insert, Hf. apply list_insert_id.
  rewrite list_lookup_fmap, Hy. reflexivity.
Qed.

Section UpdateCompletedLessons.

Variables (lessonId : string) (l : list string).
Hypothesis Hid : lessonId <> "".

Lemma updateCompletedLessons_In (completed : bool) :
  In lessonId (updateCompletedLessons (Some lessonId) completed l)
  <-> completed = true.
Proof.
  unfold updateCompletedLessons.
  destruct (String.eqb_spec lessonId "") as [|_]; [contradiction|].
  destruct completed; simpl.
  - destruct (includes l lessonId) eqn:Hin; simpl.
    + apply includes_In in Hin. tauto.
    + rewrite in_app_iff. simpl. tauto.
  - rewrite filter_In, String.eqb_refl. simpl. intuition discriminate.
Qed.

Lemma updateCompletedLessons_present :
  In lessonId l -> updateCompletedLessons (Some lessonId) true l = l.
Proof.
  intros Hin. apply includes_In in Hin. unfold updateCompletedLessons.
  destruct (String.eqb_spec lessonId "") as [|_]; [contradiction|].
  simpl. rewrite Hin. reflexivity.
Qed.

Lemma updateCompletedLessons_absent :
  ~ In lessonId l -> updateCompletedLessons (Some lessonId) false l = l.
Proof.
  intros Hin. unfold updateCompletedLessons.
  destruct (String.eqb_spec lessonId "") as [|_]; [contradiction|].
  simpl. apply filter_all. apply List.Forall_forall. intros x Hx.
  destruct (String.eqb_spec x lessonId); [subst; contradiction | reflexivity].
Qed.

End UpdateCompletedLessons.

Section UpdateCourseProgress.

Variables (req : Req.t ProgressUpdate.t) (now : Date) (db : DB).
Variables (course : Course.t) (i : nat) (student : Student.t).

Hypothesis Hcourse : Courses db !! Req.params_id req = Some course.
Hypothesis Hindex :
  findIndex (isApprovedStudent (User.id (Req.user req)))
    (Course.students course) = Some i.
Hypothesis Hstudent : Course.students course !! i = Some student.

Lemma updateCourseProgress_run :
  exists course',
    updateCourseProgress req now db
    = ({| Response.status := 200;
          Response.body :=
            ProgressData
              (Student.progress <$> Course.students course' !! i) |},
       set_Courses (<[Req.params_id req := course']> (Courses db)) db)
    /\ enrollmentKey <$> Course.students course'
       = enrollmentKey <$> Course.students course
    /\ lessonsOf <$> Course.students course'
       = <[i := updateCompletedLessons
                  (ProgressUpdate.lessonId (Req.body req))
                  (ProgressUpdate.completed (Req.body req))
                  (lessonsOf student)]>
           (lessonsOf <$> Course.students course).
Proof.
  unfold updateCourseProgress, try_catch, bind, Course_findById.
  simpl. rewrite Hcourse, Hindex, Hstudent.
  match goal with
  | |- context [calculateStudentProgress ?c ?t ?u ?d] =>
      destruct (calculateStudentProgress_run c t u d)
        as [[_ ->]|(j & sj & _ & Hsj & _ & ->)]
  end.
  - simpl. eexists (Course.set_students _ course).
    split; [reflexivity|]. cbn [Course.students Course.set_students].
    split.
    + apply fmap_insert_same with (y := student);
        [exact Hstudent | reflexivity].
    + rewrite list_fmap_insert. reflexivity.
  - cbn [Course.students Course.set_students] in Hsj.
    simpl. eexists (Course.set_students _ course). split.
    { unfold set_Courses. simpl. rewrite insert_insert_eq. reflexivity. }
    cbn [Course.students Course.set_students]. split.
    + rewrite (fmap_insert_same enrollmentKey _ j _ sj)
        by (exact Hsj || reflexivity).
      apply fmap_insert_same with (y := student);
        [exact Hstudent | reflexivity].
    + rewrite (fmap_insert_same lessonsOf _ j _ sj)
        by (exact Hsj || reflexivity).
      rewrite list_fmap_insert. reflexivity.
Qed.

End UpdateCourseProgress.

(** ** Toggling the completion of a lesson *)

Section LessonToggling.

Variables (user : User.t) (courseId : ObjectId) (lessonId : string).
Hypothesis Hid : lessonId <> "".

Lemma findIndex_approved_keys (l1 l2 : list Student.t) :
  enrollmentKey <$> l1 = enrollmentKey <$> l2 ->
  findIndex (isApprovedStudent (User.id user)) l1
  = findIndex (isApprovedStudent (User.id user)) l2.
Proof.
  intros Hkeys.
  pose (p := fun k : ObjectId * EnrollmentStatus =>
               String.eqb (fst k) (User.id user)
               && EnrollmentStatus_eqb (snd k) approved).
  change (findIndex (fun s => p (enrollmentKey s)) l1
          = findIndex (fun s => p (enrollmentKey s)) l2).
  rewrite (findIndex_fmap enrollmentKey p l1),
    (findIndex_fmap enrollmentKey p l2), Hkeys. reflexivity.
Qed.

(** One call: the answer is 200, the enrollment keeps its place and its
    lessons are updated by [updateCompletedLessons]. *)
Lemma lessonCall_step (c : option Js.Number * bool * Date) (db : DB)
    (course : Course.t) (i : nat) (student : Student.t) :
  Courses db !! courseId = Some course ->
  findIndex (isApprovedStudent (User.id user)) (Course.students course)
  = Some i ->
  Course.students course !! i = Some student ->
  exists course' student',
    Courses (snd (serve (lessonCall user courseId lessonId c) db))
      !! courseId = Some course'
    /\ findIndex (isApprovedStudent (User.id user))
         (Course.students course') = Some i
    /\ Course.students course' !! i = Some student'
    /\ lessonsOf student'
       = updateCompletedLessons (Some lessonId) (snd (fst c))
           (lessonsOf student)
    /\ Response.status (fst (serve (lessonCall user courseId lessonId c) db))
       = 200%nat.
Proof.
  intros Hcourse Hindex Hstudent. unfold lessonCall, serve.
  match goal with
  | |- context [updateCourseProgress ?r ?n db] =>
      destruct (updateCourseProgress_run r n db course i student
                  Hcourse Hindex Hstudent)
        as (course' & -> & Hkeys & Hlessons)
  end.
  cbn [fst snd Req.body Req.params_id ProgressUpdate.lessonId
       ProgressUpdate.completed Response.status] in *.
  assert (Hi : exists student', Course.students course' !! i = Some student').
  { assert (H : (enrollmentKey <$> Course.students course') !! i
                = Some (enrollmentKey student)).
    { rewrite Hkeys, list_lookup_fmap, Hstudent. reflexivity. }
    rewrite list_lookup_fmap in H.
    destruct (Course.students course' !! i) as [s|]; [eauto | discriminate]. }
  destruct Hi as (student' & Hstudent').
  exists course', student'. repeat split.
  - unfold set_Courses. simpl. apply lookup_insert_eq.
  - rewrite (findIndex_approved_keys _ _ Hkeys). exact Hindex.
  - exact Hstudent'.
  - assert (H : (lessonsOf <$> Course.students course') !! i
                = Some (lessonsOf student')).
    { rewrite list_lookup_fmap, Hstudent'. reflexivity. }
    rewrite Hlessons, list_lookup_insert_eq in H.
    + congruence.
    + rewrite length_fmap. eapply lookup_lt_Some; eauto.
Qed.

(** Any number of calls leaves the enrollment in place. *)
Lemma lessonCalls_enrolled (calls : list (option Js.Number * bool * Date)) :
  forall (db : DB) (course : Course.t) (i : nat) (student : Student.t),
    Courses db !! courseId = Some course ->
    findIndex (isApprovedStudent (User.id user)) (Course.students course)
    = Some i ->
    Course.students course !! i = Some student ->
    exists course' student',
      Courses (serveAll (lessonCall user courseId lessonId <$> calls) db)
        !! courseId = Some course'
      /\ findIndex (isApprovedStudent (User.id user))
           (Course.students course') = Some i
      /\ Course.students course' !! i = Some student'.
Proof.
  induction calls as [|c calls IH]; intros db course i student Hc Hi Hs.
  - exists course, student. auto.
  - destruct (lessonCall_step c db course i student Hc Hi Hs)
      as (course1 & student1 & Hc1 & Hi1 & Hs1 & _).
    simpl. unfold serveAll in IH. eapply IH; eauto.
Qed.

End LessonToggling.

(** C7.  For an approved enrollment and a lesson identifier (a non-empty
    string), after any sequence of [updateCourseProgress] calls on that
    lesson the identifier is in [completedLessons] exactly when the last
    call passed [completed = true]; and a call whose flag agrees with the
    current membership (insertion of a present identifier, removal of an
    absent one) is answered with 200 and leaves [completedLessons] as it
    was. *)
Theorem updateCourseProgress_last_call_decides
    (user : User.t) (courseId : ObjectId) (lessonId : string) (db : DB)
    (course : Course.t) (student : Student.t)
    (calls : list (option Js.Number * bool * Date))
    (last : option Js.Number * bool * Date) :
  lessonId <> "" ->
  Courses db !! courseId = Some course ->
  enrollmentOf (User.id user) course = Some student ->
  (exists course' student',
      Courses (serveAll (lessonCall user courseId lessonId <$> calls ++ [last])
                 db) !! courseId = Some course'
      /\ enrollmentOf (User.id user) course' = Some student'
      /\ (In lessonId (lessonsOf student') <-> snd (fst last) = true))
  /\ ((In lessonId (lessonsOf student) <-> snd (fst last) = true) ->
      let r := serve (lessonCall user courseId lessonId last) db in
      Response.status (fst r) = 200%nat
      /\ exists course' student',
           Courses (snd r) !! courseId = Some course'
           /\ enrollmentOf (User.id user) course' = Some student'
           /\ lessonsOf student' = lessonsOf student).
Proof.
  intros Hid Hcourse Henrolled. unfold enrollmentOf in Henrolled.
  destruct (findIndex (isApprovedStudent (User.id user))
              (Course.students course)) as [i|] eqn:Hindex;
    [|discriminate]. simpl in Henrolled.
  split.
  - destruct (lessonCalls_enrolled user courseId lessonId calls db course i
                student Hcourse Hindex Henrolled)
      as (course1 & student1 & Hc1 & Hi1 & Hs1).
    destruct (lessonCall_step user courseId lessonId last _ course1 i
                student1 Hc1 Hi1 Hs1)
      as (course2 & student2 & Hc2 & Hi2 & Hs2 & Hlessons & _).
    exists course2, student2. repeat split.
    + rewrite fmap_app. unfold serveAll. rewrite fold_left_app. exact Hc2.
    + unfold enrollmentOf. rewrite Hi2. exact Hs2.
    + rewrite Hlessons. apply updateCompletedLessons_In, Hid.
    + rewrite Hlessons. apply updateCompletedLessons_In, Hid.
  - intros Hflag r.
    destruct (lessonCall_step user courseId lessonId last db course i
                student Hcourse Hindex Henrolled)
      as (course' & student' & Hc' & Hi' & Hs' & Hlessons & Hstatus).
    split; [exact Hstatus|]. exists course', student'. repeat split.
    + exact Hc'.
    + unfold enrollmentOf. rewrite Hi'. exact Hs'.
    + rewrite Hlessons. destruct (snd (fst last)).
      * apply updateCompletedLessons_present; [exact Hid | tauto].
      * apply updateCompletedLessons_absent; [exact Hid|].
        intros Hin. apply Hflag in Hin. discriminate.
Qed.

Lemma updateCourseProgress_last_call_decides_witness :
  let db := Fixture.dbOf Fixture.twoQuestions in
  let calls :=
    [(None, true, 10%Z); (Some 1, false, 20%Z); (None, false, 30%Z)] in
  exists course' student',
    Courses (serveAll (lessonCall Fixture.student1 "c1" "lesson-1"
                         <$> calls ++ [(None, true, 40%Z)]) db)
      !! "c1" = Some course'
    /\ enrollmentOf "u1" course' = Some student'
    /\ In "lesson-1" (lessonsOf student').
Proof.
  intros db calls.
  destruct (updateCourseProgress_last_call_decides Fixture.student1 "c1"
              "lesson-1" db Fixture.course1
              (Fixture.enrolled Fixture.newProgress) calls (None, true, 40%Z))
    as [(course' & student' & Hcourse & Henrolled & Hin) _].
  - discriminate.
  - reflexivity.
  - reflexivity.
  - exists course', student'. repeat split; trivial.
    apply Hin. reflexivity.
Defined.

(** ** Attempts: start and submission *)

Lemma isActiveAttemptOf_true (userId : ObjectId) (attempt : Attempt.t) :
  isActiveAttemptOf userId attempt = true
  <-> Attempt.student attempt = userId /\ Attempt.completedAt attempt = None.
Proof.
  unfold isActiveAttemptOf. rewrite andb_true_iff, String.eqb_eq.
  destruct (Attempt.completedAt attempt); simpl; intuition congruence.
Qed.

Lemma no_active_attempt (userId : ObjectId) (attempts : list Attempt.t) :
  (forall attempt,
      In attempt attempts -> Attempt.student attempt = userId ->
      Attempt.completedAt attempt <> None) ->
  Forall (fun attempt => isActiveAttemptOf userId attempt = false) attempts.
Proof.
  intros H. apply List.Forall_forall. intros attempt Hin.
  destruct (isActiveAttemptOf userId attempt) eqn:Hactive; [|reflexivity].
  apply isActiveAttemptOf_true in Hactive as [Hstudent Hnone].
  exfalso. exact (H attempt Hin Hstudent Hnone).
Qed.

Lemma find_app_none {A} (p : A -> bool) (l l' : list A) :
  Forall (fun x => p x = false) l -> List.find p (l ++ l') = List.find p l'.
Proof.
  induction 1 as [|x l Hx _ IH]; simpl; [reflexivity|].
  rewrite Hx. exact IH.
Qed.

Lemma find_none_Forall {A} (p : A -> bool) (l : list A) :
  Forall (fun x => p x = false) l -> List.find p l = None.
Proof.
  induction 1 as [|x l Hx _ IH]; simpl; [reflexivity|].
  rewrite Hx. exact IH.
Qed.

(** C4.  When the student has no attempt with [completedAt] unset,
    [submitQuizAttempt] answers 404 "No active attempt found" and leaves
    the database (the attempts of the quiz and the progress of the
    student) as it was; and whatever a submission does, an attempt whose
    [completedAt] is set is still in its place, unchanged, afterwards. *)
Theorem submitQuizAttempt_needs_active_attempt
    (req : Req.t (list Js.Value)) (now : nat -> Date) (db : DB)
    (quiz : Quiz.t) :
  Quizzes db !! Req.params_id req = Some quiz ->
  ((forall attempt,
       In attempt (Quiz.attempts quiz) ->
       Attempt.student attempt = User.id (Req.user req) ->
       Attempt.completedAt attempt <> None) ->
   submitQuizAttempt req now db
   = ({| Response.status := 404;
         Response.body := Failure "No active attempt found" None |}, db))
  /\ (forall i attempt,
        Quiz.attempts quiz !! i = Some attempt ->
        Attempt.completedAt attempt <> None ->
        exists quiz',
          Quizzes (snd (submitQuizAttempt req now db)) !! Req.params_id req
          = Some quiz'
          /\ Quiz.attempts quiz' !! i = Some attempt).
Proof.
  intros Hquiz. split.
  - intros Hnone. apply no_active_attempt, findIndex_None in Hnone.
    unfold submitQuizAttempt, try_catch, bind, Quiz_findById.
    rewrite Hquiz, Hnone. reflexivity.
  - intros i attempt Hi Hcompleted.
    unfold submitQuizAttempt, try_catch, bind, Quiz_findById.
    rewrite Hquiz.
    destruct (findIndex _ (Quiz.attempts quiz)) as [k|] eqn:Hk.
    2:{ exists quiz. split; [exact Hquiz | exact Hi]. }
    destruct (findIndex_Some _ _ _ Hk) as (active & Hactive & Hp & _).
    apply isActiveAttemptOf_true in Hp as [_ Hopen].
    assert (Hne : k <> i) by (intros ->; congruence).
    destruct (gradeAnswers _ _ _ _ _) as [e|[totalScore gradedAnswers]].
    { exists quiz. split; [exact Hquiz | exact Hi]. }
    rewrite Hactive. cbn -[passes Quiz.totalPoints].
    destruct (passes _ _ _); cbn -[Quiz.totalPoints];
      eexists (Quiz.set_attempts _ quiz);
      (split; [apply lookup_insert_eq|]);
      cbn [Quiz.attempts Quiz.set_attempts];
      rewrite list_lookup_insert_ne by exact Hne; exact Hi.
Qed.

Lemma submitQuizAttempt_needs_active_attempt_witness :
  let req := Fixture.request Fixture.student1 [Js.Num 1; Js.Num 0] in
  let db := Fixture.dbOf Fixture.attempted in
  submitQuizAttempt req Fixture.clock db
  = ({| Response.status := 404;
        Response.body := Failure "No active attempt found" None |}, db)
  /\ exists quiz',
       Quizzes (snd (submitQuizAttempt req Fixture.clock db)) !! "q1"
       = Some quiz'
       /\ Quiz.attempts quiz' !! 0%nat = Some Fixture.submitted.
Proof.
  intros req db.
  destruct (submitQuizAttempt_needs_active_attempt req Fixture.clock db
              Fixture.attempted eq_refl) as [Hnone Hkept].
  split.
  - apply Hnone. intros attempt [<-|[]] _. discriminate.
  - apply (Hkept 0%nat Fixture.submitted); [reflexivity | discriminate].
Defined.

(** C6.  For an active quiz and a student with an approved enrollment in
    its course: when the student has an attempt with [completedAt] unset,
    [startQuizAttempt] answers with such an attempt as it is stored and
    saves nothing; otherwise it appends exactly one attempt with
    [score = 0], [maxScore] the sum of the points of all questions,
    [answers = []] and [startedAt = now], and answers with it. *)
Theorem startQuizAttempt_resumes_or_appends
    (req : Req.t unit) (now : Date) (db : DB) (quiz : Quiz.t)
    (course : Course.t) :
  Quizzes db !! Req.params_id req = Some quiz ->
  Courses db !! Quiz.course quiz = Some course ->
  Quiz.isActive quiz = true ->
  (exists s, In s (Course.students course)
             /\ Student.student s = User.id (Req.user req)
             /\ Student.enrollmentStatus s = approved) ->
  ((exists attempt,
       In attempt (Quiz.attempts quiz)
       /\ Attempt.student attempt = User.id (Req.user req)
       /\ Attempt.completedAt attempt = None) ->
   exists attempt,
     In attempt (Quiz.attempts quiz)
     /\ Attempt.student attempt = User.id (Req.user req)
     /\ Attempt.completedAt attempt = None
     /\ startQuizAttempt req now db
        = ({| Response.status := 200;
              Response.body := Continuing attempt |}, db))
  /\ ((forall attempt,
          In attempt (Quiz.attempts quiz) ->
          Attempt.student attempt = User.id (Req.user req) ->
          Attempt.completedAt attempt <> None) ->
      let newAttempt :=
        {| Attempt.student := User.id (Req.user req);
           Attempt.score := 0;
           Attempt.maxScore :=
             fold_left (fun sum q => sum + Question.points q)
               (Quiz.questions quiz) 0;
           Attempt.passed := false;
           Attempt.answers := [];
           Attempt.startedAt := now;
           Attempt.completedAt := None;
           Attempt.timeSpent := 0 |} in
      snd (startQuizAttempt req now db)
      = set_Quizzes
          (<[Req.params_id req :=
               Quiz.set_attempts (Quiz.attempts quiz ++ [newAttempt]) quiz]>
             (Quizzes db)) db
      /\ exists quizWithoutAnswers,
           fst (startQuizAttempt req now db)
           = {| Response.status := 201;
                Response.body :=
                  Started quizWithoutAnswers (Some newAttempt) |}).
Proof.
  intros Hquiz Hcourse Hactive (s & Hs & Hsid & Hstatus).
  assert (Henrolled :
            existsb (isApprovedStudent (User.id (Req.user req)))
              (Course.students course) = true).
  { apply existsb_exists. exists s. split; [exact Hs|].
    unfold isApprovedStudent. rewrite Hsid, Hstatus, String.eqb_refl.
    reflexivity. }
  unfold startQuizAttempt, try_catch, bind, Quiz_findById, Course_findById.
  cbn [fst snd]. rewrite Hquiz, Hcourse, Henrolled, Hactive.
  cbn [negb]. split.
  - intros (a & Ha & Hstudent & Hopen).
    destruct (List.find _ (Quiz.attempts quiz)) as [found|] eqn:Hfind.
    + apply find_some in Hfind as [Hin Hp].
      apply isActiveAttemptOf_true in Hp as [Hfs Hfo].
      exists found. repeat split; assumption.
    + exfalso. pose proof (find_none _ _ Hfind a Ha) as Hp.
      assert (isActiveAttemptOf (User.id (Req.user req)) a = true)
        by (apply isActiveAttemptOf_true; split; assumption).
      congruence.
  - intros Hnone. apply no_active_attempt in Hnone.
    rewrite (find_none_Forall _ _ Hnone).
    cbn [Quiz.attempts Quiz.set_attempts fst snd reply Quiz_save].
    rewrite (find_app_none _ _ _ Hnone). cbn [List.find].
    unfold isActiveAttemptOf at 1. cbn [Attempt.student Attempt.completedAt].
    rewrite String.eqb_refl. cbn [andb negb isSome].
    split; [reflexivity|]. eexists. reflexivity.
Qed.

Lemma startQuizAttempt_resumes_or_appends_witness :
  let req := Fixture.request Fixture.student1 tt in
  (exists attempt,
      In attempt (Quiz.attempts Fixture.twoQuestions)
      /\ Attempt.student attempt = "u1"
      /\ Attempt.completedAt attempt = None
      /\ startQuizAttempt req 5000%Z (Fixture.dbOf Fixture.twoQuestions)
         = ({| Response.status := 200;
               Response.body := Continuing attempt |},
            Fixture.dbOf Fixture.twoQuestions))
  /\ (Quiz.attempts <$>
        Quizzes (snd (startQuizAttempt req 5000%Z
                        (Fixture.dbOf Fixture.attempted))) !! "q1")
     = Some [Fixture.submitted;
             {| Attempt.student := "u1";
                Attempt.score := 0;
                Attempt.maxScore := 2;
                Attempt.passed := false;
                Attempt.answers := [];
                Attempt.startedAt := 5000;
                Attempt.completedAt := None;
                Attempt.timeSpent := 0 |}].
Proof.
  intros req. split.
  - apply (startQuizAttempt_resumes_or_appends req 5000%Z
             (Fixture.dbOf Fixture.twoQuestions) Fixture.twoQuestions
             Fixture.course1 eq_refl eq_refl eq_refl).
    + exists (Fixture.enrolled Fixture.newProgress).
      repeat split. left. reflexivity.
    + exists (Fixture.started 2). repeat split. left. reflexivity.
  - destruct (startQuizAttempt_resumes_or_appends req 5000%Z
                (Fixture.dbOf Fixture.attempted) Fixture.attempted
                Fixture.course1 eq_refl eq_refl eq_refl) as [_ Hnew].
    + exists (Fixture.enrolled Fixture.newProgress).
      repeat split. left. reflexivity.
    + destruct Hnew as [-> _].
      * intros attempt [<-|[]] _. discriminate.
      * reflexivity.
Defined.

(** ** Statistics *)

Lemma filter_none {A} (p : A -> bool) (l : list A) :
  Forall (fun x => p x = false) l -> List.filter p l = [].
Proof.
  induction 1 as [|x l Hx _ IH]; simpl; [reflexivity|].
  rewrite Hx. exact IH.
Qed.

Lemma authorized (course : Course.t) (user : User.t) :
  Course.instructor course = User.id user \/ User.role user = "admin" ->
  notAuthorized course user = false.
Proof.
  unfold notAuthorized. intros [->| ->].
  - rewrite String.eqb_refl. reflexivity.
  - rewrite String.eqb_refl. apply andb_false_r.
Qed.

(** The answer to an authorized request for the results of a quiz. *)
Lemma getQuizResults_run (req : Req.t unit) (db : DB) (quiz : Quiz.t)
    (course : Course.t) :
  Quizzes db !! Req.params_id req = Some quiz ->
  Courses db !! Quiz.course quiz = Some course ->
  notAuthorized course (Req.user req) = false ->
  getQuizResults req db
  = ({| Response.status := 200;
        Response.body :=
          Results (length (Quiz.questions quiz)) (Quiz.passingScore quiz)
            (quizStats (completedAttemptsOf quiz))
            (imap (questionStat (completedAttemptsOf quiz))
               (Quiz.questions quiz))
            (completedAttemptsOf quiz) |}, db).
Proof.
  intros Hquiz Hcourse Hauth.
  unfold getQuizResults, try_catch, bind, Quiz_findById, Course_findById.
  cbn [fst snd]. rewrite Hquiz, Hcourse, Hauth. reflexivity.
Qed.

(** C9.  For the instructor of the course (or an admin): when no attempt
    of the quiz has [completedAt] set, [getQuizResults] answers 200 with
    [totalAttempts = 0], [passedAttempts = 0], [passRate = 0],
    [averageScore = 0], a [questionStats] entry with [totalAttempts = 0]
    and [correctPercentage = 0] for every question index, and no listed
    attempt; and in general the answer depends on the attempts of the
    quiz through the completed ones only. *)
Theorem getQuizResults_counts_completed_attempts_only
    (req : Req.t unit) (db : DB) (quiz : Quiz.t) (course : Course.t) :
  Quizzes db !! Req.params_id req = Some quiz ->
  Courses db !! Quiz.course quiz = Some course ->
  Course.instructor course = User.id (Req.user req)
  \/ User.role (Req.user req) = "admin" ->
  ((forall attempt,
       In attempt (Quiz.attempts quiz) -> Attempt.completedAt attempt = None) ->
   getQuizResults req db
   = ({| Response.status := 200;
         Response.body :=
           Results (length (Quiz.questions quiz)) (Quiz.passingScore quiz)
             {| Stats.totalAttempts := 0;
                Stats.passedAttempts := 0;
                Stats.passRate := 0;
                Stats.averageScore := 0 |}
             (imap unansweredStat (Quiz.questions quiz))
             [] |}, db))
  /\ (forall attempts,
        List.filter (fun a => isSome (Attempt.completedAt a)) attempts
        = List.filter (fun a => isSome (Attempt.completedAt a))
            (Quiz.attempts quiz) ->
        fst (getQuizResults req
               (set_Quizzes
                  (<[Req.params_id req := Quiz.set_attempts attempts quiz]>
                     (Quizzes db)) db))
        = fst (getQuizResults req db)).
Proof.
  intros Hquiz Hcourse Hauth. apply authorized in Hauth. split.
  - intros Hopen.
    assert (Hnone : completedAttemptsOf quiz = []).
    { unfold completedAttemptsOf. rewrite filter_none; [reflexivity|].
      apply List.Forall_forall. intros a Ha.
      rewrite (Hopen a Ha). reflexivity. }
    rewrite (getQuizResults_run req db quiz course Hquiz Hcourse Hauth).
    rewrite Hnone. reflexivity.
  - intros attempts Hsame.
    rewrite (getQuizResults_run req db quiz course Hquiz Hcourse Hauth).
    rewrite (getQuizResults_run req _ (Quiz.set_attempts attempts quiz) course);
      [| apply lookup_insert_eq | exact Hcourse | exact Hauth].
    unfold completedAttemptsOf.
    cbn [fst Quiz.attempts Quiz.questions Quiz.passingScore Quiz.set_attempts].
    rewrite Hsame. reflexivity.
Qed.

Lemma getQuizResults_counts_completed_attempts_only_witness :
  let req := Fixture.request Fixture.teacher1 tt in
  let db := Fixture.dbOf Fixture.twoQuestions in
  getQuizResults req db
  = ({| Response.status := 200;
        Response.body :=
          Results 2 50
            {| Stats.totalAttempts := 0;
               Stats.passedAttempts := 0;
               Stats.passRate := 0;
               Stats.averageScore := 0 |}
            [unansweredStat 0 (Fixture.question 1 1);
             unansweredStat 1 (Fixture.question 0 1)]
            [] |}, db).
Proof.
  intros req db.
  apply (getQuizResults_counts_completed_attempts_only req db
           Fixture.twoQuestions Fixture.course1 eq_refl eq_refl).
  - left. reflexivity.
  - intros attempt [<-|[]]. reflexivity.
Defined.

(** ** The answer key of an attempted quiz *)

Section Frozen.

Variables (id : ObjectId) (quiz : Quiz.t).

Lemma frozen_insert_other (db : DB) (k : ObjectId) (other : Quiz.t) :
  frozen id quiz db -> k <> id ->
  frozen id quiz (set_Quizzes (<[k := other]> (Quizzes db)) db).
Proof.
  intros (q & Hq & Hkey) Hne. exists q. split; [|exact Hkey].
  cbn. rewrite lookup_insert_ne by exact Hne. exact Hq.
Qed.

Lemma frozen_insert_same (db : DB) (quiz' : Quiz.t) :
  sameAnswerKey quiz quiz' ->
  frozen id quiz (set_Quizzes (<[id := quiz']> (Quizzes db)) db).
Proof.
  intros Hkey. exists quiz'. split; [|exact Hkey]. cbn.
  apply lookup_insert_eq.
Qed.

Lemma frozen_delete_other (db : DB) (k : ObjectId) :
  frozen id quiz db -> k <> id ->
  frozen id quiz (set_Quizzes (delete k (Quizzes db)) db).
Proof.
  intros (q & Hq & Hkey) Hne. exists q. split; [|exact Hkey].
  cbn. rewrite lookup_delete_ne by exact Hne. exact Hq.
Qed.

Lemma frozen_same_quizzes (db db' : DB) :
  Quizzes db' = Quizzes db -> frozen id quiz db -> frozen id quiz db'.
Proof. intros Heq (q & Hq & Hkey). exists q. rewrite Heq. auto. Qed.

(** A stored quiz that has the answer key of [quiz] has attempts, so
    [quiz.attempts.length > 0] holds for it. *)
Lemma frozen_attempted (db : DB) (k : ObjectId) (q : Quiz.t) :
  frozen id quiz db -> Quizzes db !! k = Some q ->
  (0 <? length (Quiz.attempts q))%nat = false -> k <> id.
Proof.
  intros (q' & Hq' & _ & _ & Hattempts) Hq Hlen ->.
  assert (q' = q) as -> by congruence.
  destruct (Quiz.attempts q); [congruence | discriminate].
Qed.

Lemma createQuiz_frozen (req : Req.t QuizFields.t) (newId : ObjectId)
    (db : DB) :
  frozen id quiz db -> frozen id quiz (snd (createQuiz req newId db)).
Proof.
  intros Hfrozen.
  unfold createQuiz, try_catch, bind, Course_findById, Quiz_create, reply,
    throw.
  cbn [fst snd]. repeat case_match; simplify_eq; cbn [snd]; trivial.
  apply frozen_insert_other; [exact Hfrozen|].
  intros ->. destruct Hfrozen as (q & Hq & _). congruence.
Qed.

Lemma updateQuiz_frozen (req : Req.t QuizFields.t) (db : DB) :
  frozen id quiz db -> frozen id quiz (snd (updateQuiz req db)).
Proof.
  intros Hfrozen.
  unfold updateQuiz, try_catch, bind, Course_findById, Quiz_findById,
    Quiz_findByIdAndUpdate, reply, throw.
  cbn [fst snd]. repeat case_match; simplify_eq; cbn [snd]; trivial.
  apply frozen_insert_other; [exact Hfrozen|].
  eapply frozen_attempted; eauto.
Qed.

Lemma deleteQuiz_frozen (req : Req.t unit) (db : DB) :
  frozen id quiz db -> frozen id quiz (snd (deleteQuiz req db)).
Proof.
  intros Hfrozen.
  unfold deleteQuiz, try_catch, bind, Course_findById, Quiz_findById,
    Quiz_deleteOne, reply, throw.
  cbn [fst snd]. repeat case_match; simplify_eq; cbn [snd]; trivial.
  apply frozen_delete_other; [exact Hfrozen|].
  eapply frozen_attempted; eauto.
Qed.

(** A save of the quiz [q] with other attempts, none of them removed. *)
Lemma frozen_save_attempts (db : DB) (k : ObjectId) (q : Quiz.t)
    (attempts : list Attempt.t) :
  frozen id quiz db -> Quizzes db !! k = Some q ->
  (length (Quiz.attempts q) <= length attempts)%nat ->
  frozen id quiz
    (set_Quizzes (<[k := Quiz.set_attempts attempts q]> (Quizzes db)) db).
Proof.
  intros Hfrozen Hq Hlen. destruct (decide (k = id)) as [->|Hne].
  - apply frozen_insert_same.
    destruct Hfrozen as (q' & Hq' & Hquestions & Hpassing & Hattempts).
    assert (q' = q) as -> by congruence.
    repeat split; trivial. cbn. intros ->.
    destruct (Quiz.attempts q); [congruence | simpl in Hlen; lia].
  - apply frozen_insert_other; assumption.
Qed.

Lemma startQuizAttempt_frozen (req : Req.t unit) (now : Date) (db : DB) :
  frozen id quiz db -> frozen id quiz (snd (startQuizAttempt req now db)).
Proof.
  intros Hfrozen.
  unfold startQuizAttempt, try_catch, bind, Course_findById, Quiz_findById,
    Quiz_save, reply, throw.
  cbn [fst snd]. repeat case_match; simplify_eq; cbn [snd]; trivial.
  eapply frozen_save_attempts; eauto. rewrite length_app. lia.
Qed.

(** In the scope of [submitQuizAttempt] the block that records the score
    throws at once and saves nothing. *)
Lemma updateQuizScore_throws (userId quizId : ObjectId)
    (totalScore maxScore : Js.Number) (now : Date) (db : DB) :
  updateQuizScore submitQuizAttempt_scope userId quizId totalScore maxScore
    now db
  = (Thrown (ReferenceError "course is not defined"), db).
Proof. reflexivity. Qed.

Lemma submitQuizAttempt_frozen (req : Req.t (list Js.Value))
    (now : nat -> Date) (db : DB) :
  frozen id quiz db -> frozen id quiz (snd (submitQuizAttempt req now db)).
Proof.
  intros Hfrozen.
  unfold submitQuizAttempt, try_catch, bind, Quiz_findById, Quiz_save,
    reply, throw, ret.
  cbn [fst snd].
  repeat case_match; simplify_eq; cbn [snd]; trivial;
    try rewrite updateQuizScore_throws in *; simplify_eq;
    (eapply frozen_save_attempts; eauto; rewrite length_insert; lia).
Qed.

Lemma getQuizResults_frozen (req : Req.t unit) (db : DB) :
  frozen id quiz db -> frozen id quiz (snd (getQuizResults req db)).
Proof.
  intros Hfrozen.
  unfold getQuizResults, try_catch, bind, Course_findById, Quiz_findById,
    reply, throw.
  cbn [fst snd]. repeat case_match; simplify_eq; cbn [snd]; trivial.
Qed.

Lemma calculateStudentProgress_quizzes (courseId : ObjectId)
    (this : Course.t) (studentId : ObjectId) (db : DB) :
  Quizzes (snd (calculateStudentProgress courseId this studentId db))
  = Quizzes db.
Proof.
  destruct (calculateStudentProgress_run courseId this studentId db)
    as [[_ ->]|(j & s & _ & _ & _ & ->)]; reflexivity.
Qed.

Lemma updateCourseProgress_quizzes (req : Req.t ProgressUpdate.t)
    (now : Date) (db : DB) :
  Quizzes (snd (updateCourseProgress req now db)) = Quizzes db.
Proof.
  unfold updateCourseProgress, try_catch, bind, Course_findById, Course_save,
    reply, throw.
  cbn [fst snd].
  destruct (Courses db !! Req.params_id req) as [course|]; [|reflexivity].
  destruct (findIndex _ (Course.students course)) as [i|]; [|reflexivity].
  destruct (Course.students course !! i) as [student|]; [|reflexivity].
  match goal with
  | |- context [calculateStudentProgress ?c ?t ?u ?d] =>
      pose proof (calculateStudentProgress_quizzes c t u d) as Hq;
      destruct (calculateStudentProgress c t u d) as [[r| |] db']
  end; cbn in Hq |- *; exact Hq.
Qed.

Lemma serve_frozen (c : Call) (db : DB) :
  frozen id quiz db -> frozen id quiz (snd (serve c db)).
Proof.
  destruct c; simpl.
  - apply createQuiz_frozen.
  - apply updateQuiz_frozen.
  - apply deleteQuiz_frozen.
  - apply startQuizAttempt_frozen.
  - apply submitQuizAttempt_frozen.
  - apply getQuizResults_frozen.
  - apply frozen_same_quizzes, updateCourseProgress_quizzes.
Qed.

Lemma serveAll_frozen (calls : list Call) (db : DB) :
  frozen id quiz db -> frozen id quiz (serveAll calls db).
Proof.
  revert db. induction calls as [|c calls IH]; intros db Hfrozen;
    [exact Hfrozen|].
  simpl. apply IH, serve_frozen, Hfrozen.
Qed.

End Frozen.

(** C10.  Once the quiz stored under [id] has an attempt: [updateQuiz] and
    [deleteQuiz] on it are answered with a failure (400, or 403 or 500
    when the authorization check rejects or throws first) and leave the
    database as it was; and after any sequence of calls to the handlers
    the quiz is still stored, with the same questions (texts, correct
    answers and points) and the same passing score. *)
Theorem attempted_quiz_keeps_answer_key (db : DB) (id : ObjectId)
    (quiz : Quiz.t) :
  Quizzes db !! id = Some quiz ->
  Quiz.attempts quiz <> [] ->
  (forall req : Req.t QuizFields.t,
      Req.params_id req = id ->
      exists status message error,
        (400 <= status)%nat
        /\ updateQuiz req db
           = ({| Response.status := status;
                 Response.body := Failure message error |}, db))
  /\ (forall req : Req.t unit,
        Req.params_id req = id ->
        exists status message error,
          (400 <= status)%nat
          /\ deleteQuiz req db
             = ({| Response.status := status;
                   Response.body := Failure message error |}, db))
  /\ (forall calls : list Call,
        exists quiz',
          Quizzes (serveAll calls db) !! id = Some quiz'
          /\ Quiz.questions quiz' = Quiz.questions quiz
          /\ Quiz.passingScore quiz' = Quiz.passingScore quiz
          /\ Quiz.attempts quiz' <> []).
Proof.
  intros Hquiz Hattempts.
  assert (Hlen : (0 <? length (Quiz.attempts quiz))%nat = true).
  { destruct (Quiz.attempts quiz); [congruence | reflexivity]. }
  split; [|split].
  - intros req <-.
    unfold updateQuiz, try_catch, bind, Quiz_findById, Course_findById.
    cbn [fst snd]. rewrite Hquiz.
    destruct (Courses db !! Quiz.course quiz) as [course|].
    + destruct (notAuthorized course (Req.user req)).
      * eexists 403%nat, _, _. split; [lia | reflexivity].
      * rewrite Hlen. eexists 400%nat, _, _. split; [lia | reflexivity].
    + eexists 500%nat, _, _. split; [lia | reflexivity].
  - intros req <-.
    unfold deleteQuiz, try_catch, bind, Quiz_findById, Course_findById.
    cbn [fst snd]. rewrite Hquiz.
    destruct (Courses db !! Quiz.course quiz) as [course|].
    + destruct (notAuthorized course (Req.user req)).
      * eexists 403%nat, _, _. split; [lia | reflexivity].
      * rewrite Hlen. eexists 400%nat, _, _. split; [lia | reflexivity].
    + eexists 500%nat, _, _. split; [lia | reflexivity].
  - intros calls.
    apply (serveAll_frozen id quiz calls db).
    exists quiz. repeat split; assumption.
Qed.

Lemma attempted_quiz_keeps_answer_key_witness :
  let db := Fixture.dbOf Fixture.attempted in
  let fields :=
    {| QuizFields.title := None;
       QuizFields.course := None;
       QuizFields.passingScore := Some 10;
       QuizFields.isActive := None;
       QuizFields.questions := Some [Fixture.question 0 5];
       QuizFields.attempts := Some [] |} in
  let calls :=
    [UpdateQuiz (Fixture.request Fixture.teacher1 fields);
     DeleteQuiz (Fixture.request Fixture.teacher1 tt);
     StartQuizAttempt (Fixture.request Fixture.student1 tt) 3000%Z;
     SubmitQuizAttempt (Fixture.request Fixture.student1 [Js.Num 0])
       Fixture.clock;
     UpdateQuiz (Fixture.request Fixture.teacher1 fields)] in
  exists quiz',
    Quizzes (serveAll calls db) !! "q1" = Some quiz'
    /\ Quiz.questions quiz' = [Fixture.question 1 1; Fixture.question 0 1]
    /\ Quiz.passingScore quiz' = 50
    /\ Quiz.attempts quiz' <> [].
Proof.
  intros db fields calls.
  apply (attempted_quiz_keeps_answer_key db "q1" Fixture.attempted).
  - reflexivity.
  - discriminate.
Defined.

(** ** What holds of the percentage in double precision *)

Lemma countModule_optional (student : Student.t) (module : CourseModule.t)
    (acc : Js.Number * Js.Number) :
  Forall (fun material => Material.isRequired material = false)
    (CourseModule.materials module) ->
  countModule student acc module = acc.
Proof.
  unfold countModule. induction 1 as [|m l Hm _ IH]; simpl; [reflexivity|].
  unfold countMaterial at 2. rewrite Hm. exact IH.
Qed.

(** A course without required materials and without quizzes has the
    percentage 0 for every student: the division is not evaluated. *)
Lemma calculateStudentProgress_no_required_items (courseId : ObjectId)
    (this : Course.t) (studentId : ObjectId) (db : DB) :
  Forall (fun module =>
            Forall (fun material => Material.isRequired material = false)
              (CourseModule.materials module)) (Course.modules this) ->
  Course.quizzes this = [] ->
  fst <$> valueOf (calculateStudentProgress courseId this studentId db)
  = Some 0.
Proof.
  intros Hmodules Hquizzes.
  destruct (calculateStudentProgress_run courseId this studentId db)
    as [[_ ->]|(j & student & _ & _ & _ & ->)]; [reflexivity|].
  unfold valueOf. cbn [fst fmap option_fmap option_map]. f_equal.
  unfold countItems. rewrite Hquizzes. cbn [fold_left].
  assert (Hzero : fold_left (countModule student) (Course.modules this) (0, 0)
                  = (0, 0)).
  { induction Hmodules as [|m l Hm _ IH]; simpl; [reflexivity|].
    rewrite countModule_optional by exact Hm. exact IH. }
  rewrite Hzero. reflexivity.
Qed.

(** Without points to earn the quotient is [0 / 0], which is [NaN], and no
    passing score is below [NaN]. *)
Lemma passes_without_points (passingScore : Js.Number) :
  passes 0 0 passingScore = false.
Proof.
  unfold passes. rewrite leb_spec.
  change (Prim2SF (0 / 0 * 100)) with S754_nan.
  unfold SFleb, SFcompare. destruct (Prim2SF passingScore); reflexivity.
Qed.

Lemma totalPoints_without_points (quiz : Quiz.t) :
  Forall (fun q => Question.points q = 0) (Quiz.questions quiz) ->
  Quiz.totalPoints quiz = 0.
Proof.
  unfold Quiz.totalPoints. induction 1 as [|q l Hq _ IH]; simpl;
    [reflexivity|]. rewrite Hq. exact IH.
Qed.

Lemma gradeAnswers_without_points (questions : list Question.t)
    (answers : list Js.Value) :
  Forall (fun q => Question.points q = 0) questions ->
  forall index gradedAnswers totalScore gradedAnswers',
    gradeAnswers questions answers index 0 gradedAnswers
    = inr (totalScore, gradedAnswers') ->
    totalScore = 0.
Proof.
  intros Hpoints. induction answers as [|answer rest IH];
    intros index gradedAnswers totalScore gradedAnswers'; simpl.
  - congruence.
  - destruct (questions !! index) as [question|] eqn:Hquestion;
      [|discriminate].
    rewrite (proj1 (Forall_lookup _ _) Hpoints index question Hquestion).
    destruct (Js.strict_eq answer (Question.correctAnswer question));
      apply IH.
Qed.

(** The degenerate case of C3: a quiz without questions, or whose
    questions are all worth 0 points, grades every submission as
    failed. *)
Lemma zero_point_quiz_never_passes (quiz : Quiz.t) (answers : list Js.Value)
    (totalScore : Js.Number) (gradedAnswers : list Answer.t) :
  Forall (fun q => Question.points q = 0) (Quiz.questions quiz) ->
  gradeAnswers (Quiz.questions quiz) answers 0 0 []
  = inr (totalScore, gradedAnswers) ->
  passes totalScore (Quiz.totalPoints quiz) (Quiz.passingScore quiz) = false.
Proof.
  intros Hpoints Hgraded.
  rewrite (gradeAnswers_without_points _ _ Hpoints _ _ _ _ Hgraded).
  rewrite (totalPoints_without_points _ Hpoints).
  apply passes_without_points.
Qed.

(** * Further properties *)

(** ** Grading *)

Lemma gradeAnswers_from (questions : list Question.t)
    (answers : list Js.Value) :
  forall index totalScore gradedAnswers,
    (index + length answers <= length questions)%nat ->
    exists new,
      gradeAnswers questions answers index totalScore gradedAnswers
      = inr (fold_left (fun sum a => sum + Answer.pointsEarned a) new
               totalScore,
             gradedAnswers ++ new)
      /\ length new = length answers
      /\ forall i answer,
           answers !! i = Some answer ->
           exists question,
             questions !! (index + i)%nat = Some question
             /\ new !! i = Some (gradedAnswer (index + i) answer question).
Proof.
  induction answers as [|answer rest IH];
    intros index totalScore gradedAnswers Hlen; simpl in *.
  - exists []. rewrite app_nil_r. repeat split; trivial.
    intros i a Hi. discriminate.
  - destruct (questions !! index) as [question|] eqn:Hq.
    2:{ apply lookup_ge_None in Hq. lia. }
    destruct (IH (S index)
                (totalScore
                 + (if Js.strict_eq answer (Question.correctAnswer question)
                    then Question.points question else 0))
                (gradedAnswers ++ [gradedAnswer index answer question]))
      as (new & Heq & Hnew & Hall); [lia|].
    exists (gradedAnswer index answer question :: new).
    split; [|split].
    + unfold gradedAnswer in Heq at 1. rewrite Heq, <- app_assoc.
      reflexivity.
    + simpl. congruence.
    + intros [|i] a Hi; simpl in *.
      * injection Hi as <-. exists question.
        rewrite Nat.add_0_r. auto.
      * destruct (Hall i a Hi) as (q & Hq' & Hn). exists q.
        replace (index + S i)%nat with (S index + i)%nat by lia. auto.
Qed.


Lemma gradeAnswers_within_questions_aux (questions : list Question.t)
    (answers : list Js.Value) :
  (length answers <= length questions)%nat ->
  exists gradedAnswers,
    gradeAnswers questions answers 0 0 []
    = inr (fold_left (fun sum a => sum + Answer.pointsEarned a)
             gradedAnswers 0, gradedAnswers).
Proof.
  intros Hlen.
  destruct (gradeAnswers_from questions answers 0 0 [])
    as (new & Heq & _); [simpl; lia|].
  exists new. exact Heq.
Qed.

(** X1.  With at most as many answers as questions, grading succeeds:
    there is one graded answer per answer, in order; the answer at index
    [i] is compared with [===] to the correct answer of question [i] and
    earns the points of that question or 0; the total is the sum of the
    earned points, added from left to right.  Questions beyond the last
    answer are not graded. *)
Theorem gradeAnswers_within_questions (questions : list Question.t)
    (answers : list Js.Value) :
  (length answers <= length questions)%nat ->
  exists gradedAnswers,
    gradeAnswers questions answers 0 0 []
    = inr (fold_left (fun sum a => sum + Answer.pointsEarned a)
             gradedAnswers 0, gradedAnswers)
    /\ length gradedAnswers = length answers
    /\ forall i answer,
         answers !! i = Some answer ->
         exists question,
           questions !! i = Some question
           /\ gradedAnswers !! i = Some (gradedAnswer i answer question).
Proof.
  intros Hlen.
  destruct (gradeAnswers_from questions answers 0 0 [])
    as (new & Heq & Hnew & Hall); [simpl; lia|].
  exists new. repeat split; trivial.
Qed.

Lemma gradeAnswers_within_questions_witness :
  exists gradedAnswers,
    gradeAnswers [Fixture.question 1 5; Fixture.question 0 5]
      [Js.Num 1; Js.Num 1] 0 0 []
    = inr (fold_left (fun sum a => sum + Answer.pointsEarned a)
             gradedAnswers 0, gradedAnswers)
    /\ length gradedAnswers = 2%nat
    /\ forall i answer,
         [Js.Num 1; Js.Num 1] !! i = Some answer ->
         exists question,
           [Fixture.question 1 5; Fixture.question 0 5] !! i = Some question
           /\ gradedAnswers !! i = Some (gradedAnswer i answer question).
Proof.
  apply (gradeAnswers_within_questions
           [Fixture.question 1 5; Fixture.question 0 5]
           [Js.Num 1; Js.Num 1]).
  simpl. lia.
Defined.

(** ** Submission *)

Section Submission.

Variables (req : Req.t (list Js.Value)) (now : nat -> Date) (db : DB).
Variables (quiz : Quiz.t) (attemptIndex : nat) (attempt : Attempt.t).

Hypothesis Hquiz : Quizzes db !! Req.params_id req = Some quiz.
Hypothesis Hindex :
  findIndex (isActiveAttemptOf (User.id (Req.user req)))
    (Quiz.attempts quiz) = Some attemptIndex.
Hypothesis Hattempt : Quiz.attempts quiz !! attemptIndex = Some attempt.

(** What a graded submission saves, whether it passes or not. *)
Lemma submitQuizAttempt_saves (totalScore : Js.Number)
    (gradedAnswers : list Answer.t) :
  gradeAnswers (Quiz.questions quiz) (Req.body req) 0 0 []
  = inr (totalScore, gradedAnswers) ->
  snd (submitQuizAttempt req now db)
  = set_Quizzes
      (<[Req.params_id req :=
           Quiz.set_attempts
             (<[attemptIndex :=
                  gradedAttempt quiz attempt totalScore gradedAnswers now]>
                (Quiz.attempts quiz)) quiz]> (Quizzes db)) db.
Proof.
  intros Hgraded.
  unfold submitQuizAttempt, try_catch, bind, Quiz_findById.
  rewrite Hquiz, Hindex, Hgraded, Hattempt.
  cbn -[passes Quiz.totalPoints]. unfold gradedAttempt.
  destruct (passes _ _ _); reflexivity.
Qed.

Lemma submitQuizAttempt_throws_before_saving (e : JsError) :
  gradeAnswers (Quiz.questions quiz) (Req.body req) 0 0 [] = inl e ->
  submitQuizAttempt req now db
  = ({| Response.status := 500;
        Response.body :=
          Failure "Error submitting quiz attempt" (Some (error_message e)) |},
     db).
Proof.
  intros Hgraded.
  unfold submitQuizAttempt, try_catch, bind, Quiz_findById.
  rewrite Hquiz, Hindex, Hgraded. reflexivity.
Qed.

End Submission.

Lemma findIndex_exists {A} (p : A -> bool) (l : list A) (x : A) :
  In x l -> p x = true -> exists i, findIndex p l = Some i.
Proof.
  intros Hin Hp. destruct (findIndex p l) as [i|] eqn:Hi; [eauto|].
  apply findIndex_None in Hi.
  rewrite List.Forall_forall in Hi. specialize (Hi x Hin). congruence.
Qed.



(** What [startQuizAttempt] does to the database: nothing, or one push
    for a student without an open attempt, answered with 201. *)
Lemma startQuizAttempt_effect (req : Req.t unit) (now : Date) (db : DB) :
  (snd (startQuizAttempt req now db) = db
   /\ forall quizWithoutAnswers attempt,
        Response.body (fst (startQuizAttempt req now db))
        <> Started quizWithoutAnswers attempt)
  \/ exists quiz course,
       Quizzes db !! Req.params_id req = Some quiz
       /\ Courses db !! Quiz.course quiz = Some course
       /\ existsb (isApprovedStudent (User.id (Req.user req)))
            (Course.students course) = true
       /\ Quiz.isActive quiz = true
       /\ Forall (fun a => isActiveAttemptOf (User.id (Req.user req)) a
                           = false) (Quiz.attempts quiz)
       /\ startQuizAttempt req now db
          = ({| Response.status := 201;
                Response.body :=
                  Started
                    (Quiz_set_questions
                       (map hideCorrectAnswer (Quiz.questions quiz))
                       (Quiz.set_attempts
                          (Quiz.attempts quiz ++
                           [newAttempt (User.id (Req.user req)) quiz now])
                          quiz))
                    (Some (newAttempt (User.id (Req.user req)) quiz now)) |},
             set_Quizzes
               (<[Req.params_id req :=
                    Quiz.set_attempts
                      (Quiz.attempts quiz ++
                       [newAttempt (User.id (Req.user req)) quiz now])
                      quiz]> (Quizzes db)) db).
Proof.
  unfold startQuizAttempt, try_catch, bind, Quiz_findById, Course_findById.
  cbn [fst snd].
  destruct (Quizzes db !! Req.params_id req) as [quiz|] eqn:Hquiz;
    [|left; split; [reflexivity | discriminate]].
  destruct (Courses db !! Quiz.course quiz) as [course|] eqn:Hcourse;
    [|left; split; [reflexivity | discriminate]].
  destruct (existsb _ (Course.students course)) eqn:Henrolled;
    [|left; split; [reflexivity | discriminate]].
  destruct (Quiz.isActive quiz) eqn:Hactive;
    [|left; split; [reflexivity | discriminate]].
  cbn [negb].
  destruct (List.find _ (Quiz.attempts quiz)) as [found|] eqn:Hfind;
    [left; split; [reflexivity | discriminate]|].
  right. exists quiz, course.
  assert (Hnone : Forall (fun a => isActiveAttemptOf (User.id (Req.user req)) a
                                   = false) (Quiz.attempts quiz)).
  { apply List.Forall_forall. intros a Ha. exact (find_none _ _ Hfind a Ha). }
  repeat split; trivial.
  cbn [Quiz.attempts Quiz.set_attempts fst snd reply Quiz_save].
  rewrite (find_app_none _ _ _ Hnone). cbn [List.find].
  unfold isActiveAttemptOf at 1. cbn [Attempt.student Attempt.completedAt].
  rewrite String.eqb_refl. reflexivity.
Qed.

(** What [submitQuizAttempt] does to the database: nothing, or one
    attempt of the student that was open is overwritten by its graded
    version. *)
Lemma submitQuizAttempt_effect (req : Req.t (list Js.Value))
    (now : nat -> Date) (db : DB) :
  snd (submitQuizAttempt req now db) = db
  \/ exists quiz k attempt totalScore gradedAnswers,
       Quizzes db !! Req.params_id req = Some quiz
       /\ Quiz.attempts quiz !! k = Some attempt
       /\ Attempt.student attempt = User.id (Req.user req)
       /\ Attempt.completedAt attempt = None
       /\ snd (submitQuizAttempt req now db)
          = set_Quizzes
              (<[Req.params_id req :=
                   Quiz.set_attempts
                     (<[k := gradedAttempt quiz attempt totalScore
                               gradedAnswers now]> (Quiz.attempts quiz))
                     quiz]> (Quizzes db)) db.
Proof.
  destruct (Quizzes db !! Req.params_id req) as [quiz|] eqn:Hquiz.
  2:{ left. unfold submitQuizAttempt, try_catch, bind, Quiz_findById.
      rewrite Hquiz. reflexivity. }
  destruct (findIndex (isActiveAttemptOf (User.id (Req.user req)))
              (Quiz.attempts quiz)) as [k|] eqn:Hk.
  2:{ left. unfold submitQuizAttempt, try_catch, bind, Quiz_findById.
      rewrite Hquiz, Hk. reflexivity. }
  destruct (findIndex_Some _ _ _ Hk) as (attempt & Hattempt & Hp & _).
  apply isActiveAttemptOf_true in Hp as [Hstudent Hopen].
  destruct (gradeAnswers (Quiz.questions quiz) (Req.body req) 0 0 [])
    as [e|[totalScore gradedAnswers]] eqn:Hgraded.
  - left.
    rewrite (submitQuizAttempt_throws_before_saving req now db quiz k
               Hquiz Hk e Hgraded). reflexivity.
  - right. exists quiz, k, attempt, totalScore, gradedAnswers.
    repeat split; trivial.
    apply (submitQuizAttempt_saves req now db quiz k attempt Hquiz Hk
             Hattempt _ _ Hgraded).
Qed.

(** ** At most one open attempt per student *)

Lemma oneActive_push (attempts : list Attempt.t) (new : Attempt.t) :
  oneActivePerStudent attempts ->
  Forall (fun a => isActiveAttemptOf (Attempt.student new) a = false)
    attempts ->
  oneActivePerStudent (attempts ++ [new]).
Proof.
  intros Hone Hnone i j a b Ha Hb Hoa Hob Hsame.
  rewrite Forall_lookup in Hnone.
  assert (Hold : forall k c, attempts !! k = Some c ->
                   Attempt.completedAt c = None ->
                   Attempt.student c <> Attempt.student new).
  { intros k c Hc Hopen Heq. specialize (Hnone k c Hc).
    assert (isActiveAttemptOf (Attempt.student new) c = true)
      by (apply isActiveAttemptOf_true; auto).
    congruence. }
  apply lookup_app_Some in Ha as [Ha|[Hia Ha]];
    apply lookup_app_Some in Hb as [Hb|[Hjb Hb]].
  - eapply Hone; eauto.
  - apply list_lookup_singleton_Some in Hb as [_ <-].
    exfalso. eapply Hold; eauto.
  - apply list_lookup_singleton_Some in Ha as [_ <-].
    exfalso. eapply Hold; eauto.
  - apply list_lookup_singleton_Some in Ha as [Hi _].
    apply list_lookup_singleton_Some in Hb as [Hj _]. lia.
Qed.

Lemma oneActive_complete (attempts : list Attempt.t) (k : nat)
    (graded : Attempt.t) :
  oneActivePerStudent attempts ->
  Attempt.completedAt graded <> None ->
  oneActivePerStudent (<[k := graded]> attempts).
Proof.
  intros Hone Hdone i j a b Ha Hb Hoa Hob Hsame.
  destruct (decide (k = i)) as [->|Hki].
  { apply list_lookup_insert_Some in Ha as [(_ & <- & _)|[? _]];
      [congruence | congruence]. }
  destruct (decide (k = j)) as [->|Hkj].
  { apply list_lookup_insert_Some in Hb as [(_ & <- & _)|[? _]];
      [congruence | congruence]. }
  rewrite list_lookup_insert_ne in Ha by exact Hki.
  rewrite list_lookup_insert_ne in Hb by exact Hkj.
  eapply Hone; eauto.
Qed.

Lemma serve_oneActive (c : Call) (db : DB) (id : ObjectId) (quiz : Quiz.t) :
  isAttemptCall c ->
  Quizzes db !! id = Some quiz ->
  oneActivePerStudent (Quiz.attempts quiz) ->
  exists quiz',
    Quizzes (snd (serve c db)) !! id = Some quiz'
    /\ oneActivePerStudent (Quiz.attempts quiz').
Proof.
  intros Hcall Hquiz Hone. destruct c; try contradiction; simpl.
  - destruct (startQuizAttempt_effect req now db)
      as [[-> _]|(q & course & Hq & _ & _ & _ & Hnone & ->)]; [eauto|].
    cbn [snd set_Quizzes Quizzes].
    destruct (decide (Req.params_id req = id)) as [Heq|Hne].
    + rewrite Heq in *. rewrite lookup_insert_eq.
      assert (q = quiz) as -> by congruence.
      eexists. split; [reflexivity|]. cbn.
      apply oneActive_push; assumption.
    + rewrite lookup_insert_ne by exact Hne. eauto.
  - destruct (submitQuizAttempt_effect req now db)
      as [->|(q & k & a & t & g & Hq & _ & _ & _ & ->)]; [eauto|].
    cbn [snd set_Quizzes Quizzes].
    destruct (decide (Req.params_id req = id)) as [Heq|Hne].
    + rewrite Heq in *. rewrite lookup_insert_eq.
      assert (q = quiz) as -> by congruence.
      eexists. split; [reflexivity|]. cbn.
      apply oneActive_complete; [assumption | discriminate].
    + rewrite lookup_insert_ne by exact Hne. eauto.
Qed.

(** X3.  The calls that start and submit attempts keep the invariant of
    the attempts of a quiz: no student has two attempts without
    [completedAt]. *)
Theorem attempt_calls_keep_one_active_attempt (calls : list Call) (db : DB)
    (id : ObjectId) (quiz : Quiz.t) :
  Forall isAttemptCall calls ->
  Quizzes db !! id = Some quiz ->
  oneActivePerStudent (Quiz.attempts quiz) ->
  exists quiz',
    Quizzes (serveAll calls db) !! id = Some quiz'
    /\ oneActivePerStudent (Quiz.attempts quiz').
Proof.
  intros Hcalls. revert db quiz.
  induction Hcalls as [|c calls Hc _ IH]; intros db quiz Hquiz Hone.
  - exists quiz. auto.
  - destruct (serve_oneActive c db id quiz Hc Hquiz Hone)
      as (quiz1 & Hquiz1 & Hone1).
    simpl. unfold serveAll in IH. eapply IH; eauto.
Qed.

Lemma attempt_calls_keep_one_active_attempt_witness :
  let calls :=
    [StartQuizAttempt (Fixture.request Fixture.student1 tt) 3000%Z;
     SubmitQuizAttempt (Fixture.request Fixture.student1 [Js.Num 0])
       Fixture.clock;
     StartQuizAttempt (Fixture.request Fixture.student1 tt) 70000%Z;
     StartQuizAttempt (Fixture.request Fixture.student1 tt) 80000%Z] in
  exists quiz',
    Quizzes (serveAll calls (Fixture.dbOf Fixture.attempted)) !! "q1"
    = Some quiz'
    /\ oneActivePerStudent (Quiz.attempts quiz').
Proof.
  intros calls.
  apply (attempt_calls_keep_one_active_attempt calls
           (Fixture.dbOf Fixture.attempted) "q1" Fixture.attempted).
  - repeat constructor.
  - reflexivity.
  - intros [|[|i]] [|[|j]] a b Ha Hb; try discriminate.
    reflexivity.
Defined.

(** ** Start and submission, one after the other *)

Lemma startQuizAttempt_continues (req : Req.t unit) (now : Date) (db : DB)
    (quiz : Quiz.t) (course : Course.t) (attempt : Attempt.t) :
  Quizzes db !! Req.params_id req = Some quiz ->
  Courses db !! Quiz.course quiz = Some course ->
  existsb (isApprovedStudent (User.id (Req.user req)))
    (Course.students course) = true ->
  Quiz.isActive quiz = true ->
  List.find (isActiveAttemptOf (User.id (Req.user req))) (Quiz.attempts quiz)
  = Some attempt ->
  startQuizAttempt req now db
  = ({| Response.status := 200; Response.body := Continuing attempt |}, db).
Proof.
  intros Hquiz Hcourse Henrolled Hactive Hfind.
  unfold startQuizAttempt, try_catch, bind, Quiz_findById, Course_findById.
  cbn [fst snd]. rewrite Hquiz, Hcourse, Henrolled, Hactive. cbn [negb].
  rewrite Hfind. reflexivity.
Qed.

(** X4.  Starting is idempotent: when [startQuizAttempt] has answered
    with an attempt (the one it created, or the open one it found), the
    same request, at any later time, is answered with 200 and that same
    attempt, and saves nothing. *)
Theorem startQuizAttempt_twice (req : Req.t unit) (now now' : Date) (db : DB)
    (attempt : Attempt.t) :
  attemptOf (fst (startQuizAttempt req now db)) = Some attempt ->
  startQuizAttempt req now' (snd (startQuizAttempt req now db))
  = ({| Response.status := 200; Response.body := Continuing attempt |},
     snd (startQuizAttempt req now db)).
Proof.
  destruct (startQuizAttempt_effect req now db)
    as [[Hsame Hnot]|(quiz & course & Hquiz & Hcourse & Henrolled & Hactive
                      & Hnone & ->)].
  - rewrite Hsame. revert Hnot.
    unfold startQuizAttempt at 1 2, try_catch, bind, Quiz_findById,
      Course_findById.
    cbn [fst snd].
    destruct (Quizzes db !! Req.params_id req) as [quiz|] eqn:Hquiz;
      [|discriminate].
    destruct (Courses db !! Quiz.course quiz) as [course|] eqn:Hcourse;
      [|discriminate].
    destruct (existsb _ (Course.students course)) eqn:Henrolled;
      [|discriminate].
    destruct (Quiz.isActive quiz) eqn:Hactive; [|discriminate].
    cbn [negb].
    destruct (List.find _ (Quiz.attempts quiz)) as [found|] eqn:Hfind.
    + intros _ [= <-].
      eapply startQuizAttempt_continues; eauto.
    + intros Hnot. exfalso. eapply Hnot. reflexivity.
  - cbn [fst snd attemptOf Response.body]. intros [= <-].
    eapply startQuizAttempt_continues.
    + apply lookup_insert_eq.
    + exact Hcourse.
    + exact Henrolled.
    + exact Hactive.
    + cbn [Quiz.attempts Quiz.set_attempts].
      rewrite (find_app_none _ _ _ Hnone). cbn [List.find].
      unfold isActiveAttemptOf, newAttempt.
      cbn [Attempt.student Attempt.completedAt].
      rewrite String.eqb_refl. reflexivity.
Qed.

Lemma startQuizAttempt_twice_witness :
  let req := Fixture.request Fixture.student1 tt in
  let db := Fixture.dbOf Fixture.attempted in
  startQuizAttempt req 9000%Z (snd (startQuizAttempt req 5000%Z db))
  = ({| Response.status := 200;
        Response.body := Continuing (newAttempt "u1" Fixture.attempted 5000) |},
     snd (startQuizAttempt req 5000%Z db)).
Proof.
  intros req db.
  apply (startQuizAttempt_twice req 5000%Z 9000%Z db).
  reflexivity.
Defined.

Lemma submitQuizAttempt_not_found (req : Req.t (list Js.Value))
    (now : nat -> Date) (db : DB) (quiz : Quiz.t) :
  Quizzes db !! Req.params_id req = Some quiz ->
  (forall attempt,
      In attempt (Quiz.attempts quiz) ->
      Attempt.student attempt = User.id (Req.user req) ->
      Attempt.completedAt attempt <> None) ->
  submitQuizAttempt req now db
  = ({| Response.status := 404;
        Response.body := Failure "No active attempt found" None |}, db).
Proof.
  intros Hquiz Hnone. apply no_active_attempt, findIndex_None in Hnone.
  unfold submitQuizAttempt, try_catch, bind, Quiz_findById.
  rewrite Hquiz, Hnone. reflexivity.
Qed.

(** X5.  A submission is final.  When every student has at most one open
    attempt and a submission of at most as many answers as questions has
    been made for an open attempt, whatever the first answer was (200
    for a failed attempt, or the 500 that follows the save of a passed
    one), a second submission by the same student is answered with 404
    "No active attempt found" and changes nothing. *)
Theorem submitQuizAttempt_twice
    (req req' : Req.t (list Js.Value)) (now now' : nat -> Date) (db : DB)
    (quiz : Quiz.t) :
  Quizzes db !! Req.params_id req = Some quiz ->
  oneActivePerStudent (Quiz.attempts quiz) ->
  (exists attempt,
      In attempt (Quiz.attempts quiz)
      /\ Attempt.student attempt = User.id (Req.user req)
      /\ Attempt.completedAt attempt = None) ->
  (length (Req.body req) <= length (Quiz.questions quiz))%nat ->
  Req.params_id req' = Req.params_id req ->
  User.id (Req.user req') = User.id (Req.user req) ->
  submitQuizAttempt req' now' (snd (submitQuizAttempt req now db))
  = ({| Response.status := 404;
        Response.body := Failure "No active attempt found" None |},
     snd (submitQuizAttempt req now db)).
Proof.
  intros Hquiz Hone (active & Hin & Hstudent & Hopen) Hlen Hid Huser.
  destruct (findIndex_exists (isActiveAttemptOf (User.id (Req.user req)))
              _ active Hin) as [k Hk].
  { apply isActiveAttemptOf_true. split; assumption. }
  destruct (findIndex_Some _ _ _ Hk) as (attempt & Hattempt & Hp & _).
  apply isActiveAttemptOf_true in Hp as [Hs Ho].
  destruct (gradeAnswers_within_questions_aux (Quiz.questions quiz)
              (Req.body req) Hlen) as (graded & Hgraded).
  rewrite (submitQuizAttempt_saves req now db quiz k attempt Hquiz Hk
             Hattempt _ _ Hgraded).
  eapply submitQuizAttempt_not_found.
  - rewrite Hid. apply lookup_insert_eq.
  - cbn [Quiz.attempts Quiz.set_attempts]. intros a Ha Hsa.
    apply list_elem_of_In, list_elem_of_lookup in Ha as [j Hj].
    destruct (decide (k = j)) as [<-|Hne].
    + apply list_lookup_insert_Some in Hj as [(_ & <- & _)|[? _]];
        [discriminate | congruence].
    + rewrite list_lookup_insert_ne in Hj by exact Hne.
      intros Hoa. apply Hne.
      eapply (Hone k j attempt a); eauto. congruence.
Qed.

Lemma submitQuizAttempt_twice_witness :
  let req := Fixture.request Fixture.student1 [Js.Num 1; Js.Num 1] in
  let db := Fixture.dbOf Fixture.twoQuestions in
  submitQuizAttempt req Fixture.clock
    (snd (submitQuizAttempt req Fixture.clock db))
  = ({| Response.status := 404;
        Response.body := Failure "No active attempt found" None |},
     snd (submitQuizAttempt req Fixture.clock db)).
Proof.
  intros req db.
  apply (submitQuizAttempt_twice req req Fixture.clock Fixture.clock db
           Fixture.twoQuestions).
  - reflexivity.
  - intros [|i] [|j] a b Ha Hb; try discriminate. reflexivity.
  - exists (Fixture.started 2). repeat split. left. reflexivity.
  - simpl. lia.
  - reflexivity.
  - reflexivity.
Defined.

(** X6.  Attempts are touched by their owners only: [startQuizAttempt]
    leaves every stored attempt in its place, and [submitQuizAttempt]
    leaves every attempt of a student other than the requester in its
    place, on the quiz addressed and on every other quiz. *)
Theorem attempts_of_others_untouched (db : DB) (id : ObjectId)
    (quiz : Quiz.t) (i : nat) (other : Attempt.t) :
  Quizzes db !! id = Some quiz ->
  Quiz.attempts quiz !! i = Some other ->
  (forall (req : Req.t unit) (now : Date),
      exists quiz',
        Quizzes (snd (startQuizAttempt req now db)) !! id = Some quiz'
        /\ Quiz.attempts quiz' !! i = Some other)
  /\ (forall (req : Req.t (list Js.Value)) (now : nat -> Date),
        Attempt.student other <> User.id (Req.user req) ->
        exists quiz',
          Quizzes (snd (submitQuizAttempt req now db)) !! id = Some quiz'
          /\ Quiz.attempts quiz' !! i = Some other).
Proof.
  intros Hquiz Hother. split.
  - intros req now.
    destruct (startQuizAttempt_effect req now db)
      as [[-> _]|(q & course & Hq & _ & _ & _ & _ & ->)]; [eauto|].
    cbn [snd set_Quizzes Quizzes].
    destruct (decide (Req.params_id req = id)) as [Heq|Hne].
    + rewrite Heq in *. rewrite lookup_insert_eq.
      assert (q = quiz) as -> by congruence.
      eexists. split; [reflexivity|]. cbn.
      apply lookup_app_l_Some. exact Hother.
    + rewrite lookup_insert_ne by exact Hne. eauto.
  - intros req now Hne.
    destruct (submitQuizAttempt_effect req now db)
      as [->|(q & k & a & t & g & Hq & Ha & Hs & _ & ->)]; [eauto|].
    cbn [snd set_Quizzes Quizzes].
    destruct (decide (Req.params_id req = id)) as [Heq|Hneq].
    + rewrite Heq in *. rewrite lookup_insert_eq.
      assert (q = quiz) as -> by congruence.
      eexists. split; [reflexivity|]. cbn.
      rewrite list_lookup_insert_ne; [exact Hother|].
      intros ->. congruence.
    + rewrite lookup_insert_ne by exact Hneq. eauto.
Qed.

Lemma attempts_of_others_untouched_witness :
  let db := Fixture.dbOf Fixture.twoQuestions in
  let req :=
    {| Req.user := {| User.id := "u2"; User.role := "student" |};
       Req.params_id := "q1"; Req.body := [Js.Num 1] |} in
  exists quiz',
    Quizzes (snd (submitQuizAttempt req Fixture.clock db)) !! "q1"
    = Some quiz'
    /\ Quiz.attempts quiz' !! 0%nat = Some (Fixture.started 2).
Proof.
  intros db req.
  destruct (attempts_of_others_untouched db "q1" Fixture.twoQuestions 0%nat
              (Fixture.started 2) eq_refl eq_refl) as [_ Hsubmit].
  apply Hsubmit. discriminate.
Defined.

(** X7.  [submitQuizAttempt] never reads the courses: on two databases
    with the same quizzes it gives the same answer and the same quizzes,
    and it writes no course.  Neither the enrollment of the student nor
    the existence of the course is checked at submission. *)
Theorem submitQuizAttempt_ignores_courses
    (req : Req.t (list Js.Value)) (now : nat -> Date) (db1 db2 : DB) :
  Quizzes db1 = Quizzes db2 ->
  fst (submitQuizAttempt req now db1) = fst (submitQuizAttempt req now db2)
  /\ Quizzes (snd (submitQuizAttempt req now db1))
     = Quizzes (snd (submitQuizAttempt req now db2))
  /\ Courses (snd (submitQuizAttempt req now db1)) = Courses db1.
Proof.
  destruct db1 as [quizzes courses1], db2 as [quizzes2 courses2].
  cbn [Quizzes]. intros <-.
  unfold submitQuizAttempt, try_catch, bind, Quiz_findById, Quiz_save.
  cbn [fst snd Quizzes Courses].
  destruct (quizzes !! Req.params_id req) as [quiz|];
    [|repeat split; reflexivity].
  destruct (findIndex _ (Quiz.attempts quiz)) as [k|];
    [|repeat split; reflexivity].
  destruct (gradeAnswers _ _ _ _ _) as [e|[totalScore gradedAnswers]];
    [repeat split; reflexivity|].
  destruct (Quiz.attempts quiz !! k) as [attempt|];
    [|repeat split; reflexivity].
  cbn -[passes Quiz.totalPoints].
  destruct (passes _ _ _); repeat split; reflexivity.
Qed.

Lemma submitQuizAttempt_ignores_courses_witness :
  let req := Fixture.request Fixture.student1 [Js.Num 0; Js.Num 1] in
  let db1 := Fixture.dbOf Fixture.twoQuestions in
  let db2 := {| Quizzes := Quizzes db1; Courses := ∅ |} in
  fst (submitQuizAttempt req Fixture.clock db1)
  = fst (submitQuizAttempt req Fixture.clock db2)
  /\ Quizzes (snd (submitQuizAttempt req Fixture.clock db1))
     = Quizzes (snd (submitQuizAttempt req Fixture.clock db2))
  /\ Courses (snd (submitQuizAttempt req Fixture.clock db1)) = Courses db1.
Proof.
  intros req db1 db2.
  apply (submitQuizAttempt_ignores_courses req Fixture.clock db1 db2).
  reflexivity.
Defined.

(** ** Management of quizzes *)

Lemma notAuthorized_true (course : Course.t) (user : User.t) :
  Course.instructor course <> User.id user ->
  User.role user <> "admin" ->
  notAuthorized course user = true.
Proof.
  intros Hinstructor Hrole. unfold notAuthorized.
  apply String.eqb_neq in Hinstructor, Hrole.
  rewrite Hinstructor, Hrole. reflexivity.
Qed.

(** X8.  Only the instructor of the course and admins manage its
    quizzes: for any other user, [createQuiz], [updateQuiz],
    [deleteQuiz] and [getQuizResults] on a quiz of the course answer 403
    and leave the database as it was. *)
Theorem quiz_management_is_for_the_instructor (db : DB) (courseId : ObjectId)
    (course : Course.t) (user : User.t) :
  Courses db !! courseId = Some course ->
  Course.instructor course <> User.id user ->
  User.role user <> "admin" ->
  (forall (body : QuizFields.t) (newId : ObjectId),
      createQuiz {| Req.user := user; Req.params_id := courseId;
                    Req.body := body |} newId db
      = ({| Response.status := 403;
            Response.body :=
              Failure "Not authorized to create quizzes for this course"
                None |}, db))
  /\ (forall (id : ObjectId) (quiz : Quiz.t),
        Quizzes db !! id = Some quiz ->
        Quiz.course quiz = courseId ->
        (forall body,
            updateQuiz {| Req.user := user; Req.params_id := id;
                          Req.body := body |} db
            = ({| Response.status := 403;
                  Response.body :=
                    Failure "Not authorized to update this quiz" None |}, db))
        /\ deleteQuiz {| Req.user := user; Req.params_id := id;
                         Req.body := tt |} db
           = ({| Response.status := 403;
                 Response.body :=
                   Failure "Not authorized to delete this quiz" None |}, db)
        /\ getQuizResults {| Req.user := user; Req.params_id := id;
                             Req.body := tt |} db
           = ({| Response.status := 403;
                 Response.body :=
                   Failure "Not authorized to view results for this quiz"
                     None |}, db)).
Proof.
  intros Hcourse Hinstructor Hrole.
  pose proof (notAuthorized_true course user Hinstructor Hrole) as Hauth.
  split.
  - intros body newId.
    unfold createQuiz, try_catch, bind, Course_findById.
    cbn [fst snd Req.params_id Req.user]. rewrite Hcourse, Hauth.
    reflexivity.
  - intros id quiz Hquiz <-. repeat split.
    + intros body.
      unfold updateQuiz, try_catch, bind, Quiz_findById, Course_findById.
      cbn [fst snd Req.params_id Req.user]. rewrite Hquiz, Hcourse, Hauth.
      reflexivity.
    + unfold deleteQuiz, try_catch, bind, Quiz_findById, Course_findById.
      cbn [fst snd Req.params_id Req.user]. rewrite Hquiz, Hcourse, Hauth.
      reflexivity.
    + unfold getQuizResults, try_catch, bind, Quiz_findById, Course_findById.
      cbn [fst snd Req.params_id Req.user]. rewrite Hquiz, Hcourse, Hauth.
      reflexivity.
Qed.

Lemma quiz_management_is_for_the_instructor_witness :
  deleteQuiz (Fixture.request Fixture.student1 tt)
    (Fixture.dbOf (Fixture.quizOf 50 [] []))
  = ({| Response.status := 403;
        Response.body :=
          Failure "Not authorized to delete this quiz" None |},
     Fixture.dbOf (Fixture.quizOf 50 [] [])).
Proof.
  destruct (quiz_management_is_for_the_instructor
              (Fixture.dbOf (Fixture.quizOf 50 [] [])) "c1" Fixture.course1
              Fixture.student1) as [_ Hquiz].
  - reflexivity.
  - discriminate.
  - discriminate.
  - destruct (Hquiz "q1" (Fixture.quizOf 50 [] []) eq_refl eq_refl)
      as (_ & Hdelete & _).
    exact Hdelete.
Defined.

Section ValidQuizzes.

Lemma validQuizzes_insert (db : DB) (k : ObjectId) (quiz : Quiz.t) :
  validQuizzes db ->
  validPassingScore (Quiz.passingScore quiz) = true ->
  validQuizzes (set_Quizzes (<[k := quiz]> (Quizzes db)) db).
Proof.
  intros Hvalid Hquiz id q. cbn.
  destruct (decide (k = id)) as [->|Hne].
  - rewrite lookup_insert_eq. intros [= <-]. exact Hquiz.
  - rewrite lookup_insert_ne by exact Hne. apply Hvalid.
Qed.

Lemma validQuizzes_delete (db : DB) (k : ObjectId) :
  validQuizzes db -> validQuizzes (set_Quizzes (delete k (Quizzes db)) db).
Proof.
  intros Hvalid id q. cbn. intros Hq.
  apply lookup_delete_Some in Hq as [_ Hq]. eapply Hvalid, Hq.
Qed.

Lemma validQuizzes_same (db db' : DB) :
  Quizzes db' = Quizzes db -> validQuizzes db -> validQuizzes db'.
Proof. intros Heq Hvalid id q. rewrite Heq. apply Hvalid. Qed.

Lemma createQuiz_valid (req : Req.t QuizFields.t) (newId : ObjectId)
    (db : DB) :
  validQuizzes db -> validQuizzes (snd (createQuiz req newId db)).
Proof.
  intros Hvalid.
  unfold createQuiz, try_catch, bind, Course_findById, Quiz_create, reply,
    throw.
  cbn [fst snd].
  destruct (Courses db !! Req.params_id req) as [course|]; [|exact Hvalid].
  destruct (notAuthorized course (Req.user req)); [exact Hvalid|].
  destruct (QuizFields.title (Req.body req)) as [title|]; [|exact Hvalid].
  cbn [Quiz.passingScore].
  destruct (validPassingScore _) eqn:Hscore; [|exact Hvalid].
  cbn [negb]. destruct (Quizzes db !! newId); [exact Hvalid|].
  cbn [snd]. apply validQuizzes_insert; [exact Hvalid | exact Hscore].
Qed.

Lemma updateQuiz_valid (req : Req.t QuizFields.t) (db : DB) :
  validQuizzes db -> validQuizzes (snd (updateQuiz req db)).
Proof.
  intros Hvalid.
  unfold updateQuiz, try_catch, bind, Quiz_findById, Course_findById,
    Quiz_findByIdAndUpdate, reply, throw.
  cbn [fst snd].
  destruct (Quizzes db !! Req.params_id req) as [quiz|] eqn:Hquiz;
    [|exact Hvalid].
  destruct (Courses db !! Quiz.course quiz) as [course|]; [|exact Hvalid].
  destruct (notAuthorized course (Req.user req)); [exact Hvalid|].
  destruct (0 <? length (Quiz.attempts quiz))%nat; [exact Hvalid|].
  destruct (from_option validPassingScore true _) eqn:Hscore;
    [|exact Hvalid].
  cbn [negb]. rewrite Hquiz. cbn [snd].
  apply validQuizzes_insert; [exact Hvalid|].
  unfold applyFields. cbn [Quiz.passingScore].
  destruct (QuizFields.passingScore (Req.body req)) as [p|]; cbn in *.
  - exact Hscore.
  - eapply Hvalid, Hquiz.
Qed.

Lemma deleteQuiz_valid (req : Req.t unit) (db : DB) :
  validQuizzes db -> validQuizzes (snd (deleteQuiz req db)).
Proof.
  intros Hvalid.
  unfold deleteQuiz, try_catch, bind, Quiz_findById, Course_findById,
    Quiz_deleteOne, reply, throw.
  cbn [fst snd].
  destruct (Quizzes db !! Req.params_id req) as [quiz|]; [|exact Hvalid].
  destruct (Courses db !! Quiz.course quiz) as [course|]; [|exact Hvalid].
  destruct (notAuthorized course (Req.user req)); [exact Hvalid|].
  destruct (0 <? length (Quiz.attempts quiz))%nat; [exact Hvalid|].
  cbn [snd]. apply validQuizzes_delete, Hvalid.
Qed.

Lemma serve_valid (c : Call) (db : DB) :
  validQuizzes db -> validQuizzes (snd (serve c db)).
Proof.
  intros Hvalid. destruct c; simpl.
  - apply createQuiz_valid, Hvalid.
  - apply updateQuiz_valid, Hvalid.
  - apply deleteQuiz_valid, Hvalid.
  - destruct (startQuizAttempt_effect req now db)
      as [[-> _]|(q & course & Hq & _ & _ & _ & _ & ->)]; [exact Hvalid|].
    cbn [snd]. apply validQuizzes_insert; [exact Hvalid|].
    cbn. eapply Hvalid, Hq.
  - destruct (submitQuizAttempt_effect req now db)
      as [->|(q & k & a & t & g & Hq & _ & _ & _ & ->)]; [exact Hvalid|].
    apply validQuizzes_insert; [exact Hvalid|].
    cbn. eapply Hvalid, Hq.
  - unfold getQuizResults, try_catch, bind, Quiz_findById, Course_findById,
      reply, throw.
    cbn [fst snd]. repeat case_match; simplify_eq; cbn [snd]; exact Hvalid.
  - eapply validQuizzes_same; [apply updateCourseProgress_quizzes|].
    exact Hvalid.
Qed.

End ValidQuizzes.

(** X9.  The validators of [passingScore] hold of the whole collection:
    when every stored quiz has a passing score between 0 and 100, this is
    still so after any sequence of calls; a [passingScore] outside the
    range (or [NaN]) in the body of [createQuiz] or [updateQuiz] is never
    stored. *)
Theorem passing_scores_stay_valid (calls : list Call) (db : DB) :
  validQuizzes db -> validQuizzes (serveAll calls db).
Proof.
  revert db. induction calls as [|c calls IH]; intros db Hvalid;
    [exact Hvalid|].
  simpl. apply IH, serve_valid, Hvalid.
Qed.

Lemma passing_scores_stay_valid_witness :
  let fields :=
    {| QuizFields.title := Some "Quiz 2";
       QuizFields.course := None;
       QuizFields.passingScore := Some 101;
       QuizFields.isActive := None;
       QuizFields.questions := None;
       QuizFields.attempts := None |} in
  validQuizzes
    (serveAll
       [CreateQuiz {| Req.user := Fixture.teacher1; Req.params_id := "c1";
                      Req.body := fields |} "q2";
        UpdateQuiz (Fixture.request Fixture.teacher1 fields)]
       (Fixture.dbOf (Fixture.quizOf 50 [] []))).
Proof.
  intros fields. apply passing_scores_stay_valid.
  intros id quiz Hquiz. cbn in Hquiz.
  apply lookup_singleton_Some in Hquiz as [_ <-]. reflexivity.
Defined.

Lemma set_Quizzes_id (db : DB) : set_Quizzes (Quizzes db) db = db.
Proof. destruct db. reflexivity. Qed.





(** ** What a student sees of the answer key *)





(** ** The listing of results *)

Lemma insertSorted_Permutation {A} (cmp : A -> A -> Js.Number) (x : A)
    (l : list A) :
  Permutation (insertSorted cmp x l) (x :: l).
Proof.
  induction l as [|y l IH]; simpl; [reflexivity|].
  destruct (0 <? cmp y x); [reflexivity|].
  rewrite IH. apply perm_swap.
Qed.

Lemma sort_Permutation {A} (cmp : A -> A -> Js.Number) (l : list A) :
  Permutation (sort cmp l) l.
Proof.
  unfold sort.
  assert (H : forall sorted,
             Permutation
               (fold_left (fun sorted x => insertSorted cmp x sorted) l sorted)
               (sorted ++ l)).
  { induction l as [|x l IH]; intros sorted; simpl.
    - rewrite app_nil_r. reflexivity.
    - rewrite IH, insertSorted_Permutation.
      apply Permutation_middle. }
  apply (H []).
Qed.

Lemma List_filter_Permutation {A} (f : A -> bool) (l l' : list A) :
  Permutation l l' -> Permutation (List.filter f l) (List.filter f l').
Proof.
  induction 1 as [|x l l' _ IH|x y l|l l' l'' _ IH1 _ IH2]; simpl.
  - reflexivity.
  - destruct (f x); [constructor|]; exact IH.
  - destruct (f x), (f y); try reflexivity. apply perm_swap.
  - etransitivity; eauto.
Qed.

Lemma List_filter_length {A} (f : A -> bool) (l : list A) :
  (length (List.filter f l) <= length l)%nat.
Proof.
  induction l as [|x l IH]; simpl; [lia|]. destruct (f x); simpl; lia.
Qed.

(** X13.  For the instructor (or an admin), [getQuizResults] lists the
    completed attempts of the quiz, each once, in some order, and no
    open attempt; [totalAttempts] is their number, [passedAttempts] the
    number of those marked passed, which is at most [totalAttempts];
    and there is one [questionStats] entry per question, the entry at
    index [i] carries [questionIndex = i], and its counts satisfy
    [correctAnswers <= totalAttempts <= stats.totalAttempts]. *)
Theorem getQuizResults_lists_completed_attempts (req : Req.t unit) (db : DB)
    (quiz : Quiz.t) (course : Course.t) :
  Quizzes db !! Req.params_id req = Some quiz ->
  Courses db !! Quiz.course quiz = Some course ->
  Course.instructor course = User.id (Req.user req)
  \/ User.role (Req.user req) = "admin" ->
  exists stats questionStats attempts,
    getQuizResults req db
    = ({| Response.status := 200;
          Response.body :=
            Results (length (Quiz.questions quiz)) (Quiz.passingScore quiz)
              stats questionStats attempts |}, db)
    /\ Permutation attempts
         (map toAttemptResult
            (List.filter (fun a => isSome (Attempt.completedAt a))
               (Quiz.attempts quiz)))
    /\ Stats.totalAttempts stats
       = length (List.filter (fun a => isSome (Attempt.completedAt a))
                   (Quiz.attempts quiz))
    /\ Stats.passedAttempts stats
       = length (List.filter
                   (fun a => Attempt.passed a && isSome (Attempt.completedAt a))
                   (Quiz.attempts quiz))
    /\ (Stats.passedAttempts stats <= Stats.totalAttempts stats)%nat
    /\ length questionStats = length (Quiz.questions quiz)
    /\ forall i stat,
         questionStats !! i = Some stat ->
         QuestionStat.questionIndex stat = i
         /\ (QuestionStat.correctAnswers stat
             <= QuestionStat.totalAttempts stat)%nat
         /\ (QuestionStat.totalAttempts stat
             <= Stats.totalAttempts stats)%nat.
Proof.
  intros Hquiz Hcourse Hauth. apply authorized in Hauth.
  rewrite (getQuizResults_run req db quiz course Hquiz Hcourse Hauth).
  eexists _, _, _. split; [reflexivity|].
  pose proof (sort_Permutation
                (fun a b => AttemptResult.score b - AttemptResult.score a)
                (map toAttemptResult
                   (List.filter (fun a => isSome (Attempt.completedAt a))
                      (Quiz.attempts quiz)))) as Hperm.
  fold (completedAttemptsOf quiz) in Hperm.
  split; [exact Hperm|]. split; [|split; [|split; [|split]]].
  - cbn. rewrite (Permutation_length Hperm), length_map. reflexivity.
  - cbn.
    rewrite (Permutation_length
               (List_filter_Permutation AttemptResult.passed _ _ Hperm)).
    clear Hperm. induction (Quiz.attempts quiz) as [|a l IH]; simpl;
      [reflexivity|].
    destruct (isSome (Attempt.completedAt a)); simpl.
    + rewrite andb_true_r. destruct (Attempt.passed a); simpl; congruence.
    + rewrite andb_false_r. exact IH.
  - cbn. apply List_filter_length.
  - apply length_imap.
  - intros i stat Hstat.
    apply list_lookup_imap_Some in Hstat as (question & _ & ->).
    cbn. split; [reflexivity|]. split; apply List_filter_length.
Qed.

Lemma getQuizResults_lists_completed_attempts_witness :
  exists stats questionStats attempts,
    getQuizResults (Fixture.request Fixture.teacher1 tt)
      (Fixture.dbOf Fixture.attempted)
    = ({| Response.status := 200;
          Response.body :=
            Results 2 50 stats questionStats attempts |},
       Fixture.dbOf Fixture.attempted)
    /\ Permutation attempts [toAttemptResult Fixture.submitted]
    /\ Stats.totalAttempts stats = 1%nat
    /\ Stats.passedAttempts stats = 1%nat.
Proof.
  destruct (getQuizResults_lists_completed_attempts
              (Fixture.request Fixture.teacher1 tt)
              (Fixture.dbOf Fixture.attempted) Fixture.attempted
              Fixture.course1 eq_refl eq_refl (or_introl eq_refl))
    as (stats & questionStats & attempts & Heq & Hperm & Htotal & Hpassed & _).
  exists stats, questionStats, attempts. repeat split; assumption.
Defined.

(** ** The counters of [calculateStudentProgress] *)

Lemma increments_S (n : nat) : increments (S n) = increments n + 1.
Proof. reflexivity. Qed.

Lemma countMaterials_increments (student : Student.t) (l : list Material.t) :
  forall a b,
    fold_left (countMaterial student) l (increments a, increments b)
    = (increments (a + length (List.filter Material.isRequired l)),
       increments
         (b + length (List.filter (isCompletedMaterial student)
                        (List.filter Material.isRequired l)))).
Proof.
  induction l as [|m l IH]; intros a b; simpl.
  - rewrite !Nat.add_0_r. reflexivity.
  - unfold countMaterial at 2. destruct (Material.isRequired m); simpl.
    + unfold isCompletedMaterial at 1.
      destruct (includes _ (Material._id m)); simpl;
        rewrite <- !increments_S, IH; f_equal; f_equal; lia.
    + apply IH.
Qed.

Lemma countModules_increments (student : Student.t)
    (modules : list CourseModule.t) :
  forall a b,
    fold_left (countModule student) modules (increments a, increments b)
    = (increments
         (a + length (List.filter Material.isRequired
                        (concat (map CourseModule.materials modules)))),
       increments
         (b + length (List.filter (isCompletedMaterial student)
                        (List.filter Material.isRequired
                           (concat (map CourseModule.materials modules)))))).
Proof.
  induction modules as [|m modules IH]; intros a b; simpl.
  - rewrite !Nat.add_0_r. reflexivity.
  - unfold countModule at 2. rewrite countMaterials_increments, IH.
    rewrite !List.filter_app, !length_app. f_equal; f_equal; lia.
Qed.

Lemma countQuizzes_increments (student : Student.t)
    (quizzes : list CourseQuiz.t) :
  forall a b,
    fold_left (countQuiz student) quizzes (increments a, increments b)
    = (increments (a + length quizzes),
       increments
         (b + length (List.filter (isCountedQuiz student) quizzes))).
Proof.
  induction quizzes as [|q quizzes IH]; intros a b; simpl.
  - rewrite !Nat.add_0_r. reflexivity.
  - unfold countQuiz at 2. cbn [fst snd]. unfold isCountedQuiz at 1.
    destruct (List.find _ _) as [quizScore|];
      [destruct (CourseQuiz.passingScore q <=? QuizScore.score quizScore)|];
      simpl; rewrite <- !increments_S, IH; f_equal; f_equal; lia.
Qed.

Lemma countItems_increments (this : Course.t) (student : Student.t) :
  countItems this student
  = (increments (length (requiredMaterialsOf this)
                 + length (Course.quizzes this)),
     increments
       (length (List.filter (isCompletedMaterial student)
                  (requiredMaterialsOf this))
        + length (List.filter (isCountedQuiz student)
                    (Course.quizzes this)))).
Proof.
  unfold countItems, requiredMaterialsOf.
  change (0, 0) with (increments 0, increments 0).
  rewrite countModules_increments, countQuizzes_increments. reflexivity.
Qed.

(** X14.  The two counters of [calculateStudentProgress] are what [n]
    evaluations of [++] make of 0, where for [totalRequiredItems] [n] is
    the number of required materials of all modules plus the number of
    quizzes of the course, and for [completedItems] it is the number of
    required materials whose [_id] is in [completedLessons] (a material
    listed twice counts twice) plus the number of quizzes whose first
    recorded score is at least the passing score; the second number never
    exceeds the first. *)
Theorem countItems_counts (this : Course.t) (student : Student.t) :
  let total :=
    (length (requiredMaterialsOf this) + length (Course.quizzes this))%nat in
  let completed :=
    (length (List.filter (isCompletedMaterial student)
               (requiredMaterialsOf this))
     + length (List.filter (isCountedQuiz student) (Course.quizzes this)))%nat
  in
  countItems this student = (increments total, increments completed)
  /\ (completed <= total)%nat.
Proof.
  split; [apply countItems_increments|].
  pose proof (List_filter_length (isCompletedMaterial student)
                (requiredMaterialsOf this)).
  pose proof (List_filter_length (isCountedQuiz student)
                (Course.quizzes this)).
  lia.
Qed.

Lemma List_filter_ext_In {A} (f g : A -> bool) (l : list A) :
  (forall x, In x l -> f x = g x) -> List.filter f l = List.filter g l.
Proof.
  induction l as [|x l IH]; intros H; simpl; [reflexivity|].
  rewrite (H x (or_introl eq_refl)), IH; [reflexivity|].
  intros y Hy. apply H. right. exact Hy.
Qed.

(** X15.  The percentage depends on [completedLessons] only through the
    membership of the identifiers of the required materials: two
    enrollments with the same quiz scores whose lesson lists contain the
    same required materials get the same percentage, whatever the
    order, the repetitions and the other identifiers in the lists. *)
Theorem percentage_depends_on_required_lessons (this : Course.t)
    (s1 s2 : Student.t) :
  (forall m, In m (requiredMaterialsOf this) ->
             In (Material._id m) (lessonsOf s1)
             <-> In (Material._id m) (lessonsOf s2)) ->
  Progress.quizScores (Student.progress s1)
  = Progress.quizScores (Student.progress s2) ->
  percentageOf (countItems this s1) = percentageOf (countItems this s2).
Proof.
  intros Hlessons Hscores. rewrite !countItems_increments.
  rewrite (List_filter_ext_In (isCompletedMaterial s1)
             (isCompletedMaterial s2)).
  - rewrite (List_filter_ext_In (isCountedQuiz s1) (isCountedQuiz s2));
      [reflexivity|].
    intros q _. unfold isCountedQuiz. rewrite Hscores. reflexivity.
  - intros m Hm. unfold isCompletedMaterial.
    specialize (Hlessons m Hm). unfold lessonsOf in Hlessons.
    rewrite <- !includes_In in Hlessons.
    destruct (includes _ _), (includes _ _); trivial;
      [symmetry|]; apply Hlessons; reflexivity.
Qed.

Lemma percentage_depends_on_required_lessons_witness :
  let this := Fixture.courseWithMaterials 3 0 in
  let lessons l :=
    Fixture.enrolled
      {| Progress.completedModules := [];
         Progress.completedLessons := l;
         Progress.quizScores := [];
         Progress.completionPercentage := 0;
         Progress.lastAccessedAt := 0 |} in
  percentageOf (countItems this (lessons ["0"; "2"]))
  = percentageOf (countItems this (lessons ["2"; "x"; "0"; "2"])).
Proof.
  intros this lessons.
  apply (percentage_depends_on_required_lessons this).
  - intros m Hm. cbn. intuition (subst; auto).
    apply List.filter_In in Hm as [Hm _]. cbn in Hm.
    intuition (subst; discriminate).
  - reflexivity.
Defined.

(** ** What [calculateStudentProgress] and [updateCourseProgress] write *)

(** X16.  [calculateStudentProgress] never throws and writes one field:
    it keeps the instructor, the modules and the quizzes of the course
    and, of every enrollment, the student, the status, the completed
    lessons and modules, the quiz scores and the access time; an
    enrollment of another student is kept whole.  For a student who is
    not in the course it returns 0 and saves nothing. *)
Theorem calculateStudentProgress_writes_the_percentage
    (courseId : ObjectId) (this : Course.t) (studentId : ObjectId)
    (db : DB) :
  exists percentage this' db',
    calculateStudentProgress courseId this studentId db
    = (Value (percentage, this'), db')
    /\ Course.instructor this' = Course.instructor this
    /\ Course.modules this' = Course.modules this
    /\ Course.quizzes this' = Course.quizzes this
    /\ Forall2
         (fun s s' =>
            Student.student s' = Student.student s
            /\ Student.enrollmentStatus s' = Student.enrollmentStatus s
            /\ Progress.set_completionPercentage 0 (Student.progress s')
               = Progress.set_completionPercentage 0 (Student.progress s)
            /\ (Student.student s <> studentId -> s' = s))
         (Course.students this) (Course.students this')
    /\ ((forall s, In s (Course.students this) ->
                   Student.student s <> studentId) ->
        percentage = 0 /\ this' = this /\ db' = db).
Proof.
  destruct (calculateStudentProgress_run courseId this studentId db)
    as [[Hnone ->]|(j & student & Hj & Hstudent & Hid & ->)].
  - exists 0, this, db. repeat split; trivial.
    apply Forall2_same_length_lookup. split; [reflexivity|].
    intros i s s' Hs Hs'. assert (s' = s) as -> by congruence. auto.
  - eexists _, _, _. split; [reflexivity|]. repeat split.
    + unfold withPercentage. cbn [Course.students Course.set_students].
      apply Forall2_same_length_lookup. split; [rewrite length_insert; auto|].
      intros i s s' Hs Hs'. destruct (decide (j = i)) as [->|Hne].
      * rewrite list_lookup_insert_eq in Hs'
          by (eapply lookup_lt_Some; eauto).
        assert (s = student) as -> by congruence.
        injection Hs' as <-. repeat split; trivial. congruence.
      * rewrite list_lookup_insert_ne in Hs' by exact Hne.
        assert (s' = s) as -> by congruence. auto.
    + exfalso. apply (H student); [|exact Hid].
      apply list_elem_of_In, list_elem_of_lookup. eauto.
    + exfalso. apply (H student); [|exact Hid].
      apply list_elem_of_In, list_elem_of_lookup. eauto.
    + exfalso. apply (H student); [|exact Hid].
      apply list_elem_of_In, list_elem_of_lookup. eauto.
Qed.

Section UpdateShape.

Variables (req : Req.t ProgressUpdate.t) (now : Date) (db : DB).
Variables (course : Course.t) (i : nat) (student : Student.t).

Hypothesis Hcourse : Courses db !! Req.params_id req = Some course.
Hypothesis Hindex :
  findIndex (isApprovedStudent (User.id (Req.user req)))
    (Course.students course) = Some i.
Hypothesis Hstudent : Course.students course !! i = Some student.

(** The course that a successful [updateCourseProgress] saves: the
    acting enrollment gets its three updates, and then the first entry
    of the same student gets the recomputed percentage. *)
Lemma updateCourseProgress_shape :
  exists students',
    updateCourseProgress req now db
    = ({| Response.status := 200;
          Response.body := ProgressData (Student.progress <$> students' !! i)
       |},
       set_Courses
         (<[Req.params_id req := Course.set_students students' course]>
            (Courses db)) db)
    /\ (forall (B : Type) (f : Student.t -> B),
         (forall x s,
             f (Student.set_progress
                  (Progress.set_completionPercentage x (Student.progress s))
                  s) = f s) ->
         f <$> students'
         = <[i := f (Student.set_progress
                       (progressAfter (Req.body req) now
                          (Student.progress student)) student)]>
             (f <$> Course.students course))
    /\ forall k s,
         Course.students course !! k = Some s ->
         Student.student s <> User.id (Req.user req) ->
         students' !! k = Some s.
Proof.
  assert (Hi : forall k s,
             Course.students course !! k = Some s ->
             Student.student s <> User.id (Req.user req) -> i <> k).
  { intros k s Hs Hne <-.
    destruct (findIndex_Some _ _ _ Hindex) as (x & Hx & Hp & _).
    apply andb_true_iff in Hp as [Hp _]. apply String.eqb_eq in Hp.
    congruence. }
  unfold updateCourseProgress, try_catch, bind, Course_findById.
  simpl. rewrite Hcourse, Hindex, Hstudent.
  match goal with
  | |- context [calculateStudentProgress ?c ?t ?u ?d] =>
      destruct (calculateStudentProgress_run c t u d)
        as [[_ ->]|(j & sj & _ & Hsj & Hid & ->)]
  end.
  - simpl. eexists (<[i := _]> (Course.students course)).
    split; [reflexivity|]. split.
    + intros B f Hf. rewrite list_fmap_insert. reflexivity.
    + intros k s Hs Hne.
      rewrite list_lookup_insert_ne by exact (Hi k s Hs Hne). exact Hs.
  - cbn [Course.students Course.set_students] in Hsj.
    simpl. eexists (<[j := _]> (<[i := _]> (Course.students course))). split.
    { unfold set_Courses. simpl. rewrite insert_insert_eq. reflexivity. }
    split.
    + intros B f Hf.
      rewrite (fmap_insert_same f _ j _ sj) by (exact Hsj || apply Hf).
      rewrite list_fmap_insert. reflexivity.
    + intros k s Hs Hne. pose proof (Hi k s Hs Hne) as Hik.
      assert (j <> k) as Hjk.
      { intros <-. rewrite list_lookup_insert_ne in Hsj by exact Hik.
        congruence. }
      rewrite list_lookup_insert_ne by exact Hjk.
      rewrite list_lookup_insert_ne by exact Hik. exact Hs.
Qed.

End UpdateShape.

Lemma findIndex_not_approved (userId : ObjectId) (students : list Student.t) :
  (forall s, In s students -> Student.student s = userId ->
             Student.enrollmentStatus s <> approved) ->
  findIndex (isApprovedStudent userId) students = None.
Proof.
  intros Hnone. apply findIndex_None, List.Forall_forall. intros s Hin.
  apply not_true_is_false. unfold isApprovedStudent. intros H.
  apply andb_true_iff in H as [Hid Hstatus]. apply String.eqb_eq in Hid.
  apply (Hnone s Hin Hid).
  destruct (Student.enrollmentStatus s); (discriminate || reflexivity).
Qed.

(** X17.  Progress can be recorded with an approved enrollment only: for
    a user whose enrollments in the course, if any, are pending or
    rejected, [updateCourseProgress] answers 403 and saves nothing. *)
Theorem updateCourseProgress_requires_approval
    (req : Req.t ProgressUpdate.t) (now : Date) (db : DB)
    (course : Course.t) :
  Courses db !! Req.params_id req = Some course ->
  (forall s, In s (Course.students course) ->
             Student.student s = User.id (Req.user req) ->
             Student.enrollmentStatus s <> approved) ->
  updateCourseProgress req now db
  = ({| Response.status := 403;
        Response.body :=
          Failure "You are not enrolled in this course" None |}, db).
Proof.
  intros Hcourse Hnone. apply findIndex_not_approved in Hnone.
  unfold updateCourseProgress, try_catch, bind, Course_findById.
  cbn [fst snd]. rewrite Hcourse, Hnone. reflexivity.
Qed.

Lemma updateCourseProgress_requires_approval_witness :
  let course :=
    Course.set_students
      [Student_set_enrollmentStatus pending
         (Fixture.enrolled Fixture.newProgress)] Fixture.course1 in
  updateCourseProgress (Fixture.progressRequest (Some "lesson-1") true)
    3000%Z (Fixture.dbWith course)
  = ({| Response.status := 403;
        Response.body :=
          Failure "You are not enrolled in this course" None |},
     Fixture.dbWith course).
Proof.
  intros course.
  apply (updateCourseProgress_requires_approval
           (Fixture.progressRequest (Some "lesson-1") true) 3000%Z
           (Fixture.dbWith course) course eq_refl).
  intros s [<-|[]] _. discriminate.
Defined.

Lemma updateCompletedLessons_NoDup (lessonId : option string)
    (completed : bool) (l : list string) :
  NoDup l -> NoDup (updateCompletedLessons lessonId completed l).
Proof.
  intros Hl. unfold updateCompletedLessons.
  destruct lessonId as [lessonId|]; [|exact Hl].
  destruct (String.eqb lessonId ""); [exact Hl|].
  destruct completed; simpl.
  - destruct (includes l lessonId) eqn:Hin; simpl; [exact Hl|].
    apply NoDup_app. repeat split.
    + exact Hl.
    + intros x Hx Hx'. apply list_elem_of_singleton in Hx' as ->.
      apply list_elem_of_In, includes_In in Hx. congruence.
    + apply NoDup_singleton.
  - apply NoDup_ListNoDup, List.NoDup_filter, NoDup_ListNoDup. exact Hl.
Qed.

(** X18.  [completedLessons] stays a set: when no enrollment of the
    course lists a lesson twice, none does after [updateCourseProgress],
    whatever the request. *)
Theorem updateCourseProgress_keeps_lessons_unique
    (req : Req.t ProgressUpdate.t) (now : Date) (db : DB)
    (course : Course.t) :
  Courses db !! Req.params_id req = Some course ->
  Forall (fun s => NoDup (lessonsOf s)) (Course.students course) ->
  exists course',
    Courses (snd (updateCourseProgress req now db)) !! Req.params_id req
    = Some course'
    /\ Forall (fun s => NoDup (lessonsOf s)) (Course.students course').
Proof.
  intros Hcourse Hunique.
  destruct (findIndex (isApprovedStudent (User.id (Req.user req)))
              (Course.students course)) as [i|] eqn:Hindex.
  - destruct (findIndex_Some _ _ _ Hindex) as (student & Hstudent & _).
    destruct (updateCourseProgress_shape req now db course i student
                Hcourse Hindex Hstudent) as (students' & -> & Hshape & _).
    eexists. split; [apply lookup_insert_eq|].
    cbn [Course.students Course.set_students].
    specialize (Hshape _ lessonsOf (fun _ _ => eq_refl)).
    apply (proj1 (Forall_fmap lessonsOf NoDup students')).
    rewrite Hshape.
    apply Forall_insert;
      [apply (proj2 (Forall_fmap lessonsOf NoDup _)); exact Hunique|].
    apply updateCompletedLessons_NoDup.
    rewrite Forall_lookup in Hunique. exact (Hunique i student Hstudent).
  - exists course. split; [|exact Hunique].
    unfold updateCourseProgress, try_catch, bind, Course_findById.
    cbn [fst snd]. rewrite Hcourse, Hindex. exact Hcourse.
Qed.

Lemma updateCourseProgress_keeps_lessons_unique_witness :
  exists course',
    Courses (snd (updateCourseProgress
                    (Fixture.progressRequest (Some "1") true) 3000%Z
                    (Fixture.dbWith (Fixture.courseWithMaterials 3 2))))
      !! "c1" = Some course'
    /\ Forall (fun s => NoDup (lessonsOf s)) (Course.students course').
Proof.
  apply (updateCourseProgress_keeps_lessons_unique
           (Fixture.progressRequest (Some "1") true) 3000%Z
           (Fixture.dbWith (Fixture.courseWithMaterials 3 2))
           (Fixture.courseWithMaterials 3 2) eq_refl).
  repeat constructor; cbn; intros H.
  - apply list_elem_of_In in H. cbn in H. intuition discriminate.
  - apply list_elem_of_In in H. cbn in H. intuition discriminate.
Defined.

Lemma updateCourseProgress_cases (req : Req.t ProgressUpdate.t) (now : Date)
    (db : DB) :
  (Response.status (fst (updateCourseProgress req now db)) <> 200%nat
   /\ snd (updateCourseProgress req now db) = db)
  \/ exists course i student,
       Courses db !! Req.params_id req = Some course
       /\ findIndex (isApprovedStudent (User.id (Req.user req)))
            (Course.students course) = Some i
       /\ Course.students course !! i = Some student.
Proof.
  destruct (Courses db !! Req.params_id req) as [course|] eqn:Hcourse.
  - destruct (findIndex (isApprovedStudent (User.id (Req.user req)))
                (Course.students course)) as [i|] eqn:Hindex.
    + destruct (findIndex_Some _ _ _ Hindex) as (student & Hstudent & _).
      right. exists course, i, student. auto.
    + left. unfold updateCourseProgress, try_catch, bind, Course_findById.
      cbn [fst snd]. rewrite Hcourse, Hindex. split; [discriminate|].
      reflexivity.
  - left. unfold updateCourseProgress, try_catch, bind, Course_findById.
    cbn [fst snd]. rewrite Hcourse. split; [discriminate|]. reflexivity.
Qed.

(** X19.  [updateCourseProgress] writes to the enrollments of the caller
    in the addressed course and to nothing else: quiz documents, other
    courses, the instructor, modules and quizzes of the course, the
    number of enrollments, the student and status of each enrollment and
    the progress of every other student are as before. *)
Theorem updateCourseProgress_touches_the_caller_only
    (req : Req.t ProgressUpdate.t) (now : Date) (db : DB)
    (course : Course.t) :
  Courses db !! Req.params_id req = Some course ->
  let db' := snd (updateCourseProgress req now db) in
  Quizzes db' = Quizzes db
  /\ (forall id, id <> Req.params_id req ->
                 Courses db' !! id = Courses db !! id)
  /\ exists course',
       Courses db' !! Req.params_id req = Some course'
       /\ Course.instructor course' = Course.instructor course
       /\ Course.modules course' = Course.modules course
       /\ Course.quizzes course' = Course.quizzes course
       /\ Forall2
            (fun s s' =>
               Student.student s' = Student.student s
               /\ Student.enrollmentStatus s' = Student.enrollmentStatus s
               /\ (Student.student s <> User.id (Req.user req) -> s' = s))
            (Course.students course) (Course.students course').
Proof.
  intros Hcourse db'. subst db'.
  destruct (updateCourseProgress_cases req now db)
    as [[_ ->]|(c & i & student & Hc & Hindex & Hstudent)].
  { repeat split; trivial. exists course. repeat split; trivial.
    apply Forall_Forall2_diag, Forall_forall. auto. }
  assert (c = course) as -> by congruence.
  destruct (findIndex_Some _ _ _ Hindex) as (x & Hx & Happroved & _).
  assert (x = student) as -> by congruence.
  apply andb_true_iff in Happroved as [Hid _]. apply String.eqb_eq in Hid.
  destruct (updateCourseProgress_shape req now db course i student
              Hcourse Hindex Hstudent) as (students' & -> & Hshape & Hothers).
  cbn [fst snd Quizzes Courses set_Courses].
  split; [reflexivity|]. split.
  { intros id Hne. apply lookup_insert_ne. congruence. }
  eexists. split; [apply lookup_insert_eq|].
  cbn [Course.instructor Course.modules Course.quizzes Course.students
         Course.set_students].
  repeat split; trivial.
  pose proof (Hshape _ (fun s => (Student.student s,
                                  Student.enrollmentStatus s))
                (fun _ _ => eq_refl)) as Hkeys.
  cbn beta in Hkeys. cbn [Student.student Student.set_progress] in Hkeys.
  rewrite list_insert_id in Hkeys
    by (rewrite list_lookup_fmap, Hstudent; reflexivity).
  apply Forall2_same_length_lookup. split.
  { apply (f_equal length) in Hkeys. rewrite !length_fmap in Hkeys.
    symmetry. exact Hkeys. }
  intros k s s' Hs Hs'.
  apply (f_equal (fun l => l !! k)) in Hkeys.
  rewrite !list_lookup_fmap, Hs, Hs' in Hkeys.
  cbn in Hkeys. injection Hkeys as Hk1 Hk2.
  repeat split; trivial. intros Hne.
  specialize (Hothers k s Hs Hne). congruence.
Qed.

Lemma updateCourseProgress_touches_the_caller_only_witness :
  let req := Fixture.progressRequest (Some "lesson-1") true in
  let course :=
    Course.set_students
      [{| Student.student := "u2";
          Student.enrollmentStatus := approved;
          Student.progress := Fixture.newProgress |};
       Fixture.enrolled Fixture.newProgress] Fixture.course1 in
  exists course',
    Courses (snd (updateCourseProgress req 3000%Z (Fixture.dbWith course)))
      !! "c1" = Some course'
    /\ Forall2
         (fun s s' =>
            Student.student s' = Student.student s
            /\ Student.enrollmentStatus s' = Student.enrollmentStatus s
            /\ (Student.student s <> "u1" -> s' = s))
         (Course.students course) (Course.students course').
Proof.
  intros req course.
  destruct (updateCourseProgress_touches_the_caller_only req 3000%Z
              (Fixture.dbWith course) course eq_refl)
    as (_ & _ & course' & Hcourse' & _ & _ & _ & Hstudents).
  exists course'. split; [exact Hcourse' | exact Hstudents].
Defined.

(** ** Numbers in [completedModules] *)

Lemma SFeqb_sym (x y : spec_float) : SFeqb x y = SFeqb y x.
Proof.
  unfold SFeqb.
  destruct x as [[]|[]| |[] mx ex], y as [[]|[]| |[] my ey]; simpl;
    try reflexivity;
    rewrite (Z.compare_antisym ex ey); destruct (ex ?= ey)%Z; simpl;
    try reflexivity;
    change (Pos.compare_cont Eq my mx) with (Pos.compare my mx);
    change (Pos.compare_cont Eq mx my) with (Pos.compare mx my);
    rewrite (Pos.compare_antisym mx my); destruct (mx ?= my)%positive;
    reflexivity.
Qed.

(** [x === y] is [y === x] on Numbers. *)
Lemma Number_eqb_sym (x y : Js.Number) : (x =? y) = (y =? x).
Proof. rewrite !FloatAxioms.eqb_spec. apply SFeqb_sym. Qed.

Lemma same_value_zero_refl (x : Js.Number) : Js.same_value_zero x x = true.
Proof.
  unfold Js.same_value_zero, is_nan. destruct (x =? x); reflexivity.
Qed.

Lemma includesModule_app (l1 l2 : list Js.Number) (m : Js.Number) :
  includesModule (l1 ++ l2) m = includesModule l1 m || includesModule l2 m.
Proof. apply existsb_app. Qed.

Lemma includesModule_filter (l : list Js.Number) (m : Js.Number) :
  is_nan m = false ->
  includesModule (List.filter (fun index => negb (index =? m)) l) m = false.
Proof.
  intros Hm. unfold includesModule.
  induction l as [|x l IH]; simpl; [reflexivity|].
  destruct (x =? m) eqn:Hx; simpl; [exact IH|].
  rewrite IH. unfold Js.same_value_zero.
  rewrite (Number_eqb_sym m x), Hx, Hm. reflexivity.
Qed.

Lemma updateCompletedModules_includes (m : Js.Number) (completed : bool)
    (l : list Js.Number) :
  is_nan m = false ->
  includesModule (updateCompletedModules (Some m) completed l) m = completed.
Proof.
  intros Hm. unfold updateCompletedModules.
  fold (includesModule l m).
  destruct completed; simpl.
  - destruct (includesModule l m) eqn:Hin; simpl; [exact Hin|].
    rewrite includesModule_app, Hin. simpl.
    rewrite same_value_zero_refl. reflexivity.
  - apply includesModule_filter. exact Hm.
Qed.

(** X20.  Marking a module: when an approved student sends a
    [moduleIndex] that is a number, the progress in the answer of
    [updateCourseProgress] lists that module exactly when [completed] is
    true, whatever was stored; the completed lessons are left alone when
    the request has no [lessonId]. *)
Theorem updateCourseProgress_marks_module
    (req : Req.t ProgressUpdate.t) (now : Date) (db : DB)
    (course : Course.t) (i : nat) (student : Student.t) (m : Js.Number) :
  Courses db !! Req.params_id req = Some course ->
  findIndex (isApprovedStudent (User.id (Req.user req)))
    (Course.students course) = Some i ->
  Course.students course !! i = Some student ->
  ProgressUpdate.moduleIndex (Req.body req) = Some m ->
  is_nan m = false ->
  exists progress,
    fst (updateCourseProgress req now db)
    = {| Response.status := 200;
         Response.body := ProgressData (Some progress) |}
    /\ includesModule (Progress.completedModules progress) m
       = ProgressUpdate.completed (Req.body req)
    /\ Progress.lastAccessedAt progress = now
    /\ (ProgressUpdate.lessonId (Req.body req) = None ->
        Progress.completedLessons progress
        = Progress.completedLessons (Student.progress student)).
Proof.
  intros Hcourse Hindex Hstudent Hm Hnan.
  destruct (updateCourseProgress_shape req now db course i student
              Hcourse Hindex Hstudent) as (students' & -> & Hshape & _).
  pose proof (Hshape _ (fun s =>
                          (Progress.completedModules (Student.progress s),
                           Progress.lastAccessedAt (Student.progress s),
                           Progress.completedLessons (Student.progress s)))
                (fun _ _ => eq_refl)) as H.
  apply (f_equal (fun l => l !! i)) in H.
  rewrite list_lookup_fmap in H.
  rewrite list_lookup_insert_eq in H
    by (rewrite length_fmap; eapply lookup_lt_Some; exact Hstudent).
  destruct (students' !! i) as [s'|]; [|discriminate].
  cbn in H. injection H as Hmodules Hnow Hlessons.
  exists (Student.progress s'). rewrite Hmodules, Hnow, Hlessons, Hm.
  repeat split.
  - apply updateCompletedModules_includes. exact Hnan.
  - intros ->. reflexivity.
Qed.

Lemma updateCourseProgress_marks_module_witness :
  let req :=
    {| Req.user := Fixture.student1;
       Req.params_id := "c1";
       Req.body :=
         {| ProgressUpdate.lessonId := None;
            ProgressUpdate.moduleIndex := Some 2;
            ProgressUpdate.completed := false |} |} in
  let course := Fixture.withCompletedModules [2; 1; 2] Fixture.course1 in
  exists progress,
    fst (updateCourseProgress req 3000%Z (Fixture.dbWith course))
    = {| Response.status := 200;
         Response.body := ProgressData (Some progress) |}
    /\ includesModule (Progress.completedModules progress) 2 = false.
Proof.
  intros req course.
  destruct (updateCourseProgress_marks_module req 3000%Z
              (Fixture.dbWith course) course 0
              (Student.set_progress
                 (Progress.set_completedModules [2; 1; 2] Fixture.newProgress)
                 (Fixture.enrolled Fixture.newProgress)) 2
              eq_refl eq_refl eq_refl eq_refl eq_refl)
    as (progress & Hanswer & Hmodule & _).
  exists progress. split; [exact Hanswer | exact Hmodule].
Defined.

(** ** Reading the progress *)

Lemma find_findIndex {A} (p : A -> bool) (l : list A) :
  List.find p l = findIndex p l ≫= (l !!.).
Proof.
  induction l as [|a l IH]; simpl; [reflexivity|].
  destruct (p a); [reflexivity|]. rewrite IH.
  destruct (findIndex p l); reflexivity.
Qed.

Lemma findIndex_same_tests {A} (p : A -> bool) (l1 l2 : list A) :
  p <$> l1 = p <$> l2 -> findIndex p l1 = findIndex p l2.
Proof.
  revert l2. induction l1 as [|a l1 IH]; intros [|b l2]; simpl;
    try discriminate; [reflexivity|].
  intros [= -> H]. rewrite (IH l2 H). reflexivity.
Qed.

Lemma find_approved (userId : ObjectId) (students : list Student.t)
    (s : Student.t) :
  List.find (isApprovedStudent userId) students = Some s ->
  In s students /\ Student.student s = userId
  /\ Student.enrollmentStatus s = approved.
Proof.
  intros H. apply List.find_some in H as [Hin Hp].
  apply andb_true_iff in Hp as [Hid Hstatus]. apply String.eqb_eq in Hid.
  repeat split; trivial.
  destruct (Student.enrollmentStatus s); (discriminate || reflexivity).
Qed.

(** X21.  Read after write: when [updateCourseProgress] answers 200,
    a [getCourseProgress] of the same user for the same course, without
    [studentId] in the query, answers with the same status and the same
    progress record. *)
Theorem getCourseProgress_after_update
    (req : Req.t ProgressUpdate.t) (now : Date) (db : DB) :
  Response.status (fst (updateCourseProgress req now db)) = 200%nat ->
  fst (getCourseProgress
         {| Req.user := Req.user req;
            Req.params_id := Req.params_id req;
            Req.body := None |}
         (snd (updateCourseProgress req now db)))
  = fst (updateCourseProgress req now db).
Proof.
  intros Hok.
  destruct (updateCourseProgress_cases req now db)
    as [[Hno _]|(course & i & student & Hcourse & Hindex & Hstudent)];
    [contradiction|]. clear Hok.
  destruct (updateCourseProgress_shape req now db course i student
              Hcourse Hindex Hstudent) as (students' & -> & Hshape & _).
  specialize (Hshape _ (isApprovedStudent (User.id (Req.user req)))
                (fun _ _ => eq_refl)).
  rewrite list_insert_id in Hshape.
  2:{ rewrite list_lookup_fmap, Hstudent. reflexivity. }
  assert (Hindex' : findIndex (isApprovedStudent (User.id (Req.user req)))
                      students' = Some i).
  { rewrite <- Hindex. apply findIndex_same_tests. exact Hshape. }
  unfold getCourseProgress, try_catch, bind, Course_findById, reply.
  cbn [fst snd Req.user Req.params_id Req.body Courses set_Courses].
  rewrite lookup_insert_eq.
  cbn [Course.students Course.set_students Course.instructor].
  rewrite find_findIndex, Hindex'. cbn [mbind option_bind].
  destruct (students' !! i) as [s'|] eqn:Hs'; [reflexivity|].
  exfalso. apply lookup_ge_None in Hs'.
  apply (f_equal length) in Hshape. rewrite !length_fmap in Hshape.
  apply lookup_lt_Some in Hstudent. lia.
Qed.

Lemma getCourseProgress_after_update_witness :
  let req := Fixture.progressRequest (Some "0") true in
  let db := Fixture.dbWith (Fixture.courseWithMaterials 2 0) in
  fst (getCourseProgress
         {| Req.user := Req.user req;
            Req.params_id := Req.params_id req;
            Req.body := None |}
         (snd (updateCourseProgress req 3000%Z db)))
  = fst (updateCourseProgress req 3000%Z db).
Proof.
  intros req db.
  apply (getCourseProgress_after_update req 3000%Z db). reflexivity.
Defined.

(** X22.  Whose progress can be read: a 200 answer of
    [getCourseProgress] carries the progress of an approved enrollment of
    the course, which is the caller's own or, for the instructor of the
    course who names a student in the query, that student's; the handler
    never writes. *)
Theorem getCourseProgress_own_or_instructor
    (req : Req.t (option ObjectId)) (db : DB) :
  snd (getCourseProgress req db) = db
  /\ (Response.status (fst (getCourseProgress req db)) = 200%nat ->
      exists course s,
        Courses db !! Req.params_id req = Some course
        /\ In s (Course.students course)
        /\ Student.enrollmentStatus s = approved
        /\ Response.body (fst (getCourseProgress req db))
           = ProgressData (Some (Student.progress s))
        /\ (Student.student s = User.id (Req.user req)
            \/ (Course.instructor course = User.id (Req.user req)
                /\ Req.body req = Some (Student.student s)))).
Proof.
  unfold getCourseProgress, try_catch, bind, Course_findById, reply.
  cbn [fst snd].
  destruct (Courses db !! Req.params_id req) as [course|];
    [|split; [reflexivity | discriminate]].
  destruct (Req.body req) as [studentId|].
  - destruct (negb (String.eqb studentId "")
              && String.eqb (Course.instructor course)
                   (User.id (Req.user req))) eqn:Hinstructor.
    + apply andb_true_iff in Hinstructor as [_ Hinstructor].
      apply String.eqb_eq in Hinstructor.
      destruct (List.find (isApprovedStudent studentId)
                  (Course.students course)) as [s|] eqn:Hfind;
        [|split; [reflexivity | discriminate]].
      apply find_approved in Hfind as (Hin & Hid & Hstatus).
      split; [reflexivity|]. intros _. exists course, s.
      repeat split; trivial. right. split; [exact Hinstructor|].
      rewrite Hid. reflexivity.
    + destruct (List.find (isApprovedStudent (User.id (Req.user req)))
                  (Course.students course)) as [s|] eqn:Hfind;
        [|split; [reflexivity | discriminate]].
      apply find_approved in Hfind as (Hin & Hid & Hstatus).
      split; [reflexivity|]. intros _. exists course, s.
      repeat split; trivial. left. exact Hid.
  - destruct (List.find (isApprovedStudent (User.id (Req.user req)))
                (Course.students course)) as [s|] eqn:Hfind;
      [|split; [reflexivity | discriminate]].
    apply find_approved in Hfind as (Hin & Hid & Hstatus).
    split; [reflexivity|]. intros _. exists course, s.
    repeat split; trivial. left. exact Hid.
Qed.

Lemma getCourseProgress_own_or_instructor_witness :
  let req :=
    {| Req.user := Fixture.teacher1;
       Req.params_id := "c1";
       Req.body := Some "u1" |} in
  let db := Fixture.dbWith (Fixture.courseWithMaterials 2 1) in
  exists course s,
    Courses db !! Req.params_id req = Some course
    /\ In s (Course.students course)
    /\ Student.enrollmentStatus s = approved
    /\ Response.body (fst (getCourseProgress req db))
       = ProgressData (Some (Student.progress s))
    /\ (Student.student s = User.id (Req.user req)
        \/ (Course.instructor course = User.id (Req.user req)
            /\ Req.body req = Some (Student.student s))).
Proof.
  intros req db.
  apply (proj2 (getCourseProgress_own_or_instructor req db)). reflexivity.
Defined.

(** ** Enrollment decisions *)

Lemma findIndex_first {A} (p : A -> bool) (l : list A) (i : nat) (x : A) :
  l !! i = Some x -> p x = true ->
  (forall j y, (j < i)%nat -> l !! j = Some y -> p y = false) ->
  findIndex p l = Some i.
Proof.
  intros Hx Hp Hbefore.
  destruct (findIndex p l) as [k|] eqn:Hk.
  - destruct (findIndex_Some _ _ _ Hk) as (y & Hy & Hpy & Hbefore').
    destruct (Nat.lt_trichotomy k i) as [Hlt|[->|Hlt]]; [|reflexivity|].
    + rewrite (Hbefore k y Hlt Hy) in Hpy. discriminate.
    + rewrite (Hbefore' i x Hlt Hx) in Hp. discriminate.
  - apply findIndex_None in Hk. rewrite Forall_lookup in Hk.
    rewrite (Hk i x Hx) in Hp. discriminate.
Qed.

Lemma isPendingStudent_true (studentId : ObjectId) (s : Student.t) :
  isPendingStudent studentId s = true
  <-> Student.student s = studentId /\ Student.enrollmentStatus s = pending.
Proof.
  unfold isPendingStudent. rewrite andb_true_iff, String.eqb_eq.
  destruct (Student.enrollmentStatus s); simpl; intuition discriminate.
Qed.

Lemma isApprovedStudent_true (userId : ObjectId) (s : Student.t) :
  isApprovedStudent userId s = true
  <-> Student.student s = userId /\ Student.enrollmentStatus s = approved.
Proof.
  unfold isApprovedStudent. rewrite andb_true_iff, String.eqb_eq.
  destruct (Student.enrollmentStatus s); simpl; intuition discriminate.
Qed.

Section EnrollmentDecision.

Variables (req : Req.t string) (studentId : ObjectId) (db : DB).
Variables (course : Course.t).

Hypothesis Hcourse : Courses db !! Req.params_id req = Some course.

(** The course document after [updateEnrollmentStatus]: either nothing
    is saved, or the first pending enrollment of the student gets the
    decided status, on behalf of the instructor or an admin. *)
Lemma updateEnrollmentStatus_effect :
  snd (updateEnrollmentStatus req studentId db) = db
  \/ exists status k s,
       decisionOf (Req.body req) = Some status
       /\ notAuthorized course (Req.user req) = false
       /\ findIndex (isPendingStudent studentId) (Course.students course)
          = Some k
       /\ Course.students course !! k = Some s
       /\ snd (updateEnrollmentStatus req studentId db)
          = set_Courses
              (<[Req.params_id req :=
                   Course.set_students
                     (<[k := Student_set_enrollmentStatus status s]>
                        (Course.students course)) course]> (Courses db)) db.
Proof.
  unfold updateEnrollmentStatus.
  destruct (decisionOf (Req.body req)) as [status|]; [|left; reflexivity].
  rewrite Hcourse.
  destruct (notAuthorized course (Req.user req)) eqn:Hauth;
    [left; reflexivity|].
  destruct (findIndex _ (Course.students course)) as [k|] eqn:Hk;
    [|left; reflexivity].
  destruct (findIndex_Some _ _ _ Hk) as (s & Hs & _).
  right. exists status, k, s. repeat split; trivial.
  cbn [snd]. do 3 f_equal.
  apply list_eq. intros j. destruct (decide (j = k)) as [->|Hne].
  - rewrite list_lookup_alter_eq, Hs.
    rewrite list_lookup_insert_eq by (eapply lookup_lt_Some; exact Hs).
    reflexivity.
  - rewrite list_lookup_alter_ne, list_lookup_insert_ne by congruence.
    reflexivity.
Qed.

End EnrollmentDecision.

(** X23.  An enrollment decision is final and touches one field: in the
    course that [updateEnrollmentStatus] leaves, every enrollment has
    the student and the progress it had, and the status it had unless it
    was pending, belongs to the student of the route, and the caller is
    the instructor or an admin who sent ["approved"] or ["rejected"],
    which is then the new status; the rest of the course, the other
    courses and the quiz documents are as before. *)
Theorem updateEnrollmentStatus_decides_pending_only
    (req : Req.t string) (studentId : ObjectId) (db : DB)
    (course : Course.t) :
  Courses db !! Req.params_id req = Some course ->
  let db' := snd (updateEnrollmentStatus req studentId db) in
  Quizzes db' = Quizzes db
  /\ (forall id, id <> Req.params_id req ->
                 Courses db' !! id = Courses db !! id)
  /\ exists course',
       Courses db' !! Req.params_id req = Some course'
       /\ Course.instructor course' = Course.instructor course
       /\ Course.modules course' = Course.modules course
       /\ Course.quizzes course' = Course.quizzes course
       /\ Forall2
            (fun s s' =>
               Student.student s' = Student.student s
               /\ Student.progress s' = Student.progress s
               /\ (Student.enrollmentStatus s' = Student.enrollmentStatus s
                   \/ (Student.enrollmentStatus s = pending
                       /\ Student.student s = studentId
                       /\ decisionOf (Req.body req)
                          = Some (Student.enrollmentStatus s')
                       /\ notAuthorized course (Req.user req) = false)))
            (Course.students course) (Course.students course').
Proof.
  intros Hcourse db'. subst db'.
  destruct (updateEnrollmentStatus_effect req studentId db course Hcourse)
    as [->|(status & k & s & Hstatus & Hauth & Hk & Hs & ->)].
  { repeat split; trivial. exists course. repeat split; trivial.
    apply Forall_Forall2_diag, Forall_forall. auto. }
  cbn [Quizzes Courses set_Courses].
  split; [reflexivity|]. split.
  { intros id Hne. apply lookup_insert_ne. congruence. }
  eexists. split; [apply lookup_insert_eq|].
  cbn [Course.instructor Course.modules Course.quizzes Course.students
         Course.set_students].
  repeat split; trivial.
  apply Forall2_same_length_lookup. split; [symmetry; apply length_insert|].
  intros j x x' Hx Hx'. destruct (decide (j = k)) as [->|Hne].
  - rewrite list_lookup_insert_eq in Hx'
      by (eapply lookup_lt_Some; exact Hs).
    assert (x = s) as -> by congruence. injection Hx' as <-.
    destruct (findIndex_Some _ _ _ Hk) as (y & Hy & Hp & _).
    assert (y = s) as -> by congruence.
    apply isPendingStudent_true in Hp as [Hid Hpending].
    repeat split; trivial. right. auto.
  - rewrite list_lookup_insert_ne in Hx' by congruence.
    assert (x' = x) as -> by congruence. auto.
Qed.

Lemma updateEnrollmentStatus_decides_pending_only_witness :
  let req :=
    {| Req.user := Fixture.teacher1;
       Req.params_id := "c1";
       Req.body := "rejected" |} in
  let course :=
    Course.set_students
      [Fixture.enrolled Fixture.newProgress;
       Student_set_enrollmentStatus pending
         (Fixture.enrolled Fixture.newProgress)] Fixture.course1 in
  exists course',
    Courses (snd (updateEnrollmentStatus req "u1" (Fixture.dbWith course)))
      !! "c1" = Some course'
    /\ Forall2
         (fun s s' =>
            Student.student s' = Student.student s
            /\ Student.progress s' = Student.progress s
            /\ (Student.enrollmentStatus s' = Student.enrollmentStatus s
                \/ (Student.enrollmentStatus s = pending
                    /\ Student.student s = "u1"
                    /\ decisionOf (Req.body req)
                       = Some (Student.enrollmentStatus s')
                    /\ notAuthorized course (Req.user req) = false)))
         (Course.students course) (Course.students course').
Proof.
  intros req course.
  destruct (updateEnrollmentStatus_decides_pending_only req "u1"
              (Fixture.dbWith course) course eq_refl)
    as (_ & _ & course' & Hcourse' & _ & _ & _ & Hstudents).
  exists course'. split; [exact Hcourse' | exact Hstudents].
Defined.

Lemma updateCourseProgress_not_enrolled
    (req : Req.t ProgressUpdate.t) (now : Date) (db : DB)
    (course : Course.t) :
  Courses db !! Req.params_id req = Some course ->
  findIndex (isApprovedStudent (User.id (Req.user req)))
    (Course.students course) = None ->
  updateCourseProgress req now db
  = ({| Response.status := 403;
        Response.body :=
          Failure "You are not enrolled in this course" None |}, db).
Proof.
  intros Hcourse Hnone.
  unfold updateCourseProgress, try_catch, bind, Course_findById.
  cbn [fst snd]. rewrite Hcourse, Hnone. reflexivity.
Qed.

(** X24.  Approval opens the course: a student whose enrollments in the
    course are pending or rejected, one of them pending, gets 403 from
    [updateCourseProgress]; after the decision of the instructor (or an
    admin) by [updateEnrollmentStatus] the same request gets 200 when
    the decision was ["approved"] and 403 again when it was
    ["rejected"]. *)
Theorem approval_opens_updateCourseProgress
    (update : Req.t ProgressUpdate.t) (decision : Req.t string)
    (now : Date) (db : DB) (course : Course.t) (status : EnrollmentStatus)
    (s : Student.t) :
  Courses db !! Req.params_id update = Some course ->
  Req.params_id decision = Req.params_id update ->
  notAuthorized course (Req.user decision) = false ->
  decisionOf (Req.body decision) = Some status ->
  (forall x, In x (Course.students course) ->
             Student.student x = User.id (Req.user update) ->
             Student.enrollmentStatus x <> approved) ->
  In s (Course.students course) ->
  Student.student s = User.id (Req.user update) ->
  Student.enrollmentStatus s = pending ->
  let db' :=
    snd (updateEnrollmentStatus decision (User.id (Req.user update)) db) in
  Response.status (fst (updateCourseProgress update now db)) = 403%nat
  /\ Response.status (fst (updateCourseProgress update now db'))
     = match status with approved => 200%nat | _ => 403%nat end.
Proof.
  intros Hcourse Hid Hauth Hstatus Hnone Hin Hs Hpending db'. subst db'.
  split.
  { rewrite (updateCourseProgress_not_enrolled update now db course Hcourse)
      by (apply findIndex_not_approved; exact Hnone).
    reflexivity. }
  rewrite <- Hid in Hcourse.
  destruct (updateEnrollmentStatus_effect decision
              (User.id (Req.user update)) db course Hcourse)
    as [Hsame|(status' & k & p & Hstatus' & _ & Hk & Hp & ->)].
  { exfalso. unfold updateEnrollmentStatus in Hsame.
    rewrite Hstatus, Hcourse, Hauth in Hsame.
    destruct (findIndex_exists (isPendingStudent (User.id (Req.user update)))
                (Course.students course) s Hin) as [k Hk].
    { apply isPendingStudent_true. auto. }
    rewrite Hk in Hsame. cbn [snd] in Hsame.
    apply (f_equal (fun d => Courses d !! Req.params_id decision)) in Hsame.
    cbn [Courses set_Courses] in Hsame.
    rewrite lookup_insert_eq, Hcourse in Hsame.
    injection Hsame as Hsame. apply (f_equal Course.students) in Hsame.
    cbn [Course.students Course.set_students] in Hsame.
    destruct (findIndex_Some _ _ _ Hk) as (p & Hp & Hpp & _).
    apply isPendingStudent_true in Hpp as [_ Hpp].
    apply (f_equal (fun l => Student.enrollmentStatus <$> l !! k)) in Hsame.
    rewrite list_lookup_alter_eq, Hp in Hsame. cbn in Hsame.
    rewrite Hpp in Hsame. injection Hsame as ->.
    destruct (Req.body decision =? "approved")%string eqn:H1;
      unfold decisionOf in Hstatus; rewrite H1 in Hstatus;
      [discriminate|].
    destruct (Req.body decision =? "rejected")%string; discriminate. }
  assert (status' = status) as -> by congruence.
  destruct (findIndex_Some _ _ _ Hk) as (p' & Hp' & Hpp & Hbefore).
  assert (p' = p) as -> by congruence.
  apply isPendingStudent_true in Hpp as [Hpid Hppending].
  set (students' := <[k := Student_set_enrollmentStatus status p]>
                      (Course.students course)).
  set (db' := set_Courses _ db).
  assert (Hcourse' : Courses db' !! Req.params_id update
                     = Some (Course.set_students students' course)).
  { subst db'. cbn [Courses set_Courses]. rewrite <- Hid.
    apply lookup_insert_eq. }
  assert (Hk' : students' !! k
                = Some (Student_set_enrollmentStatus status p)).
  { apply list_lookup_insert_eq. eapply lookup_lt_Some. exact Hp. }
  destruct status.
  - rewrite (updateCourseProgress_not_enrolled update now db' _ Hcourse');
      [reflexivity|].
    exfalso. unfold decisionOf in Hstatus.
    destruct (Req.body decision =? "approved")%string; [discriminate|].
    destruct (Req.body decision =? "rejected")%string; discriminate.
  - assert (Hindex : findIndex (isApprovedStudent (User.id (Req.user update)))
                       students' = Some k).
    { apply (findIndex_first _ _ _ _ Hk').
      - apply isApprovedStudent_true. split; [exact Hpid | reflexivity].
      - intros j y Hj Hy. subst students'.
        rewrite list_lookup_insert_ne in Hy by lia.
        apply not_true_is_false. intros Hy'.
        apply isApprovedStudent_true in Hy' as [Hy1 Hy2].
        apply (Hnone y); trivial.
        apply list_elem_of_In, list_elem_of_lookup. eauto. }
    destruct (updateCourseProgress_shape update now db' _ k _
                Hcourse' Hindex Hk') as (l & -> & _).
    reflexivity.
  - rewrite (updateCourseProgress_not_enrolled update now db' _ Hcourse');
      [reflexivity|].
    apply findIndex_not_approved.
    cbn [Course.students Course.set_students]. intros x Hx Hxid.
    apply list_elem_of_In, list_elem_of_lookup in Hx as [j Hj].
    subst students'. destruct (decide (j = k)) as [->|Hne].
    + rewrite Hk' in Hj. injection Hj as <-. discriminate.
    + rewrite list_lookup_insert_ne in Hj by congruence.
      apply (Hnone x); trivial.
      apply list_elem_of_In, list_elem_of_lookup. eauto.
Qed.

Lemma approval_opens_updateCourseProgress_witness :
  let update := Fixture.progressRequest (Some "lesson-1") true in
  let decision :=
    {| Req.user := Fixture.teacher1;
       Req.params_id := "c1";
       Req.body := "approved" |} in
  let waiting :=
    Student_set_enrollmentStatus pending
      (Fixture.enrolled Fixture.newProgress) in
  let db := Fixture.dbWith (Course.set_students [waiting] Fixture.course1) in
  Response.status (fst (updateCourseProgress update 3000%Z db)) = 403%nat
  /\ Response.status
       (fst (updateCourseProgress update 3000%Z
               (snd (updateEnrollmentStatus decision "u1" db)))) = 200%nat.
Proof.
  intros update decision waiting db.
  apply (approval_opens_updateCourseProgress update decision 3000%Z db
           (Course.set_students [waiting] Fixture.course1) approved waiting
           eq_refl eq_refl eq_refl eq_refl).
  - intros x [<-|[]] _. discriminate.
  - left. reflexivity.
  - reflexivity.
  - reflexivity.
Defined.

(** ** Adding a material *)

Lemma materials_alter (f : CourseModule.t -> CourseModule.t)
    (material : Material.t) (modules : list CourseModule.t) (k : nat)
    (module : CourseModule.t) :
  (forall m, CourseModule.materials (f m)
             = CourseModule.materials m ++ [material]) ->
  modules !! k = Some module ->
  Permutation
    (concat (map CourseModule.materials (alter f k modules)))
    (material :: concat (map CourseModule.materials modules)).
Proof.
  intros Hf. revert k.
  induction modules as [|m modules IH]; intros [|k] Hk; try discriminate.
  - cbn. rewrite Hf, <- app_assoc. cbn.
    symmetry. apply Permutation_middle.
  - cbn. cbn in Hk. rewrite (IH k Hk).
    symmetry. apply Permutation_middle.
Qed.

Lemma find_Some_findIndex {A} (p : A -> bool) (l : list A) (x : A) :
  List.find p l = Some x -> exists k, findIndex p l = Some k.
Proof.
  intros H. apply List.find_some in H as [Hin Hp].
  exact (findIndex_exists p l x Hin Hp).
Qed.

(** X25.  A new material changes the counters and no enrollment: for
    the instructor (or an admin) and a [moduleIndex] that is a number,
    [addCourseMaterial] saves a course with the students, quizzes and
    instructor it had; for every student, [totalRequiredItems] counted
    over the saved course has one [++] more when the material is
    required, [completedItems] has one more when moreover the student
    already lists the new [_id], and both are as before for an optional
    material, while the stored [completionPercentage] is not
    recomputed. *)
Theorem addCourseMaterial_counts
    (req : Req.t MaterialFields.t) (newId : ObjectId) (db : DB)
    (course : Course.t) :
  Courses db !! Req.params_id req = Some course ->
  notAuthorized course (Req.user req) = false ->
  is_nan (MaterialFields.moduleIndex (Req.body req)) = false ->
  exists course',
    addCourseMaterial req newId db
    = ({| CourseResponse.status := 200;
          CourseResponse.body := CourseData None course' |},
       set_Courses (<[Req.params_id req := course']> (Courses db)) db)
    /\ Course.students course' = Course.students course
    /\ Course.quizzes course' = Course.quizzes course
    /\ Course.instructor course' = Course.instructor course
    /\ forall student,
         countItems course' student
         = if default true (MaterialFields.isRequired (Req.body req))
           then (fst (countItems course student) + 1,
                 if includes
                      (Progress.completedLessons (Student.progress student))
                      newId
                 then snd (countItems course student) + 1
                 else snd (countItems course student))
           else countItems course student.
Proof.
  intros Hcourse Hauth Hnan. unfold addCourseMaterial.
  rewrite Hcourse, Hauth.
  set (hasOrder := fun m : CourseModule.t =>
         CourseModule.order m =? MaterialFields.moduleIndex (Req.body req)).
  set (modules := match List.find hasOrder (Course.modules course) with
                  | Some _ => Course.modules course
                  | None => _
                  end).
  set (material := {| Material._id := newId; Material.isRequired := _ |}).
  assert (Hmaterials :
            concat (map CourseModule.materials modules)
            = concat (map CourseModule.materials (Course.modules course))).
  { subst modules. destruct (List.find hasOrder (Course.modules course));
      [reflexivity|].
    rewrite map_app, concat_app. cbn. rewrite app_nil_r. reflexivity. }
  assert (exists k, findIndex hasOrder modules = Some k) as [k Hk].
  { subst modules.
    destruct (List.find hasOrder (Course.modules course)) as [m|] eqn:Hfind.
    - exact (find_Some_findIndex _ _ _ Hfind).
    - eapply findIndex_exists.
      + apply in_or_app. right. left. reflexivity.
      + subst hasOrder. cbn. unfold is_nan in Hnan.
        apply negb_false_iff in Hnan. exact Hnan. }
  rewrite Hk. eexists. split; [reflexivity|].
  cbn [Course.students Course.quizzes Course.instructor Course.modules
         Course_set_modules].
  repeat split. intros student.
  destruct (findIndex_Some _ _ _ Hk) as (module & Hmodule & _).
  match goal with
  | |- context [alter ?f k modules] =>
      pose proof (materials_alter f material modules k module
                    (fun _ => eq_refl) Hmodule) as Hperm
  end.
  rewrite Hmaterials in Hperm.
  rewrite !countItems_increments. unfold requiredMaterialsOf.
  cbn [Course.students Course.quizzes Course.instructor Course.modules
         Course_set_modules fst snd].
  pose proof (List_filter_Permutation Material.isRequired _ _ Hperm)
    as Hrequired.
  pose proof (List_filter_Permutation (isCompletedMaterial student) _ _
                Hrequired) as Hcompleted.
  apply Permutation_length in Hrequired, Hcompleted.
  rewrite Hrequired, Hcompleted. clear Hperm Hrequired Hcompleted.
  cbn [List.filter]. subst material. cbn [Material.isRequired].
  destruct (default true (MaterialFields.isRequired (Req.body req)));
    [|reflexivity].
  cbn [List.filter]. unfold isCompletedMaterial at 1. cbn [Material._id].
  destruct (includes _ newId); reflexivity.
Qed.

Lemma addCourseMaterial_counts_witness :
  let req :=
    {| Req.user := Fixture.teacher1;
       Req.params_id := "c1";
       Req.body :=
         {| MaterialFields.moduleIndex := 1;
            MaterialFields.isRequired := None |} |} in
  let db := Fixture.dbWith (Fixture.courseWithMaterials 2 1) in
  exists course',
    Courses (snd (addCourseMaterial req "m9" db)) !! "c1" = Some course'
    /\ Course.students course'
       = Course.students (Fixture.courseWithMaterials 2 1)
    /\ forall student,
         fst (countItems course' student)
         = fst (countItems (Fixture.courseWithMaterials 2 1) student) + 1.
Proof.
  intros req db.
  destruct (addCourseMaterial_counts req "m9" db
              (Fixture.courseWithMaterials 2 1) eq_refl eq_refl eq_refl)
    as (course' & Hrun & Hstudents & _ & _ & Hcount).
  exists course'. split; [|split; [exact Hstudents|]].
  - rewrite Hrun. apply lookup_insert_eq.
  - intros student. rewrite (Hcount student). reflexivity.
Defined.

(** ** Deleting a course *)

Lemma deleteCourse_effect (req : Req.t unit) (db : DB) :
  Response.status (fst (deleteCourse req db)) = 200%nat ->
  snd (deleteCourse req db)
  = set_Courses (delete (Req.params_id req) (Courses db)) db.
Proof.
  unfold deleteCourse, try_catch, bind, Course_findById, Course_deleteOne,
    reply. cbn [fst snd].
  destruct (Courses db !! Req.params_id req) as [course|];
    [|discriminate].
  destruct (notAuthorized course (Req.user req)); [discriminate|].
  reflexivity.
Qed.

(** X26.  Deleting a course orphans its quizzes: after [deleteCourse]
    has answered 200 the quiz documents are all still stored, and for a
    quiz of the deleted course [deleteQuiz], [updateQuiz] and
    [getQuizResults] answer 500 to every user and write nothing, while
    [startQuizAttempt] answers 404, so that the quiz can be neither
    removed nor attempted any more. *)
Theorem deleteCourse_orphans_quizzes
    (req quizReq : Req.t unit) (fields : QuizFields.t) (now : Date)
    (db : DB) (quiz : Quiz.t) :
  Response.status (fst (deleteCourse req db)) = 200%nat ->
  Quizzes db !! Req.params_id quizReq = Some quiz ->
  Quiz.course quiz = Req.params_id req ->
  let db' := snd (deleteCourse req db) in
  let update :=
    {| Req.user := Req.user quizReq;
       Req.params_id := Req.params_id quizReq;
       Req.body := fields |} in
  Quizzes db' = Quizzes db
  /\ Courses db' !! Req.params_id req = None
  /\ (Response.status (fst (deleteQuiz quizReq db')) = 500%nat
      /\ snd (deleteQuiz quizReq db') = db')
  /\ (Response.status (fst (updateQuiz update db')) = 500%nat
      /\ snd (updateQuiz update db') = db')
  /\ (Response.status (fst (getQuizResults quizReq db')) = 500%nat
      /\ snd (getQuizResults quizReq db') = db')
  /\ (Response.status (fst (startQuizAttempt quizReq now db')) = 404%nat
      /\ snd (startQuizAttempt quizReq now db') = db').
Proof.
  intros Hok Hquiz Hcourse db' update. subst db' update.
  rewrite (deleteCourse_effect req db Hok).
  assert (Hgone : Courses (set_Courses
                             (delete (Req.params_id req) (Courses db)) db)
                    !! Quiz.course quiz = None).
  { rewrite Hcourse. apply lookup_delete_eq. }
  split; [reflexivity|]. split; [apply lookup_delete_eq|].
  unfold deleteQuiz, updateQuiz, getQuizResults, startQuizAttempt,
    try_catch, bind, Quiz_findById, Course_findById, throw, reply.
  cbn [fst snd Req.user Req.params_id Req.body Quizzes set_Courses].
  rewrite Hquiz, Hgone.
  repeat split.
Qed.

Lemma deleteCourse_orphans_quizzes_witness :
  let req :=
    {| Req.user := Fixture.teacher1; Req.params_id := "c1";
       Req.body := tt |} in
  let quizReq := Fixture.request Fixture.teacher1 tt in
  let db' := snd (deleteCourse req (Fixture.dbOf Fixture.twoQuestions)) in
  Quizzes db' !! "q1" = Some Fixture.twoQuestions
  /\ Response.status (fst (deleteQuiz quizReq db')) = 500%nat.
Proof.
  intros req quizReq db'.
  destruct (deleteCourse_orphans_quizzes req quizReq
              {| QuizFields.title := None; QuizFields.course := None;
                 QuizFields.passingScore := None;
                 QuizFields.isActive := None;
                 QuizFields.questions := None;
                 QuizFields.attempts := None |}
              3000%Z (Fixture.dbOf Fixture.twoQuestions)
              Fixture.twoQuestions eq_refl eq_refl eq_refl)
    as (Hquizzes & _ & [Hdelete _] & _).
  split; [|exact Hdelete].
  fold db' in Hquizzes. rewrite Hquizzes. reflexivity.
Defined.
